(** * Reward shaping and state randomisation of the Sawyer manipulation tasks

    A shallow embedding of the four task classes

      - [SawyerButtonPressWallEnvV2]   (sawyer_button_press_wall_v2.py)
      - [SawyerPlateSlideBackSideEnvV2] (sawyer_plate_slide_back_side_v2.py)
      - [SawyerReachEnvV2]             (sawyer_reach_v2.py)
      - [SawyerWindowOpenEnvV2]        (sawyer_window_open_v2.py)

    Conventions of the embedding.

    - numpy / Python floats are idealised as real numbers ([R]): rounding,
      infinities and NaN are outside the model.
    - a one-dimensional numpy array is a [list R]; slicing, indexing and
      element-wise arithmetic follow numpy, including the exceptions they
      raise.
    - a method is a computation in a state-and-exception monad over the
      instance ([self]); reading an attribute is [gets], assigning one is
      [modify].
    - the info dict is an association list in insertion order. *)

From Stdlib Require Import Reals Lra Psatz List String Bool Arith Lia.
Import ListNotations.
Open Scope R_scope.

(** ** Python outcomes: a state-and-exception monad *)

Inductive precondition : Type :=
| TaskNotSet        (* evaluation before the task/goal is configured *)
| InvalidMargin     (* shaping margin that is not positive *)
| InvalidBounds.    (* shaping bounds with lo > hi *)

Inductive exn : Type :=
| PreconditionViolation (p : precondition)
| IndexError            (* index out of range *)
| ValueError.           (* operands could not be broadcast together *)

Inductive result (A : Type) : Type :=
| Ok (a : A)
| Raise (e : exn)
| OutOfFuel.            (* a [while] loop that has not finished yet *)

Arguments Ok {A} a.
Arguments Raise {A} e.
Arguments OutOfFuel {A}.

Definition M (S A : Type) : Type := S -> result A * S.

Definition ret {S A : Type} (a : A) : M S A := fun s => (Ok a, s).

Definition bind {S A B : Type} (m : M S A) (k : A -> M S B) : M S B :=
  fun s =>
    match m s with
    | (Ok a, s') => k a s'
    | (Raise e, s') => (Raise e, s')
    | (OutOfFuel, s') => (OutOfFuel, s')
    end.

Definition lift {S A : Type} (r : result A) : M S A := fun s => (r, s).

Definition gets {S A : Type} (f : S -> A) : M S A := fun s => (Ok (f s), s).

Definition modify {S : Type} (f : S -> S) : M S unit := fun s => (Ok tt, f s).

Notation "x <- m ;; k" := (bind m (fun x => k))
  (at level 61, m at next level, right associativity).
Notation "x <~ r ;; k" := (bind (lift r) (fun x => k))
  (at level 61, r at next level, right associativity).
Notation "m ;;; k" := (bind m (fun _ => k))
  (at level 61, right associativity).

(** [while cond body] with a bound on the number of iterations. *)
Fixpoint while {S L : Type} (fuel : nat) (cond : L -> M S bool)
         (body : L -> M S L) (l : L) : M S L :=
  match fuel with
  | O => lift OutOfFuel
  | S fuel' =>
      c <- cond l ;;
      if (c : bool) then l' <- body l ;; while fuel' cond body l'
      else ret l
  end.

(** A computation that never assigns to the instance. *)
Definition read_only {S A : Type} (m : M S A) : Prop :=
  forall s, snd (m s) = s.

(** [float(b)] for a Python bool. *)
Definition float_of_bool (b : bool) : R := if b then 1 else 0.

Definition Rltb (x y : R) : bool := if Rlt_dec x y then true else false.
Definition Rleb (x y : R) : bool := if Rle_dec x y then true else false.

(** ** numpy arrays *)

Module Np.

Definition array : Type := list R.

(** [a[i]] for [0 <= i]. *)
Definition item (i : nat) (a : array) : result R :=
  match nth_error a i with
  | Some x => Ok x
  | None => Raise IndexError
  end.

(** [a[-1]]. *)
Definition item_last (a : array) : result R :=
  match a with
  | [] => Raise IndexError
  | _ :: _ => Ok (last a 0)
  end.

(** [a[i:j]], [a[:j]], [a[i:]] and [a[-n:]]; slices never raise. *)
Definition slice (i j : nat) (a : array) : array := firstn (j - i) (skipn i a).
Definition slice_to (j : nat) (a : array) : array := firstn j a.
Definition slice_from (i : nat) (a : array) : array := skipn i a.
Definition slice_last (n : nat) (a : array) : array :=
  skipn (List.length a - n) a.

Fixpoint zip_with (f : R -> R -> R) (a b : array) : array :=
  match a, b with
  | x :: a', y :: b' => f x y :: zip_with f a' b'
  | _, _ => []
  end.

(** Element-wise operation on two one-dimensional arrays with numpy's
    broadcasting: equal shapes pair up, a shape-(1,) operand is repeated,
    anything else raises. *)
Definition broadcast (f : R -> R -> R) (a b : array) : result array :=
  if Nat.eqb (List.length a) (List.length b) then Ok (zip_with f a b)
  else match a, b with
       | [x], _ => Ok (map (fun y => f x y) b)
       | _, [y] => Ok (map (fun x => f x y) a)
       | _, _ => Raise ValueError
       end.

Definition sub : array -> array -> result array := broadcast Rminus.
Definition add : array -> array -> result array := broadcast Rplus.

(** [np.hstack((a, b))] of two one-dimensional arrays. *)
Definition hstack (a b : array) : array := a ++ b.

Definition dot (a b : array) : R :=
  fold_right Rplus 0 (zip_with Rmult a b).

(** [np.linalg.norm(x)] with the default order: [sqrt(x . x)] on the
    flattened input. *)
Definition norm (a : array) : R := sqrt (dot a a).

(** The same on a scalar, which numpy flattens to one element. *)
Definition norm_scalar (x : R) : R := norm [x].

End Np.

(** ** reward_utils *)

Module reward_utils.

Section Shaping.

(** The falloff family: [decay sigmoid d] is the value of the curve named
    [sigmoid] at the normalised overshoot [d]. *)
Variable decay : string -> R -> R.

(** Modelled from the spec: [reward_utils.tolerance] is not part of the
    sources at hand.  A margin that is not positive and bounds with
    [lo > hi] are precondition violations; a value inside the bounds scores
    1; outside, the overshoot is normalised by the margin and passed to the
    selected decay curve. *)
Definition tolerance (x : R) (bounds : R * R) (margin : R)
           (sigmoid : string) : result R :=
  let (lower, upper) := bounds in
  if Rle_dec margin 0 then Raise (PreconditionViolation InvalidMargin)
  else if Rlt_dec upper lower then Raise (PreconditionViolation InvalidBounds)
  else if Rleb lower x && Rleb x upper then Ok 1
  else
    let d := (if Rlt_dec x lower then lower - x else x - upper) / margin in
    Ok (decay sigmoid d).

End Shaping.

(** Modelled from the spec: [reward_utils.hamacher_product] is not part of
    the sources at hand.  [(a*b) / (a + b - a*b)], and 0 when both inputs
    are 0. *)
Definition hamacher_product (a b : R) : R :=
  if Req_dec_T a 0 then
    if Req_dec_T b 0 then 0 else (a * b) / (a + b - a * b)
  else (a * b) / (a + b - a * b).

End reward_utils.

(** ** The base class [SawyerXYZEnv] *)

(** What the methods below read from the simulator ([self.data],
    [self.model]). *)
Record MjData : Type := {
  sim_tcp_center : Np.array;          (* current gripper position *)
  body_com : string -> Np.array;      (* centre of mass of a named body *)
  site_pos : string -> Np.array;      (* position of a named site *)
  geom_xpos : string -> Np.array      (* position of a named geometry *)
}.

Record InitConfig : Type := {
  cfg_obj_init_angle : R;
  cfg_obj_init_pos : Np.array;
  cfg_hand_init_pos : Np.array
}.

(** The attributes of an instance that the task classes read or assign.
    [task_is_set] is modelled from the spec: the state flag behind the
    guard [_assert_task_is_set], whose definition is not part of the
    sources at hand. *)
Record SawyerXYZEnv : Type := {
  task_is_set : bool;
  data : MjData;
  init_tcp : Np.array;
  hand_init_pos : Np.array;
  obj_init_pos : Np.array;
  obj_init_angle : R;
  _target_pos : Np.array;
  goal : Np.array;
  init_config : InitConfig;
  rand_draws : nat                    (* draws taken from [np_random] *)
}.

Definition set_obj_init_pos (v : Np.array) (e : SawyerXYZEnv) : SawyerXYZEnv :=
  {| task_is_set := task_is_set e; data := data e; init_tcp := init_tcp e;
     hand_init_pos := hand_init_pos e; obj_init_pos := v;
     obj_init_angle := obj_init_angle e; _target_pos := _target_pos e;
     goal := goal e; init_config := init_config e;
     rand_draws := rand_draws e |}.

Definition set_obj_init_angle (v : R) (e : SawyerXYZEnv) : SawyerXYZEnv :=
  {| task_is_set := task_is_set e; data := data e; init_tcp := init_tcp e;
     hand_init_pos := hand_init_pos e; obj_init_pos := obj_init_pos e;
     obj_init_angle := v; _target_pos := _target_pos e;
     goal := goal e; init_config := init_config e;
     rand_draws := rand_draws e |}.

Definition set_target_pos (v : Np.array) (e : SawyerXYZEnv) : SawyerXYZEnv :=
  {| task_is_set := task_is_set e; data := data e; init_tcp := init_tcp e;
     hand_init_pos := hand_init_pos e; obj_init_pos := obj_init_pos e;
     obj_init_angle := obj_init_angle e; _target_pos := v;
     goal := goal e; init_config := init_config e;
     rand_draws := rand_draws e |}.

Definition set_rand_draws (n : nat) (e : SawyerXYZEnv) : SawyerXYZEnv :=
  {| task_is_set := task_is_set e; data := data e; init_tcp := init_tcp e;
     hand_init_pos := hand_init_pos e; obj_init_pos := obj_init_pos e;
     obj_init_angle := obj_init_angle e; _target_pos := _target_pos e;
     goal := goal e; init_config := init_config e;
     rand_draws := n |}.

(** A task class inherits from [SawyerXYZEnv]: its instances carry the
    attributes of the base class. *)
Class Sawyer (S : Type) : Type := {
  super : S -> SawyerXYZEnv
}.

#[global] Instance Sawyer_base : Sawyer SawyerXYZEnv := {| super := fun e => e |}.

(** The property [tcp_center]. *)
Definition tcp_center {S : Type} `{Sawyer S} (self : S) : Np.array :=
  sim_tcp_center (data (super self)).

Definition get_body_com {S : Type} `{Sawyer S} (name : string) (self : S)
  : Np.array :=
  body_com (data (super self)) name.

Definition _get_site_pos {S : Type} `{Sawyer S} (name : string) (self : S)
  : Np.array :=
  site_pos (data (super self)) name.

(** Modelled from the spec: the decorator [_assert_task_is_set] is not part
    of the sources at hand.  An explicit state flag is checked before the
    wrapped method runs; evaluation before the task is set fails with a
    precondition violation. *)
Definition _assert_task_is_set {S A : Type} `{Sawyer S} (func : M S A)
  : M S A :=
  fun self =>
    if task_is_set (super self) then func self
    else (Raise (PreconditionViolation TaskNotSet), self).

(** The info dict: keys in insertion order. *)
Definition dict : Type := list (string * R).

Fixpoint dict_get (k : string) (d : dict) : option R :=
  match d with
  | [] => None
  | (k', v) :: d' => if String.eqb k k' then Some v else dict_get k d'
  end.

Notation "' pat <- m ;; k" :=
  (bind m (fun x => match x with pat => k end))
  (at level 61, pat pattern, m at next level, right associativity).

(** Reading an attribute of the base class. *)
Definition attr {S A : Type} `{Sawyer S} (f : SawyerXYZEnv -> A) : M S A :=
  gets (fun self => f (super self)).

(** [gymnasium.spaces.Box]: the points between two bound vectors. *)
Record Box : Type := { low : Np.array; high : Np.array }.

Fixpoint within (lo hi v : Np.array) : Prop :=
  match lo, hi, v with
  | [], [], [] => True
  | l :: lo', h :: hi', x :: v' => l <= x <= h /\ within lo' hi' v'
  | _, _, _ => False
  end.

Definition contains (b : Box) (v : Np.array) : Prop :=
  within (low b) (high b) v.

(** ** sawyer_plate_slide_back_side_v2.py *)

Module PlateSlideBackSide.

Section Task.

Variable decay : string -> R -> R.

Definition compute_reward (actions obs : Np.array)
  : M SawyerXYZEnv (R * R * R * R * R * R) :=
  let _TARGET_RADIUS := 0.05 in
  tcp <- gets tcp_center ;;
  let obj := Np.slice 4 7 obs in
  tcp_opened <~ Np.item 3 obs ;;
  target <- attr _target_pos ;;

  obj_minus_target <~ Np.sub obj target ;;
  let obj_to_target := Np.norm obj_minus_target in
  obj_init <- attr obj_init_pos ;;
  init_minus_target <~ Np.sub obj_init target ;;
  let in_place_margin := Np.norm init_minus_target in
  in_place <~ reward_utils.tolerance decay obj_to_target
                (0, _TARGET_RADIUS) (in_place_margin - _TARGET_RADIUS)
                "long_tail" ;;

  tcp_minus_obj <~ Np.sub tcp obj ;;
  let tcp_to_obj := Np.norm tcp_minus_obj in
  tcp0 <- attr init_tcp ;;
  obj_init' <- attr obj_init_pos ;;
  tcp0_minus_init <~ Np.sub tcp0 obj_init' ;;
  let obj_grasped_margin := Np.norm tcp0_minus_init in
  object_grasped <~ reward_utils.tolerance decay tcp_to_obj
                      (0, _TARGET_RADIUS) (obj_grasped_margin - _TARGET_RADIUS)
                      "long_tail" ;;

  let reward := 1.5 * object_grasped in

  tcp_z <~ Np.item 2 tcp ;;
  let reward :=
    if Rleb tcp_z 0.03 && Rltb tcp_to_obj 0.07 then 2 + 7 * in_place
    else reward in

  let reward := if Rltb obj_to_target _TARGET_RADIUS then 10 else reward in
  ret (reward, tcp_to_obj, tcp_opened, obj_to_target, object_grasped, in_place).

Definition evaluate_state (obs action : Np.array)
  : M SawyerXYZEnv (R * dict) :=
  _assert_task_is_set (
    '(reward, tcp_to_obj, tcp_opened, obj_to_target, object_grasped, in_place)
       <- compute_reward action obs ;;
    let success := float_of_bool (Rleb obj_to_target 0.07) in
    let near_object := float_of_bool (Rleb tcp_to_obj 0.03) in
    let info :=
      [ ("success", success);
        ("near_object", near_object);
        ("grasp_success", 0);
        ("grasp_reward", object_grasped);
        ("in_place_reward", in_place);
        ("obj_to_target", obj_to_target);
        ("unscaled_reward", reward) ]%string in
    ret (reward, info)).

End Task.

End PlateSlideBackSide.

(** ** sawyer_reach_v2.py *)

Module Reach.

(** The constants of [__init__]. *)
Definition goal_low : Np.array := [-0.1; 0.8; 0.05].
Definition goal_high : Np.array := [0.1; 0.9; 0.3].
Definition obj_low : Np.array := [-0.1; 0.6; 0.02].
Definition obj_high : Np.array := [0.1; 0.7; 0.02].

Definition _random_reset_space : Box :=
  {| low := Np.hstack obj_low goal_low;
     high := Np.hstack obj_high goal_high |}.

Definition goal_space : Box := {| low := goal_low; high := goal_high |}.

Section Task.

Variable decay : string -> R -> R.

(** The collaborators of [reset_model] that the base class and the
    simulator supply. *)
Variable _reset_hand : M SawyerXYZEnv unit.
Variable _set_obj_xyz : Np.array -> M SawyerXYZEnv unit.
Variable mj_forward : M SawyerXYZEnv unit.
Variable _get_obs : M SawyerXYZEnv Np.array.

(** The vectors that successive calls of the sampler return. *)
Variable rand_vec : nat -> Np.array.

(** Modelled from the spec: the sampler of the base class is not part of
    the sources at hand.  Each call takes the next draw of the generator
    owned by the instance. *)
Definition _get_state_rand_vec : M SawyerXYZEnv Np.array :=
  n <- gets rand_draws ;;
  modify (set_rand_draws (S n)) ;;;
  ret (rand_vec n).

Definition compute_reward (actions obs : Np.array)
  : M SawyerXYZEnv (R * R * R) :=
  let _TARGET_RADIUS := 0.05 in
  tcp <- gets tcp_center ;;
  target <- attr _target_pos ;;

  tcp_minus_target <~ Np.sub tcp target ;;
  let tcp_to_target := Np.norm tcp_minus_target in

  hand_init <- attr hand_init_pos ;;
  hand_minus_target <~ Np.sub hand_init target ;;
  let in_place_margin := Np.norm hand_minus_target in
  in_place <~ reward_utils.tolerance decay tcp_to_target
                (0, _TARGET_RADIUS) in_place_margin "long_tail" ;;

  ret (10 * in_place, tcp_to_target, in_place).

Definition evaluate_state (obs action : Np.array)
  : M SawyerXYZEnv (R * dict) :=
  _assert_task_is_set (
    '(reward, reach_dist, in_place) <- compute_reward action obs ;;
    let success := float_of_bool (Rleb reach_dist 0.05) in
    let info :=
      [ ("success", success);
        ("near_object", reach_dist);
        ("grasp_success", 1);
        ("grasp_reward", reach_dist);
        ("in_place_reward", in_place);
        ("obj_to_target", reach_dist);
        ("unscaled_reward", reward) ]%string in
    ret (reward, info)).

Definition fix_extreme_obj_pos (orig_init_pos : Np.array)
  : M SawyerXYZEnv Np.array :=
  com_l <- gets (get_body_com "obj") ;;
  com_r <- gets (get_body_com "obj") ;;
  diff <~ Np.sub (Np.slice_to 2 com_l) (Np.slice_to 2 com_r) ;;
  adjusted_pos <~ Np.add (Np.slice_to 2 orig_init_pos) diff ;;
  x <~ Np.item 0 adjusted_pos ;;
  y <~ Np.item 1 adjusted_pos ;;
  com <- gets (get_body_com "obj") ;;
  z <~ Np.item_last com ;;
  ret [x; y; z].

(** The condition and the body of the rejection loop of [reset_model];
    the loop variable is [goal_pos]. *)
Definition too_close (goal_pos : Np.array) : M SawyerXYZEnv bool :=
  target <- attr _target_pos ;;
  d <~ Np.sub (Np.slice_to 2 goal_pos) (Np.slice_to 2 target) ;;
  ret (Rltb (Np.norm d) 0.15).

Definition resample (_ : Np.array) : M SawyerXYZEnv Np.array :=
  goal_pos <- _get_state_rand_vec ;;
  modify (set_target_pos (Np.slice_from 3 goal_pos)) ;;;
  ret goal_pos.

Definition reset_model (fuel : nat) : M SawyerXYZEnv Np.array :=
  _reset_hand ;;;
  g <- attr goal ;;
  modify (set_target_pos g) ;;;
  cfg <- attr init_config ;;
  fixed <- fix_extreme_obj_pos (cfg_obj_init_pos cfg) ;;
  modify (set_obj_init_pos fixed) ;;;
  cfg' <- attr init_config ;;
  modify (set_obj_init_angle (cfg_obj_init_angle cfg')) ;;;

  goal_pos <- _get_state_rand_vec ;;
  modify (set_target_pos (Np.slice_from 3 goal_pos)) ;;;
  goal_pos <- while fuel too_close resample goal_pos ;;
  modify (set_target_pos (Np.slice_last 3 goal_pos)) ;;;
  modify (set_obj_init_pos (Np.slice_to 3 goal_pos)) ;;;
  pos <- attr obj_init_pos ;;
  _set_obj_xyz pos ;;;
  mj_forward ;;;
  _get_obs.

End Task.

End Reach.

(** ** sawyer_button_press_wall_v2.py *)

Module ButtonPressWall.

(** An instance: the attributes of the base class and the baseline that
    [reset_model] caches. *)
Record env : Type := {
  base : SawyerXYZEnv;
  _obj_to_target_init : R
}.

#[global] Instance Sawyer_env : Sawyer env := {| super := base |}.

Section Task.

Variable decay : string -> R -> R.

Definition compute_reward (action obs : Np.array)
  : M env (R * R * R * R * R * R) :=
  let obj := Np.slice 4 7 obs in
  tcp <- gets tcp_center ;;

  obj_minus_tcp <~ Np.sub obj tcp ;;
  let tcp_to_obj := Np.norm obj_minus_tcp in
  tcp0 <- attr init_tcp ;;
  obj_minus_tcp0 <~ Np.sub obj tcp0 ;;
  let tcp_to_obj_init := Np.norm obj_minus_tcp0 in
  target <- attr _target_pos ;;
  target_y <~ Np.item 1 target ;;
  obj_y <~ Np.item 1 obj ;;
  let obj_to_target := Rabs (target_y - obj_y) in

  near_button <~ reward_utils.tolerance decay tcp_to_obj
                   (0, 0.01) tcp_to_obj_init "long_tail" ;;
  baseline <- gets _obj_to_target_init ;;
  button_pressed <~ reward_utils.tolerance decay obj_to_target
                      (0, 0.005) baseline "long_tail" ;;

  let reward := 0 in
  reward <- (if Rltb 0.07 tcp_to_obj then
               gripper <~ Np.item 3 obs ;;
               let tcp_status := (1 - gripper) / 2 in
               ret (2 * reward_utils.hamacher_product tcp_status near_button)
             else
               let reward := 2 in
               gripper <~ Np.item 3 obs ;;
               let reward := reward + 2 * (1 + gripper) in
               let reward := reward + 4 * button_pressed ^ 2 in
               ret reward) ;;
  tcp_open <~ Np.item 3 obs ;;
  ret (reward, tcp_to_obj, tcp_open, obj_to_target, near_button,
       button_pressed).

Definition evaluate_state (obs action : Np.array) : M env (R * dict) :=
  _assert_task_is_set (
    '(reward, tcp_to_obj, tcp_open, obj_to_target, near_button, button_pressed)
       <- compute_reward action obs ;;
    let info :=
      [ ("success", float_of_bool (Rleb obj_to_target 0.03));
        ("near_object", float_of_bool (Rleb tcp_to_obj 0.05));
        ("grasp_success", float_of_bool (Rltb 0 tcp_open));
        ("grasp_reward", near_button);
        ("in_place_reward", button_pressed);
        ("obj_to_target", obj_to_target);
        ("unscaled_reward", reward) ]%string in
    ret (reward, info)).

End Task.

End ButtonPressWall.

(** ** sawyer_window_open_v2.py *)

Module WindowOpen.

Definition TARGET_RADIUS : R := 0.05.

(** An instance: the attributes of the base class and the handle position
    that [reset_model] caches. *)
Record env : Type := {
  base : SawyerXYZEnv;
  window_handle_pos_init : Np.array
}.

#[global] Instance Sawyer_env : Sawyer env := {| super := base |}.

Section Task.

Variable decay : string -> R -> R.

Definition _get_pos_objects : M env Np.array :=
  gets (_get_site_pos "handleOpenStart").

Definition compute_reward (actions obs : Np.array)
  : M env (R * R * R * R * R * R) :=
  obj <- _get_pos_objects ;;
  tcp <- gets tcp_center ;;
  target <- attr _target_pos ;;

  obj_x <~ Np.item 0 obj ;;
  target_x <~ Np.item 0 target ;;
  let target_to_obj := obj_x - target_x in
  let target_to_obj := Np.norm_scalar target_to_obj in
  obj_init <- attr obj_init_pos ;;
  obj_init_x <~ Np.item 0 obj_init ;;
  target_x' <~ Np.item 0 target ;;
  let target_to_obj_init := obj_init_x - target_x' in
  let target_to_obj_init := Np.norm_scalar target_to_obj_init in

  in_place <~ reward_utils.tolerance decay target_to_obj
                (0, TARGET_RADIUS) (Rabs (target_to_obj_init - TARGET_RADIUS))
                "long_tail" ;;

  let handle_radius := 0.02 in
  obj_minus_tcp <~ Np.sub obj tcp ;;
  let tcp_to_obj := Np.norm obj_minus_tcp in
  handle_init <- gets window_handle_pos_init ;;
  tcp0 <- attr init_tcp ;;
  handle_minus_tcp0 <~ Np.sub handle_init tcp0 ;;
  let tcp_to_obj_init := Np.norm handle_minus_tcp0 in
  reach <~ reward_utils.tolerance decay tcp_to_obj
             (0, handle_radius) (Rabs (tcp_to_obj_init - handle_radius))
             "long_tail" ;;
  let tcp_opened := 0 in
  let object_grasped := reach in

  let reward := 10 * reward_utils.hamacher_product reach in_place in
  ret (reward, tcp_to_obj, tcp_opened, target_to_obj, object_grasped,
       in_place).

Definition evaluate_state (obs action : Np.array) : M env (R * dict) :=
  _assert_task_is_set (
    '(reward, tcp_to_obj, _, target_to_obj, object_grasped, in_place)
       <- compute_reward action obs ;;
    let info :=
      [ ("success", float_of_bool (Rleb target_to_obj TARGET_RADIUS));
        ("near_object", float_of_bool (Rleb tcp_to_obj 0.05));
        ("grasp_success", 1);
        ("grasp_reward", object_grasped);
        ("in_place_reward", in_place);
        ("obj_to_target", target_to_obj);
        ("unscaled_reward", reward) ]%string in
    ret (reward, info)).

End Task.

End WindowOpen.

(** ** Notions used in the statements *)

(** A collaborator that leaves the sampled object and goal positions of
    the instance alone: it works on the simulator. *)
Definition keeps_episode {A : Type} (m : M SawyerXYZEnv A) : Prop :=
  forall s,
    _target_pos (snd (m s)) = _target_pos s /\
    obj_init_pos (snd (m s)) = obj_init_pos s.

(** The separation that the rejection loop of the reach task waits for, on
    a draw [v] that holds the object position followed by the goal. *)
Definition separated (v : Np.array) : Prop :=
  exists d,
    Np.sub (Np.slice_to 2 v) (Np.slice_to 2 (Np.slice_from 3 v)) = Ok d /\
    0.15 <= Np.norm d.

(** A three-dimensional position, and the distance between two arrays of
    one shape. *)
Definition position (v : Np.array) : Prop := List.length v = 3%nat.

Definition dist (a b : Np.array) : R := Np.norm (Np.zip_with Rminus a b).

(** The episode state that an instance caches: every attribute of the
    base class but the simulator [data]. *)
Definition cached_state (e : SawyerXYZEnv)
  : bool * Np.array * Np.array * Np.array * R * Np.array * Np.array
    * InitConfig * nat :=
  (task_is_set e, init_tcp e, hand_init_pos e, obj_init_pos e,
   obj_init_angle e, _target_pos e, goal e, init_config e, rand_draws e).

(** ** Concrete instances *)

Module Example.

(** A long-tailed curve, worth 0.1 at the margin. *)
Definition long_tail : string -> R -> R :=
  fun _ d => 1 / ((d * 3) ^ 2 + 1).

(** An instance on which no task has been set. *)
Definition constructed (e : SawyerXYZEnv) : SawyerXYZEnv :=
  {| task_is_set := false; data := data e; init_tcp := init_tcp e;
     hand_init_pos := hand_init_pos e; obj_init_pos := obj_init_pos e;
     obj_init_angle := obj_init_angle e; _target_pos := _target_pos e;
     goal := goal e; init_config := init_config e;
     rand_draws := rand_draws e |}.

(** Plate slide: the puck 0.03 from the target, the gripper 0.04 above
    the puck. *)
Definition plate_sim : MjData :=
  {| sim_tcp_center := [0.03; 0.6; 0.055];
     body_com := fun _ => [0; 0; 0];
     site_pos := fun _ => [0; 0; 0];
     geom_xpos := fun _ => [0.03; 0.6; 0.015] |}.

Definition plate_env : SawyerXYZEnv :=
  {| task_is_set := true;
     data := plate_sim;
     init_tcp := [-0.25; 0.6; 0.215];
     hand_init_pos := [0; 0.6; 0.2];
     obj_init_pos := [-0.25; 0.6; 0.015];
     obj_init_angle := 0.3;
     _target_pos := [0; 0.6; 0.015];
     goal := [0; 0.6; 0.015];
     init_config :=
       {| cfg_obj_init_angle := 0.3;
          cfg_obj_init_pos := [-0.25; 0.6; 0.02];
          cfg_hand_init_pos := [0; 0.6; 0.2] |};
     rand_draws := 0 |}.

Definition plate_obs : Np.array := [0.03; 0.6; 0.055; 1; 0.03; 0.6; 0.015].

(** Reach: the gripper 0.25 from the target, the hand started 0.2 from
    it. *)
Definition reach_sim : MjData :=
  {| sim_tcp_center := [0; 0.55; 0.2];
     body_com := fun _ => [0; 0.6; 0.02];
     site_pos := fun _ => [0; 0; 0];
     geom_xpos := fun _ => [0; 0; 0] |}.

Definition reach_env : SawyerXYZEnv :=
  {| task_is_set := true;
     data := reach_sim;
     init_tcp := [0; 0.6; 0.2];
     hand_init_pos := [0; 0.6; 0.2];
     obj_init_pos := [0; 0.6; 0.02];
     obj_init_angle := 0.3;
     _target_pos := [0; 0.8; 0.2];
     goal := [-0.1; 0.8; 0.2];
     init_config :=
       {| cfg_obj_init_angle := 0.3;
          cfg_obj_init_pos := [0; 0.6; 0.02];
          cfg_hand_init_pos := [0; 0.6; 0.2] |};
     rand_draws := 0 |}.

Definition reach_obs : Np.array := [0; 0.55; 0.2; 0; 0; 0.6; 0.02].

(** A generator whose first draw puts object and goal 0.1 apart and whose
    later draws put them 0.2 apart. *)
Definition rand_vec (n : nat) : Np.array :=
  match n with
  | O => [0; 0.7; 0.02; 0; 0.8; 0.05]
  | S _ => [0; 0.6; 0.02; 0; 0.8; 0.05]
  end.

(** Collaborators that do nothing to the instance. *)
Definition idle : M SawyerXYZEnv unit := ret tt.
Definition idle_set_obj_xyz (_ : Np.array) : M SawyerXYZEnv unit := ret tt.
Definition hand_and_goal : M SawyerXYZEnv Np.array :=
  tcp <- gets tcp_center ;;
  target <- attr _target_pos ;;
  ret (Np.hstack tcp target).

(** The instance that [reset_model] leaves behind on [reach_env]. *)
Definition reach_env_after : SawyerXYZEnv :=
  {| task_is_set := true;
     data := reach_sim;
     init_tcp := [0; 0.6; 0.2];
     hand_init_pos := [0; 0.6; 0.2];
     obj_init_pos := [0; 0.6; 0.02];
     obj_init_angle := 0.3;
     _target_pos := [0; 0.8; 0.05];
     goal := [-0.1; 0.8; 0.2];
     init_config := init_config reach_env;
     rand_draws := 2 |}.

(** Button press: the gripper 0.3 from the button after starting 0.4 from
    it, the button 0.06 from the hole. *)
Definition button_sim : MjData :=
  {| sim_tcp_center := [0; 0.4; 0.12];
     body_com := fun _ => [0; 0; 0];
     site_pos := fun _ => [0; 0; 0];
     geom_xpos := fun _ => [0; 0; 0] |}.

Definition button_env : ButtonPressWall.env :=
  {| ButtonPressWall.base :=
       {| task_is_set := true;
          data := button_sim;
          init_tcp := [0; 0.3; 0.12];
          hand_init_pos := [0; 0.4; 0.2];
          obj_init_pos := [0; 0.9; 0.115];
          obj_init_angle := 0;
          _target_pos := [0; 0.76; 0.12];
          goal := [0; 0.84; 0.12];
          init_config :=
            {| cfg_obj_init_angle := 0;
               cfg_obj_init_pos := [0; 0.9; 0.115];
               cfg_hand_init_pos := [0; 0.4; 0.2] |};
          rand_draws := 1 |};
     ButtonPressWall._obj_to_target_init := 0.06 |}.

Definition button_obs : Np.array := [0; 0.4; 0.12; -1; 0; 0.7; 0.12].

(** Window open: the handle at the target, the gripper on the handle. *)
Definition window_sim : MjData :=
  {| sim_tcp_center := [0.1; 0.785; 0.16];
     body_com := fun _ => [0; 0; 0];
     site_pos := fun _ => [0.1; 0.785; 0.16];
     geom_xpos := fun _ => [0; 0; 0] |}.

Definition window_env : WindowOpen.env :=
  {| WindowOpen.base :=
       {| task_is_set := true;
          data := window_sim;
          init_tcp := [-0.1; 0.485; 0.16];
          hand_init_pos := [0; 0.4; 0.2];
          obj_init_pos := [-0.1; 0.785; 0.16];
          obj_init_angle := 0.3;
          _target_pos := [0.1; 0.785; 0.16];
          goal := [0; 0; 0];
          init_config :=
            {| cfg_obj_init_angle := 0.3;
               cfg_obj_init_pos := [-0.1; 0.785; 0.16];
               cfg_hand_init_pos := [0; 0.4; 0.2] |};
          rand_draws := 1 |};
     WindowOpen.window_handle_pos_init := [-0.1; 0.785; 0.16] |}.

Definition window_obs : Np.array := [0.1; 0.785; 0.16; 0; 0.1; 0.785; 0.16].

(** The instance once the simulator has moved on to [sim], with no reset:
    what the instance caches is as before. *)
Definition stepped (sim : MjData) (e : SawyerXYZEnv) : SawyerXYZEnv :=
  {| task_is_set := task_is_set e; data := sim; init_tcp := init_tcp e;
     hand_init_pos := hand_init_pos e; obj_init_pos := obj_init_pos e;
     obj_init_angle := obj_init_angle e; _target_pos := _target_pos e;
     goal := goal e; init_config := init_config e;
     rand_draws := rand_draws e |}.

(** A simulator step that moves bodies and geometries and leaves the
    gripper and the sites where they are. *)
Definition bodies_moved (sim : MjData) : MjData :=
  {| sim_tcp_center := sim_tcp_center sim;
     body_com := fun _ => [1; 1; 1];
     site_pos := site_pos sim;
     geom_xpos := fun _ => [1; 1; 1] |}.

(** Reach: the simulator once the gripper has moved onto the target. *)
Definition reach_sim_at_target : MjData :=
  {| sim_tcp_center := [0; 0.8; 0.2];
     body_com := fun _ => [0; 0.6; 0.02];
     site_pos := fun _ => [0; 0; 0];
     geom_xpos := fun _ => [0; 0; 0] |}.

End Example.

(** * Construction, reset and replay of the task classes *)

(** ** Further assignments, numpy operations and control *)

Definition set_hand_init_pos (v : Np.array) (e : SawyerXYZEnv) : SawyerXYZEnv :=
  {| task_is_set := task_is_set e; data := data e; init_tcp := init_tcp e;
     hand_init_pos := v; obj_init_pos := obj_init_pos e;
     obj_init_angle := obj_init_angle e; _target_pos := _target_pos e;
     goal := goal e; init_config := init_config e;
     rand_draws := rand_draws e |}.

Definition set_goal (v : Np.array) (e : SawyerXYZEnv) : SawyerXYZEnv :=
  {| task_is_set := task_is_set e; data := data e; init_tcp := init_tcp e;
     hand_init_pos := hand_init_pos e; obj_init_pos := obj_init_pos e;
     obj_init_angle := obj_init_angle e; _target_pos := _target_pos e;
     goal := v; init_config := init_config e;
     rand_draws := rand_draws e |}.

Definition set_init_config (v : InitConfig) (e : SawyerXYZEnv) : SawyerXYZEnv :=
  {| task_is_set := task_is_set e; data := data e; init_tcp := init_tcp e;
     hand_init_pos := hand_init_pos e; obj_init_pos := obj_init_pos e;
     obj_init_angle := obj_init_angle e; _target_pos := _target_pos e;
     goal := goal e; init_config := v;
     rand_draws := rand_draws e |}.

(** A computation that leaves the attribute [f] of the instance alone. *)
Definition keeps {S A B : Type} (f : S -> B) (m : M S A) : Prop :=
  forall s, f (snd (m s)) = f s.

(** A computation that returns on every instance. *)
Definition returns {S A : Type} (m : M S A) : Prop :=
  forall s, exists a s', m s = (Ok a, s').

Module NpAssign.

(** [a[i:j] = v] on a one-dimensional array: [v] must have the shape of the
    slice or one element, which is then repeated. *)
Definition set_slice (i j : nat) (v a : Np.array) : result Np.array :=
  let n := List.length (Np.slice i j a) in
  if Nat.eqb (List.length v) n then
    Ok (firstn i a ++ v ++ skipn (i + n) a)
  else match v with
       | [x] => Ok (firstn i a ++ repeat x n ++ skipn (i + n) a)
       | _ => Raise ValueError
       end.

(** [a[i] = x] for [0 <= i]. *)
Definition set_item (i : nat) (x : R) (a : Np.array) : result Np.array :=
  if Nat.ltb i (List.length a) then Ok (firstn i a ++ x :: skipn (S i) a)
  else Raise IndexError.

End NpAssign.

(** [for x in l: body(x)]. *)
Fixpoint for_each {S A : Type} (l : list A) (body : A -> M S unit)
  : M S unit :=
  match l with
  | [] => ret tt
  | x :: l' => body x ;;; for_each l' body
  end.

(** The argument [obs_info] of [render_reset]: a dict from names to arrays.
    Subscripting it with a missing key raises [KeyError]. *)
Definition obs_dict : Type := list (string * Np.array).

Inductive KeyError : Type := key_error (key : string).

Fixpoint subscript (d : obs_dict) (k : string) : KeyError + Np.array :=
  match d with
  | [] => inl (key_error k)
  | (k', v) :: d' => if String.eqb k k' then inr v else subscript d' k
  end.

(** The first of [keys] that [d] lacks, if any. *)
Fixpoint first_missing (keys : list string) (d : obs_dict) : option string :=
  match keys with
  | [] => None
  | k :: keys' =>
      match subscript d k with
      | inl _ => Some k
      | inr _ => first_missing keys' d
      end
  end.

(** Modelled from the spec: the sampler of the base class is not part of
    the sources at hand.  Each call takes the next draw of the generator
    owned by the instance; [rand_vec] lists the draws. *)
Definition _get_state_rand_vec (rand_vec : nat -> Np.array)
  : M SawyerXYZEnv Np.array :=
  Reach._get_state_rand_vec rand_vec.

(** The object start and the target of the episode, as the instance holds
    them. *)
Definition episode {S : Type} `{Sawyer S} (self : S) : Np.array * Np.array :=
  (obj_init_pos (super self), _target_pos (super self)).

(** The keys of the info dict, in the order in which [evaluate_state]
    writes them. *)
Definition info_keys : list string :=
  [ "success"; "near_object"; "grasp_success"; "grasp_reward";
    "in_place_reward"; "obj_to_target"; "unscaled_reward" ]%string.

(** ** sawyer_plate_slide_back_side_v2.py: reset *)

Module PlateSlideBackSideSetup.

(** The constants of [__init__]. *)
Definition goal_low : Np.array := [-0.05; 0.6; 0.015].
Definition goal_high : Np.array := [0.15; 0.6; 0.015].
Definition obj_low : Np.array := [-0.25; 0.6; 0.0].
Definition obj_high : Np.array := [-0.25; 0.6; 0.0].

Definition _random_reset_space : Box :=
  {| low := Np.hstack obj_low goal_low;
     high := Np.hstack obj_high goal_high |}.

Definition goal_space : Box := {| low := goal_low; high := goal_high |}.

Section Task.

(** What the base class and the simulator supply: the hand reset, the
    write [self.model.body_pos[id of name] = pos], the copies of
    [self.data.qpos.flat] and [self.data.qvel.flat], [set_state] and
    [_get_obs]. *)
Variable _reset_hand : M SawyerXYZEnv unit.
Variable set_body_pos : string -> Np.array -> M SawyerXYZEnv unit.
Variable qpos_copy : M SawyerXYZEnv Np.array.
Variable qvel_copy : M SawyerXYZEnv Np.array.
Variable set_state : Np.array -> Np.array -> M SawyerXYZEnv unit.
Variable _get_obs : M SawyerXYZEnv Np.array.
(** The vectors that successive calls of the sampler return. *)
Variable draws : nat -> Np.array.

Definition _set_obj_xyz (pos : Np.array) : M SawyerXYZEnv unit :=
  qpos <- qpos_copy ;;
  qvel <- qvel_copy ;;
  qpos <~ NpAssign.set_slice 9 11 pos qpos ;;
  set_state qpos qvel.

Definition reset_model : M SawyerXYZEnv Np.array :=
  _reset_hand ;;;

  cfg <- attr init_config ;;
  modify (set_obj_init_pos (cfg_obj_init_pos cfg)) ;;;
  g <- attr goal ;;
  modify (set_target_pos g) ;;;

  rand_vec <- _get_state_rand_vec draws ;;
  modify (set_obj_init_pos (Np.slice_to 3 rand_vec)) ;;;
  modify (set_target_pos (Np.slice_from 3 rand_vec)) ;;;
  pos <- attr obj_init_pos ;;
  set_body_pos "puck_goal" pos ;;;
  _set_obj_xyz [-0.15; 0.0] ;;;

  _get_obs.

End Task.

End PlateSlideBackSideSetup.

(** ** sawyer_reach_v2.py: construction and replay *)

Module ReachSetup.

Definition init_config0 : InitConfig :=
  {| cfg_obj_init_angle := 0.3;
     cfg_obj_init_pos := [0.0; 0.6; 0.02];
     cfg_hand_init_pos := [0.0; 0.6; 0.2] |}.

(** [__init__] after the call of the constructor of the base class. *)
Definition __init__ : M SawyerXYZEnv unit :=
  modify (set_init_config init_config0) ;;;
  modify (set_goal [-0.1; 0.8; 0.2]) ;;;
  cfg <- attr init_config ;;
  modify (set_obj_init_angle (cfg_obj_init_angle cfg)) ;;;
  cfg <- attr init_config ;;
  modify (set_obj_init_pos (cfg_obj_init_pos cfg)) ;;;
  cfg <- attr init_config ;;
  modify (set_hand_init_pos (cfg_hand_init_pos cfg)).

Section Task.

(** What the base class and the simulator supply. *)
Variable render_reset_hand : Np.array -> M SawyerXYZEnv unit.
Variable _set_obj_xyz : Np.array -> M SawyerXYZEnv unit.
Variable mj_forward : M SawyerXYZEnv unit.
Variable _target_site_config : M SawyerXYZEnv (list (string * Np.array)).
Variable _set_pos_site : string -> Np.array -> M SawyerXYZEnv unit.
Variable _get_obs : M SawyerXYZEnv Np.array.

(** The three subscripts come first; a missing key ends the call before
    anything is assigned. *)
Definition render_reset (obs_info : obs_dict)
  : KeyError + M SawyerXYZEnv Np.array :=
  match subscript obs_info "hand_state" with
  | inl e => inl e
  | inr hand_state =>
  match subscript obs_info "goal_pos" with
  | inl e => inl e
  | inr goal_pos =>
  match subscript obs_info "obj_pos" with
  | inl e => inl e
  | inr obj_pos =>
      inr (render_reset_hand hand_state ;;;
           cfg <- attr init_config ;;
           modify (set_obj_init_angle (cfg_obj_init_angle cfg)) ;;;
           modify (set_target_pos goal_pos) ;;;
           modify (set_obj_init_pos obj_pos) ;;;

           pos <- attr obj_init_pos ;;
           _set_obj_xyz pos ;;;
           mj_forward ;;;

           sites <- _target_site_config ;;
           for_each sites (fun site => _set_pos_site (fst site) (snd site)) ;;;

           _get_obs)
  end end end.

End Task.

End ReachSetup.

(** ** sawyer_button_press_wall_v2.py: reset *)

Module ButtonPressWallSetup.

Definition set_base (b : SawyerXYZEnv) (self : ButtonPressWall.env)
  : ButtonPressWall.env :=
  {| ButtonPressWall.base := b;
     ButtonPressWall._obj_to_target_init :=
       ButtonPressWall._obj_to_target_init self |}.

Definition set_obj_to_target_init (v : R) (self : ButtonPressWall.env)
  : ButtonPressWall.env :=
  {| ButtonPressWall.base := ButtonPressWall.base self;
     ButtonPressWall._obj_to_target_init := v |}.

(** A method of the base class, run on the attributes of the base class. *)
Definition on_base {A : Type} (m : M SawyerXYZEnv A)
  : M ButtonPressWall.env A :=
  fun self =>
    let (r, b) := m (ButtonPressWall.base self) in (r, set_base b self).

Section Task.

(** What the base class and the simulator supply: the hand reset, the
    write [self.model.body_pos[id of name] = pos], the copies of
    [self.data.qpos.flat] and [self.data.qvel.flat], [set_state] and
    [_get_obs]. *)
Variable _reset_hand : M ButtonPressWall.env unit.
Variable set_body_pos : string -> Np.array -> M ButtonPressWall.env unit.
Variable qpos_copy : M ButtonPressWall.env Np.array.
Variable qvel_copy : M ButtonPressWall.env Np.array.
Variable set_state : Np.array -> Np.array -> M ButtonPressWall.env unit.
Variable _get_obs : M ButtonPressWall.env Np.array.
Variable rand_vec : nat -> Np.array.

Definition _set_obj_xyz (pos : R) : M ButtonPressWall.env unit :=
  qpos <- qpos_copy ;;
  qvel <- qvel_copy ;;
  qpos <~ NpAssign.set_item 9 pos qpos ;;
  qvel <~ NpAssign.set_item 9 0 qvel ;;
  set_state qpos qvel.

Definition reset_model : M ButtonPressWall.env Np.array :=
  _reset_hand ;;;
  g <- attr goal ;;
  on_base (modify (set_target_pos g)) ;;;
  cfg <- attr init_config ;;
  on_base (modify (set_obj_init_pos (cfg_obj_init_pos cfg))) ;;;

  goal_pos <- on_base (_get_state_rand_vec rand_vec) ;;
  on_base (modify (set_obj_init_pos goal_pos)) ;;;

  pos <- attr obj_init_pos ;;
  set_body_pos "box" pos ;;;

  _set_obj_xyz 0 ;;;
  hole <- gets (_get_site_pos "hole") ;;
  on_base (modify (set_target_pos hole)) ;;;

  target <- attr _target_pos ;;
  target_y <~ Np.item 1 target ;;
  button_start <- gets (_get_site_pos "buttonStart") ;;
  button_start_y <~ Np.item 1 button_start ;;
  modify (set_obj_to_target_init (Rabs (target_y - button_start_y))) ;;;

  _get_obs.

End Task.

End ButtonPressWallSetup.

(** ** sawyer_window_open_v2.py: reset and replay *)

Module WindowOpenSetup.

Definition obj_low : Np.array := [-0.1; 0.7; 0.16].
Definition obj_high : Np.array := [0.1; 0.9; 0.16].

Definition _random_reset_space : Box := {| low := obj_low; high := obj_high |}.

(** An instance with the attribute [prev_obs] that the resets assign. *)
Record env : Type := {
  core : WindowOpen.env;
  prev_obs : Np.array
}.

#[global] Instance Sawyer_env : Sawyer env :=
  {| super := fun self => WindowOpen.base (core self) |}.

Definition set_core (c : WindowOpen.env) (self : env) : env :=
  {| core := c; prev_obs := prev_obs self |}.

Definition set_prev_obs (v : Np.array) (self : env) : env :=
  {| core := core self; prev_obs := v |}.

Definition set_base (b : SawyerXYZEnv) (c : WindowOpen.env) : WindowOpen.env :=
  {| WindowOpen.base := b;
     WindowOpen.window_handle_pos_init := WindowOpen.window_handle_pos_init c |}.

Definition set_window_handle_pos_init (v : Np.array) (c : WindowOpen.env)
  : WindowOpen.env :=
  {| WindowOpen.base := WindowOpen.base c;
     WindowOpen.window_handle_pos_init := v |}.

(** What a reset caches on the instance: the object start, the target and
    the initial handle position. *)
Definition cached (self : env) : Np.array * Np.array * Np.array :=
  (obj_init_pos (super self), _target_pos (super self),
   WindowOpen.window_handle_pos_init (core self)).

(** A method of the class as embedded above, run on the instance. *)
Definition on_core {A : Type} (m : M WindowOpen.env A) : M env A :=
  fun self => let (r, c) := m (core self) in (r, set_core c self).

(** A method of the base class, run on the attributes of the base class. *)
Definition on_base {A : Type} (m : M SawyerXYZEnv A) : M env A :=
  on_core (fun c =>
             let (r, b) := m (WindowOpen.base c) in (r, set_base b c)).

Section Task.

(** What the base class and the simulator supply; [set_joint_qpos name q]
    is the write [self.data.joint(name).qpos = q]. *)
Variable _reset_hand : M env unit.
Variable render_reset_hand : Np.array -> M env unit.
Variable _get_curr_obs_combined_no_goal : M env Np.array.
Variable set_body_pos : string -> Np.array -> M env unit.
Variable set_joint_qpos : string -> R -> M env unit.
Variable mj_forward : M env unit.
Variable _target_site_config : M env (list (string * Np.array)).
Variable _set_pos_site : string -> Np.array -> M env unit.
Variable _get_obs : M env Np.array.
Variable rand_vec : nat -> Np.array.

Definition _get_pos_objects : M env Np.array :=
  on_core WindowOpen._get_pos_objects.

Definition reset_model : M env Np.array :=
  _reset_hand ;;;
  obs <- _get_curr_obs_combined_no_goal ;;
  modify (set_prev_obs obs) ;;;

  draw <- on_base (_get_state_rand_vec rand_vec) ;;
  on_base (modify (set_obj_init_pos draw)) ;;;

  pos <- attr obj_init_pos ;;
  target <~ Np.add pos [0.2; 0.0; 0.0] ;;
  on_base (modify (set_target_pos target)) ;;;
  pos <- attr obj_init_pos ;;
  set_body_pos "window" pos ;;;

  handle <- _get_pos_objects ;;
  on_core (modify (set_window_handle_pos_init handle)) ;;;
  set_joint_qpos "window_slide" 0.0 ;;;
  mj_forward ;;;
  _get_obs.

(** The three subscripts come first; a missing key ends the call before
    anything is assigned. *)
Definition render_reset (obs_info : obs_dict) : KeyError + M env Np.array :=
  match subscript obs_info "hand_state" with
  | inl e => inl e
  | inr hand_state =>
  match subscript obs_info "goal_pos" with
  | inl e => inl e
  | inr goal_pos =>
  match subscript obs_info "obj_pos" with
  | inl e => inl e
  | inr obj_pos =>
      inr (render_reset_hand hand_state ;;;
           cfg <- attr init_config ;;
           on_base (modify (set_obj_init_angle (cfg_obj_init_angle cfg))) ;;;
           on_base (modify (set_target_pos goal_pos)) ;;;
           on_base (modify (set_obj_init_pos obj_pos)) ;;;

           obs <- _get_curr_obs_combined_no_goal ;;
           modify (set_prev_obs obs) ;;;
           pos <- attr obj_init_pos ;;
           set_body_pos "window" pos ;;;
           handle <- _get_pos_objects ;;
           handle_init <~ Np.add handle [0.2; 0.0; 0.0] ;;
           on_core (modify (set_window_handle_pos_init handle_init)) ;;;
           set_joint_qpos "window_slide" 0.2 ;;;
           mj_forward ;;;

           sites <- _target_site_config ;;
           for_each sites (fun site => _set_pos_site (fst site) (snd site)) ;;;

           _get_obs)
  end end end.

End Task.

End WindowOpenSetup.

(** ** Further concrete instances *)

Module Scenario.

(** Button press: the gripper on the button, the button at the hole. *)
Definition button_near_env : ButtonPressWall.env :=
  {| ButtonPressWall.base :=
       {| task_is_set := true;
          data :=
            {| sim_tcp_center := [0; 0.7; 0.12];
               body_com := fun _ => [0; 0; 0];
               site_pos := fun _ => [0; 0; 0];
               geom_xpos := fun _ => [0; 0; 0] |};
          init_tcp := [0; 0.3; 0.12];
          hand_init_pos := [0; 0.4; 0.2];
          obj_init_pos := [0; 0.9; 0.115];
          obj_init_angle := 0;
          _target_pos := [0; 0.7; 0.12];
          goal := [0; 0.84; 0.12];
          init_config := init_config (ButtonPressWall.base Example.button_env);
          rand_draws := 1 |};
     ButtonPressWall._obj_to_target_init := 0.06 |}.

Definition button_near_obs : Np.array := [0; 0.7; 0.12; 1; 0; 0.7; 0.12].

(** Collaborators of the resets that do nothing to the instance, joint
    vectors of eleven entries, and a sampler that repeats one draw. *)
Definition idle_body_pos (_ : string) (_ : Np.array) : M SawyerXYZEnv unit :=
  ret tt.
Definition idle_set_state (_ _ : Np.array) : M SawyerXYZEnv unit := ret tt.
Definition joints : M SawyerXYZEnv Np.array :=
  ret [0; 0; 0; 0; 0; 0; 0; 0; 0; 0; 0].
Definition plate_draw (_ : nat) : Np.array :=
  [-0.25; 0.6; 0.0; 0.1; 0.6; 0.015].

(** Window open: an instance with its last observation, collaborators
    that do nothing to it, and a sampler that repeats one draw. *)
Definition window_setup_env : WindowOpenSetup.env :=
  {| WindowOpenSetup.core := Example.window_env;
     WindowOpenSetup.prev_obs := [] |}.

Definition window_idle : M WindowOpenSetup.env unit := ret tt.
Definition window_idle_hand (_ : Np.array) : M WindowOpenSetup.env unit :=
  ret tt.
Definition window_idle_body_pos (_ : string) (_ : Np.array)
  : M WindowOpenSetup.env unit := ret tt.
Definition window_idle_joint (_ : string) (_ : R)
  : M WindowOpenSetup.env unit := ret tt.
Definition window_obs_now : M WindowOpenSetup.env Np.array :=
  gets tcp_center.
Definition window_sites : M WindowOpenSetup.env (list (string * Np.array)) :=
  target <- attr _target_pos ;;
  ret [("goal"%string, target)].
Definition window_draw (_ : nat) : Np.array := [0; 0.8; 0.16].

(** A placement of the window body that brings the simulator into the
    state [Example.window_sim]. *)
Definition window_place (_ : string) (_ : Np.array)
  : M WindowOpenSetup.env unit :=
  WindowOpenSetup.on_base (modify (Example.stepped Example.window_sim)).

(** What a replay is given: a hand state and two positions 0.05 apart. *)
Definition replay : obs_dict :=
  [ ("hand_state", [0; 0.6; 0.2; 1]);
    ("goal_pos", [0; 0.8; 0.1]);
    ("obj_pos", [0.05; 0.8; 0.02]) ]%string.

Definition idle_hand (_ : Np.array) : M SawyerXYZEnv unit := ret tt.
Definition idle_site (_ : string) (_ : Np.array) : M SawyerXYZEnv unit :=
  ret tt.
Definition sites : M SawyerXYZEnv (list (string * Np.array)) :=
  target <- attr _target_pos ;;
  ret [("goal"%string, target)].

(** Button press: a scene whose hole lies 0.06 behind the start of the
    button, collaborators that do nothing to the instance, and a sampler
    that repeats one draw. *)
Definition button_scene : MjData :=
  {| sim_tcp_center := [0; 0.4; 0.2];
     body_com := fun _ => [0; 0.9; 0.115];
     site_pos := fun name =>
                   if String.eqb name "hole" then [0; 0.84; 0.12]
                   else [0; 0.78; 0.12];
     geom_xpos := fun _ => [0; 0; 0] |}.

Definition button_fresh_env : ButtonPressWall.env :=
  {| ButtonPressWall.base :=
       {| task_is_set := true;
          data := button_scene;
          init_tcp := [0; 0.4; 0.2];
          hand_init_pos := [0; 0.4; 0.2];
          obj_init_pos := [0; 0.9; 0.115];
          obj_init_angle := 0;
          _target_pos := [0; 0; 0];
          goal := [0; 0.84; 0.12];
          init_config := init_config (ButtonPressWall.base Example.button_env);
          rand_draws := 0 |};
     ButtonPressWall._obj_to_target_init := 0 |}.

Definition button_idle : M ButtonPressWall.env unit := ret tt.
Definition button_idle_body_pos (_ : string) (_ : Np.array)
  : M ButtonPressWall.env unit := ret tt.
Definition button_idle_set_state (_ _ : Np.array)
  : M ButtonPressWall.env unit := ret tt.
Definition button_joints : M ButtonPressWall.env Np.array :=
  ret [0; 0; 0; 0; 0; 0; 0; 0; 0; 0.02].
Definition button_obs_now : M ButtonPressWall.env Np.array :=
  gets tcp_center.
Definition button_draw (_ : nat) : Np.array := [0; 0.9; 0.115].

End Scenario.

(** * Properties *)

Arguments reward_utils.tolerance : simpl never.
Arguments reward_utils.hamacher_product : simpl never.
Arguments Np.sub : simpl never.
Arguments Np.add : simpl never.
Arguments Np.item : simpl never.
Arguments Np.item_last : simpl never.
Arguments Np.norm : simpl never.
Arguments Np.norm_scalar : simpl never.
Arguments Np.slice : simpl never.
Arguments Np.slice_to : simpl never.
Arguments Np.slice_from : simpl never.
Arguments Np.slice_last : simpl never.

(** ** The monad *)

Lemma bind_Ok_inv {S A B : Type} (m : M S A) (k : A -> M S B) s b s' :
  bind m k s = (Ok b, s') ->
  exists a s1, m s = (Ok a, s1) /\ k a s1 = (Ok b, s').
Proof.
  unfold bind. destruct (m s) as [[a | e |] s1]; intros H; try discriminate.
  exists a, s1. split; [reflexivity | exact H].
Qed.

Lemma lift_Ok_inv {S A : Type} (r : result A) (s : S) a s' :
  lift r s = (Ok a, s') -> r = Ok a /\ s' = s.
Proof. unfold lift. intros H. inversion H. split; reflexivity. Qed.

Lemma read_only_ret {S A : Type} (a : A) : read_only (@ret S A a).
Proof. intros s. reflexivity. Qed.

Lemma read_only_lift {S A : Type} (r : result A) : read_only (@lift S A r).
Proof. intros s. reflexivity. Qed.

Lemma read_only_gets {S A : Type} (f : S -> A) : read_only (gets f).
Proof. intros s. reflexivity. Qed.

Lemma read_only_attr {S A : Type} `{Sawyer S} (f : SawyerXYZEnv -> A) :
  read_only (attr f).
Proof. intros s. reflexivity. Qed.

Lemma read_only_bind {S A B : Type} (m : M S A) (k : A -> M S B) :
  read_only m -> (forall a, read_only (k a)) -> read_only (bind m k).
Proof.
  intros Hm Hk s. unfold bind. specialize (Hm s).
  destruct (m s) as [[a | e |] s1]; simpl in *; subst s1; auto.
  apply Hk.
Qed.

Lemma read_only_guard {S A : Type} `{Sawyer S} (func : M S A) :
  read_only func -> read_only (_assert_task_is_set func).
Proof.
  intros Hf s. unfold _assert_task_is_set.
  destruct (task_is_set (super s)); [apply Hf | reflexivity].
Qed.

(** Running a read-only computation twice from the same instance gives the
    same outcome twice and leaves the instance as it was. *)
Lemma read_only_twice {S A : Type} (m : M S A) :
  read_only m ->
  forall s, snd (m s) = s /\ m (snd (m s)) = m s.
Proof.
  intros Hm s. split; [apply Hm | rewrite (Hm s); reflexivity].
Qed.

Create HintDb pure discriminated.
#[export] Hint Resolve read_only_ret read_only_lift read_only_gets
  read_only_attr read_only_guard : pure.

(** Splits a computation into its reads until none is left. *)
Ltac pure_steps :=
  repeat first
    [ apply read_only_bind; [ | intros ? ]
    | match goal with
      | |- read_only (match ?x with _ => _ end) => destruct x
      | |- read_only (let _ := _ in _) => cbv zeta
      end
    | solve [ auto with pure ] ].

(** Peels one step off a computation known to return. *)
Ltac run_step H :=
  match type of H with
  | context [match ?x with _ => _ end] =>
      first [ is_var x; destruct x | destruct x eqn:? ]
  end; try discriminate H; simpl in H.

Ltac run H := repeat run_step H.

(** ** Real arithmetic *)

Lemma Rltb_true x y : Rltb x y = true <-> x < y.
Proof. unfold Rltb. destruct (Rlt_dec x y); split; intros; try easy. Qed.

Lemma Rleb_true x y : Rleb x y = true <-> x <= y.
Proof. unfold Rleb. destruct (Rle_dec x y); split; intros; try easy. Qed.

Lemma Rltb_false x y : Rltb x y = false <-> y <= x.
Proof.
  unfold Rltb. destruct (Rlt_dec x y); split; intros; try easy; lra.
Qed.

Lemma Rleb_false x y : Rleb x y = false <-> y < x.
Proof.
  unfold Rleb. destruct (Rle_dec x y); split; intros; try easy; lra.
Qed.

Lemma norm_nonneg a : 0 <= Np.norm a.
Proof. unfold Np.norm. apply sqrt_pos. Qed.

Lemma norm_scalar_abs x : Np.norm_scalar x = Rabs x.
Proof.
  unfold Np.norm_scalar, Np.norm, Np.dot. simpl.
  rewrite Rplus_0_r. apply sqrt_Rsqr_abs.
Qed.

(** ** Plate slide *)

(** C1.  Plate slide: whenever [compute_reward] returns and the distance
    from the object [obs[4:7]] to the target is strictly below 0.05, the
    reward it returns is exactly 10, whatever the other shaping terms are;
    the distance it reports is that distance. *)
Theorem plate_slide_reward_saturates :
  forall decay actions obs self self' d
         reward tcp_to_obj tcp_opened obj_to_target object_grasped in_place,
    PlateSlideBackSide.compute_reward decay actions obs self
    = (Ok (reward, tcp_to_obj, tcp_opened, obj_to_target, object_grasped,
           in_place), self') ->
    Np.sub (Np.slice 4 7 obs) (_target_pos self) = Ok d ->
    Np.norm d < 0.05 ->
    reward = 10 /\ obj_to_target = Np.norm d.
Proof.
  intros decay actions obs self self' d
         reward tcp_to_obj tcp_opened obj_to_target object_grasped in_place
         Hrun Hsub Hlt.
  unfold PlateSlideBackSide.compute_reward, bind, lift, gets, attr, ret in Hrun.
  simpl in Hrun. rewrite Hsub in Hrun.
  run Hrun; inversion Hrun; subst; split; try reflexivity;
    match goal with
    | Hb : Rltb _ _ = false |- _ => apply Rltb_false in Hb; lra
    end.
Qed.

(** C9.  Plate slide: whenever [evaluate_state] returns, the entry
    [grasp_success] of the info dict is the constant 0, whatever the
    observation, the gripper state and the shaping terms are. *)
Theorem plate_slide_grasp_success_constant :
  forall decay obs action self self' reward info,
    PlateSlideBackSide.evaluate_state decay obs action self
    = (Ok (reward, info), self') ->
    dict_get "grasp_success" info = Some 0.
Proof.
  intros decay obs action self self' reward info Hrun.
  unfold PlateSlideBackSide.evaluate_state, _assert_task_is_set in Hrun.
  destruct (task_is_set (super self)); [ | discriminate Hrun ].
  apply bind_Ok_inv in Hrun as (res & s1 & _ & Hk).
  destruct res as [[[[[r t] o] d] g] p].
  unfold ret in Hk. inversion Hk. reflexivity.
Qed.

(** ** Reach *)

(** C2.  Reach: whenever [compute_reward] returns, the reward is exactly
    [10 * in_place], where [in_place] is the long_tail tolerance score of
    the distance from the gripper to the target with bounds (0, 0.05) and
    the distance from the initial hand position to the target as margin;
    nothing else enters the reward. *)
Theorem reach_reward_is_ten_in_place :
  forall decay actions obs self self' reward tcp_to_target in_place,
    Reach.compute_reward decay actions obs self
    = (Ok (reward, tcp_to_target, in_place), self') ->
    exists d m,
      Np.sub (tcp_center self) (_target_pos self) = Ok d /\
      Np.sub (hand_init_pos self) (_target_pos self) = Ok m /\
      tcp_to_target = Np.norm d /\
      reward_utils.tolerance decay (Np.norm d) (0, 0.05) (Np.norm m)
        "long_tail" = Ok in_place /\
      reward = 10 * in_place.
Proof.
  intros decay actions obs self self' reward tcp_to_target in_place Hrun.
  unfold Reach.compute_reward, bind, lift, gets, attr, ret in Hrun.
  simpl in Hrun. run Hrun. inversion Hrun; subst.
  eexists _, _. repeat split; eassumption.
Qed.

(** ** Button press *)

(** C5.  Button press: [compute_reward] is staged on [tcp_to_obj > 0.07].
    Far from the button the reward is twice the Hamacher product of the
    gripper signal [(1 - obs[3]) / 2] and the score [near_button]; otherwise
    it is the sum of 2, of [2 * (1 + obs[3])] and of
    [4 * button_pressed ^ 2].  [near_button] and [button_pressed] are the
    tolerance scores the method computes and returns. *)
Theorem button_press_reward_staged :
  forall decay action obs self self'
         reward tcp_to_obj tcp_open obj_to_target near_button button_pressed,
    ButtonPressWall.compute_reward decay action obs self
    = (Ok (reward, tcp_to_obj, tcp_open, obj_to_target, near_button,
           button_pressed), self') ->
    Np.item 3 obs = Ok tcp_open /\
    (exists d d0,
        Np.sub (Np.slice 4 7 obs) (tcp_center self) = Ok d /\
        tcp_to_obj = Np.norm d /\
        Np.sub (Np.slice 4 7 obs) (init_tcp (super self)) = Ok d0 /\
        reward_utils.tolerance decay tcp_to_obj (0, 0.01) (Np.norm d0)
          "long_tail" = Ok near_button) /\
    reward_utils.tolerance decay obj_to_target (0, 0.005)
      (ButtonPressWall._obj_to_target_init self) "long_tail"
    = Ok button_pressed /\
    (tcp_to_obj > 0.07 ->
     reward = 2 * reward_utils.hamacher_product ((1 - tcp_open) / 2)
                    near_button) /\
    (~ tcp_to_obj > 0.07 ->
     reward = 2 + 2 * (1 + tcp_open) + 4 * button_pressed ^ 2).
Proof.
  intros decay action obs self self'
         reward tcp_to_obj tcp_open obj_to_target near_button button_pressed
         Hrun.
  unfold ButtonPressWall.compute_reward, bind, lift, gets, attr, ret in Hrun.
  simpl in Hrun. run Hrun. inversion Hrun; subst.
  split; [ reflexivity | ].
  split; [ eexists _, _; repeat split; eassumption | ].
  split; [ assumption | ].
  match goal with
  | Hreward : (if Rltb ?x ?y then _ else _) _ = _ |- _ =>
      destruct (Rltb x y) eqn:Hfar; inversion Hreward; subst
  end.
  - split; intros Hreg; [ reflexivity | ].
    apply Rltb_true in Hfar. lra.
  - split; intros Hreg; [ | ring ].
    apply Rltb_false in Hfar. lra.
Qed.

(** ** The shaping functions *)

Lemma tolerance_in_bounds decay x lo hi margin sigmoid :
  0 < margin -> lo <= hi -> lo <= x <= hi ->
  reward_utils.tolerance decay x (lo, hi) margin sigmoid = Ok 1.
Proof.
  intros Hm Hb [Hlo Hhi]. unfold reward_utils.tolerance.
  destruct (Rle_dec margin 0); [ lra | ].
  destruct (Rlt_dec hi lo); [ lra | ].
  rewrite (proj2 (Rleb_true lo x) Hlo), (proj2 (Rleb_true x hi) Hhi).
  reflexivity.
Qed.

Lemma tolerance_in_bounds_inv decay x lo hi margin sigmoid v :
  reward_utils.tolerance decay x (lo, hi) margin sigmoid = Ok v ->
  lo <= x <= hi -> v = 1.
Proof.
  intros Hrun [Hlo Hhi]. unfold reward_utils.tolerance in Hrun.
  destruct (Rle_dec margin 0); [ discriminate | ].
  destruct (Rlt_dec hi lo); [ discriminate | ].
  rewrite (proj2 (Rleb_true lo x) Hlo), (proj2 (Rleb_true x hi) Hhi) in Hrun.
  simpl in Hrun. congruence.
Qed.

Lemma tolerance_returns decay x lo hi margin sigmoid :
  0 < margin -> lo <= hi ->
  exists v, reward_utils.tolerance decay x (lo, hi) margin sigmoid = Ok v.
Proof.
  intros Hm Hb. unfold reward_utils.tolerance.
  destruct (Rle_dec margin 0); [ lra | ].
  destruct (Rlt_dec hi lo); [ lra | ].
  destruct (Rleb lo x && Rleb x hi); eexists; reflexivity.
Qed.

Lemma hamacher_denominator_pos a b :
  0 <= a <= 1 -> 0 <= b <= 1 -> a <> 0 \/ b <> 0 -> 0 < a + b - a * b.
Proof. intros Ha Hb [Hn | Hn]; nra. Qed.

Lemma hamacher_product_formula a b :
  a <> 0 \/ b <> 0 ->
  reward_utils.hamacher_product a b = (a * b) / (a + b - a * b).
Proof.
  intros Hn. unfold reward_utils.hamacher_product.
  destruct (Req_dec_T a 0); [ | reflexivity ].
  destruct (Req_dec_T b 0); [ | reflexivity ].
  destruct Hn; contradiction.
Qed.

(** C8.  The Hamacher product of two scores in [0,1] is
    [(a*b) / (a + b - a*b)], and 0 when both scores are 0; it is symmetric,
    it is 0 whenever one of the scores is 0, and it is 1 only when both
    scores are 1. *)
Theorem hamacher_product_properties :
  forall a b,
    0 <= a <= 1 -> 0 <= b <= 1 ->
    (a <> 0 \/ b <> 0 ->
     reward_utils.hamacher_product a b = (a * b) / (a + b - a * b)) /\
    (a = 0 /\ b = 0 -> reward_utils.hamacher_product a b = 0) /\
    reward_utils.hamacher_product a b = reward_utils.hamacher_product b a /\
    (a = 0 \/ b = 0 -> reward_utils.hamacher_product a b = 0) /\
    (reward_utils.hamacher_product a b = 1 -> a = 1 /\ b = 1).
Proof.
  intros a b Ha Hb.
  split; [ apply hamacher_product_formula | ].
  split.
  { intros [-> ->]. unfold reward_utils.hamacher_product.
    destruct (Req_dec_T 0 0); [ reflexivity | contradiction ]. }
  split.
  { unfold reward_utils.hamacher_product.
    destruct (Req_dec_T a 0), (Req_dec_T b 0); try reflexivity;
      f_equal; ring. }
  split.
  { intros Hz. unfold reward_utils.hamacher_product.
    destruct (Req_dec_T a 0), (Req_dec_T b 0); try reflexivity.
    - subst a. unfold Rdiv. ring.
    - subst b. unfold Rdiv. ring.
    - destruct Hz; contradiction. }
  intros Hone.
  destruct (Req_dec_T a 0) as [Za | Na].
  - destruct (Req_dec_T b 0) as [Zb | Nb].
    + subst a b. unfold reward_utils.hamacher_product in Hone.
      destruct (Req_dec_T 0 0); [ lra | contradiction ].
    + rewrite hamacher_product_formula in Hone by (right; exact Nb).
      subst a. unfold Rdiv in Hone. rewrite !Rmult_0_l in Hone. lra.
  - rewrite hamacher_product_formula in Hone by (left; exact Na).
    pose proof (hamacher_denominator_pos a b Ha Hb (or_introl Na)) as Hden.
    assert (Heq : a * b = a + b - a * b).
    { apply (Rmult_eq_reg_r (/ (a + b - a * b))).
      - rewrite Rinv_r by lra. exact Hone.
      - apply Rinv_neq_0_compat. lra. }
    assert (Hsum : a * (1 - b) + b * (1 - a) = 0) by lra.
    assert (H1 : 0 <= a * (1 - b)) by nra.
    assert (H2 : 0 <= b * (1 - a)) by nra.
    assert (H3 : a * (1 - b) = 0) by lra.
    assert (Hb1 : b = 1).
    { apply Rmult_integral in H3. destruct H3; [ contradiction | lra ]. }
    split; [ | exact Hb1 ]. subst b. lra.
Qed.

(** ** The guard on evaluation *)

Lemma guard_rejects {S A : Type} `{Sawyer S} (func : M S A) (self : S) :
  task_is_set (super self) = false ->
  _assert_task_is_set func self
  = (Raise (PreconditionViolation TaskNotSet), self).
Proof. intros Hflag. unfold _assert_task_is_set. rewrite Hflag. reflexivity. Qed.

(** C4.  In each of the four tasks, [evaluate_state] on an instance whose
    task is not set yet fails with the precondition violation [TaskNotSet]:
    it returns neither a reward nor an info dict, and leaves the instance
    as it was. *)
Theorem evaluate_state_requires_task :
  forall decay obs action,
    (forall self : ButtonPressWall.env,
        task_is_set (super self) = false ->
        ButtonPressWall.evaluate_state decay obs action self
        = (Raise (PreconditionViolation TaskNotSet), self)) /\
    (forall self : SawyerXYZEnv,
        task_is_set (super self) = false ->
        PlateSlideBackSide.evaluate_state decay obs action self
        = (Raise (PreconditionViolation TaskNotSet), self)) /\
    (forall self : SawyerXYZEnv,
        task_is_set (super self) = false ->
        Reach.evaluate_state decay obs action self
        = (Raise (PreconditionViolation TaskNotSet), self)) /\
    (forall self : WindowOpen.env,
        task_is_set (super self) = false ->
        WindowOpen.evaluate_state decay obs action self
        = (Raise (PreconditionViolation TaskNotSet), self)).
Proof.
  intros decay obs action.
  repeat split; intros self Hflag; apply guard_rejects; exact Hflag.
Qed.

(** ** Evaluation does not assign *)

Lemma plate_slide_compute_reward_read_only decay actions obs :
  read_only (PlateSlideBackSide.compute_reward decay actions obs).
Proof. unfold PlateSlideBackSide.compute_reward. pure_steps. Qed.

Lemma reach_compute_reward_read_only decay actions obs :
  read_only (Reach.compute_reward decay actions obs).
Proof. unfold Reach.compute_reward. pure_steps. Qed.

Lemma button_press_compute_reward_read_only decay action obs :
  read_only (ButtonPressWall.compute_reward decay action obs).
Proof. unfold ButtonPressWall.compute_reward. pure_steps. Qed.

Lemma window_open_compute_reward_read_only decay actions obs :
  read_only (WindowOpen.compute_reward decay actions obs).
Proof.
  unfold WindowOpen.compute_reward, WindowOpen._get_pos_objects. pure_steps.
Qed.

Lemma plate_slide_evaluate_state_read_only decay obs action :
  read_only (PlateSlideBackSide.evaluate_state decay obs action).
Proof.
  unfold PlateSlideBackSide.evaluate_state.
  apply read_only_guard, read_only_bind;
    [ apply plate_slide_compute_reward_read_only | intros res; pure_steps ].
Qed.

Lemma reach_evaluate_state_read_only decay obs action :
  read_only (Reach.evaluate_state decay obs action).
Proof.
  unfold Reach.evaluate_state.
  apply read_only_guard, read_only_bind;
    [ apply reach_compute_reward_read_only | intros res; pure_steps ].
Qed.

Lemma button_press_evaluate_state_read_only decay obs action :
  read_only (ButtonPressWall.evaluate_state decay obs action).
Proof.
  unfold ButtonPressWall.evaluate_state.
  apply read_only_guard, read_only_bind;
    [ apply button_press_compute_reward_read_only | intros res; pure_steps ].
Qed.

Lemma window_open_evaluate_state_read_only decay obs action :
  read_only (WindowOpen.evaluate_state decay obs action).
Proof.
  unfold WindowOpen.evaluate_state.
  apply read_only_guard, read_only_bind;
    [ apply window_open_compute_reward_read_only | intros res; pure_steps ].
Qed.

(** ** What evaluation reads *)

Lemma fst_bind_read_only {S A B : Type} (m : M S A) (k : A -> M S B) s1 s2 :
  read_only m ->
  fst (m s1) = fst (m s2) ->
  (forall a, fst (k a s1) = fst (k a s2)) ->
  fst (bind m k s1) = fst (bind m k s2).
Proof.
  intros Hro Hm Hk. unfold bind.
  pose proof (Hro s1) as H1. pose proof (Hro s2) as H2.
  destruct (m s1) as [r1 t1], (m s2) as [r2 t2]. simpl in *. subst.
  destruct r2; [ apply Hk | reflexivity | reflexivity ].
Qed.

Lemma fst_guard {S A : Type} `{Sawyer S} (func : M S A) s1 s2 :
  task_is_set (super s1) = task_is_set (super s2) ->
  fst (func s1) = fst (func s2) ->
  fst (_assert_task_is_set func s1) = fst (_assert_task_is_set func s2).
Proof.
  intros Hflag Hf. unfold _assert_task_is_set. rewrite Hflag.
  destruct (task_is_set (super s2)); [ exact Hf | reflexivity ].
Qed.

(** Splits a computation that only reads into its reads, and compares
    what each of them returns on two instances. *)
Ltac same_reads :=
  repeat first
    [ apply fst_bind_read_only; [ solve [ pure_steps ] | | intros ? ]
    | match goal with
      | |- fst ((match ?x with _ => _ end) _)
           = fst ((match ?x with _ => _ end) _) => destruct x
      end
    | reflexivity
    | solve [ simpl; congruence ] ].

Lemma plate_slide_compute_reward_reads decay actions obs
      (self later : SawyerXYZEnv) :
  tcp_center later = tcp_center self ->
  _target_pos later = _target_pos self ->
  obj_init_pos later = obj_init_pos self ->
  init_tcp later = init_tcp self ->
  fst (PlateSlideBackSide.compute_reward decay actions obs later)
  = fst (PlateSlideBackSide.compute_reward decay actions obs self).
Proof.
  intros Htcp Ht Ho Hi. unfold tcp_center in Htcp. simpl in Htcp.
  unfold PlateSlideBackSide.compute_reward, tcp_center. same_reads.
Qed.

Lemma reach_compute_reward_reads decay actions obs
      (self later : SawyerXYZEnv) :
  tcp_center later = tcp_center self ->
  _target_pos later = _target_pos self ->
  hand_init_pos later = hand_init_pos self ->
  fst (Reach.compute_reward decay actions obs later)
  = fst (Reach.compute_reward decay actions obs self).
Proof.
  intros Htcp Ht Hh. unfold tcp_center in Htcp. simpl in Htcp.
  unfold Reach.compute_reward, tcp_center. same_reads.
Qed.

Lemma button_press_compute_reward_reads decay action obs
      (self later : ButtonPressWall.env) :
  tcp_center later = tcp_center self ->
  init_tcp (super later) = init_tcp (super self) ->
  _target_pos (super later) = _target_pos (super self) ->
  ButtonPressWall._obj_to_target_init later
  = ButtonPressWall._obj_to_target_init self ->
  fst (ButtonPressWall.compute_reward decay action obs later)
  = fst (ButtonPressWall.compute_reward decay action obs self).
Proof.
  intros Htcp Hi Ht Hb. unfold tcp_center in Htcp. simpl in Htcp, Hi, Ht.
  unfold ButtonPressWall.compute_reward, tcp_center. same_reads.
Qed.

Lemma window_open_compute_reward_reads decay actions obs
      (self later : WindowOpen.env) :
  _get_site_pos "handleOpenStart" later
  = _get_site_pos "handleOpenStart" self ->
  tcp_center later = tcp_center self ->
  _target_pos (super later) = _target_pos (super self) ->
  obj_init_pos (super later) = obj_init_pos (super self) ->
  init_tcp (super later) = init_tcp (super self) ->
  WindowOpen.window_handle_pos_init later
  = WindowOpen.window_handle_pos_init self ->
  fst (WindowOpen.compute_reward decay actions obs later)
  = fst (WindowOpen.compute_reward decay actions obs self).
Proof.
  intros Hsite Htcp Ht Ho Hi Hh.
  unfold tcp_center, _get_site_pos in Htcp, Hsite.
  simpl in Hsite, Htcp, Ht, Ho, Hi.
  unfold WindowOpen.compute_reward, WindowOpen._get_pos_objects,
    tcp_center, _get_site_pos.
  same_reads.
Qed.

Lemma cached_state_inv (a b : SawyerXYZEnv) :
  cached_state a = cached_state b ->
  task_is_set a = task_is_set b /\ init_tcp a = init_tcp b /\
  hand_init_pos a = hand_init_pos b /\ obj_init_pos a = obj_init_pos b /\
  _target_pos a = _target_pos b.
Proof.
  unfold cached_state. intros H. inversion H. repeat split; assumption.
Qed.

(** C7, as amended.  In each of the four tasks, [evaluate_state] assigns
    nothing to the instance, and what it returns is decided by the
    observation, by the episode state that the instance caches and by
    what it reads from the simulator at the call: the gripper position
    [tcp_center] and, in the window-open task, the position of the handle
    site.  A later call with the same observation and action, no reset in
    between and the same readings returns the same reward and the same
    info dict. *)
Theorem evaluate_state_repeats :
  forall decay obs action,
    (forall self later : ButtonPressWall.env,
        cached_state (super later) = cached_state (super self) ->
        ButtonPressWall._obj_to_target_init later
        = ButtonPressWall._obj_to_target_init self ->
        tcp_center later = tcp_center self ->
        snd (ButtonPressWall.evaluate_state decay obs action self) = self /\
        fst (ButtonPressWall.evaluate_state decay obs action later)
        = fst (ButtonPressWall.evaluate_state decay obs action self)) /\
    (forall self later : SawyerXYZEnv,
        cached_state later = cached_state self ->
        tcp_center later = tcp_center self ->
        snd (PlateSlideBackSide.evaluate_state decay obs action self) = self /\
        fst (PlateSlideBackSide.evaluate_state decay obs action later)
        = fst (PlateSlideBackSide.evaluate_state decay obs action self)) /\
    (forall self later : SawyerXYZEnv,
        cached_state later = cached_state self ->
        tcp_center later = tcp_center self ->
        snd (Reach.evaluate_state decay obs action self) = self /\
        fst (Reach.evaluate_state decay obs action later)
        = fst (Reach.evaluate_state decay obs action self)) /\
    (forall self later : WindowOpen.env,
        cached_state (super later) = cached_state (super self) ->
        WindowOpen.window_handle_pos_init later
        = WindowOpen.window_handle_pos_init self ->
        tcp_center later = tcp_center self ->
        _get_site_pos "handleOpenStart" later
        = _get_site_pos "handleOpenStart" self ->
        snd (WindowOpen.evaluate_state decay obs action self) = self /\
        fst (WindowOpen.evaluate_state decay obs action later)
        = fst (WindowOpen.evaluate_state decay obs action self)).
Proof.
  intros decay obs action.
  split; [ | split; [ | split ] ].
  - intros self later Hc Hb Htcp.
    apply cached_state_inv in Hc as (Hflag & Hi & _ & _ & Ht).
    split; [ apply button_press_evaluate_state_read_only | ].
    unfold ButtonPressWall.evaluate_state.
    apply fst_guard; [ exact Hflag | ].
    apply fst_bind_read_only.
    + apply button_press_compute_reward_read_only.
    + apply button_press_compute_reward_reads; assumption.
    + intros res. same_reads.
  - intros self later Hc Htcp.
    apply cached_state_inv in Hc as (Hflag & Hi & _ & Ho & Ht).
    split; [ apply plate_slide_evaluate_state_read_only | ].
    unfold PlateSlideBackSide.evaluate_state.
    apply fst_guard; [ exact Hflag | ].
    apply fst_bind_read_only.
    + apply plate_slide_compute_reward_read_only.
    + apply plate_slide_compute_reward_reads; assumption.
    + intros res. same_reads.
  - intros self later Hc Htcp.
    apply cached_state_inv in Hc as (Hflag & _ & Hh & _ & Ht).
    split; [ apply reach_evaluate_state_read_only | ].
    unfold Reach.evaluate_state.
    apply fst_guard; [ exact Hflag | ].
    apply fst_bind_read_only.
    + apply reach_compute_reward_read_only.
    + apply reach_compute_reward_reads; assumption.
    + intros res. same_reads.
  - intros self later Hc Hh Htcp Hsite.
    apply cached_state_inv in Hc as (Hflag & Hi & _ & Ho & Ht).
    split; [ apply window_open_evaluate_state_read_only | ].
    unfold WindowOpen.evaluate_state.
    apply fst_guard; [ exact Hflag | ].
    apply fst_bind_read_only.
    + apply window_open_compute_reward_read_only.
    + apply window_open_compute_reward_reads; assumption.
    + intros res. same_reads.
Qed.

(** ** Reach: the initial object position *)

(** C10.  Reach: [fix_extreme_obj_pos] adjusts by nothing.  The difference
    it computes is a quantity minus itself, the zero vector; the position
    it returns has the first two coordinates of its input and, as third
    coordinate, the height of the centre of mass of the body. *)
Theorem fix_extreme_obj_pos_keeps_xy :
  forall (self : SawyerXYZEnv) x y z cx cy cz,
    get_body_com "obj" self = [cx; cy; cz] ->
    Np.sub (Np.slice_to 2 (get_body_com "obj" self))
           (Np.slice_to 2 (get_body_com "obj" self)) = Ok [0; 0] /\
    Reach.fix_extreme_obj_pos [x; y; z] self = (Ok [x; y; cz], self).
Proof.
  intros self x y z cx cy cz Hcom.
  unfold Reach.fix_extreme_obj_pos, bind, lift, gets, ret.
  rewrite Hcom.
  unfold Np.sub, Np.add, Np.broadcast, Np.slice_to, Np.item, Np.item_last.
  simpl.
  replace (cx - cx) with 0 by ring. replace (cy - cy) with 0 by ring.
  rewrite !Rplus_0_r. split; reflexivity.
Qed.

(** ** Loops *)

Lemma while_step {S L : Type} fuel (cond : L -> M S bool)
      (body : L -> M S L) (l : L) :
  while (Datatypes.S fuel) cond body l
  = (c <- cond l ;;
     if (c : bool) then l' <- body l ;; while fuel cond body l' else ret l).
Proof. reflexivity. Qed.

(** A loop that returns has just seen its condition fail, in a state that
    satisfies every invariant of the loop. *)
Lemma while_inv {S L : Type} (I : L -> S -> Prop)
      (cond : L -> M S bool) (body : L -> M S L) :
  (forall l s b s', I l s -> cond l s = (Ok b, s') -> I l s') ->
  (forall l s l' s', I l s -> body l s = (Ok l', s') -> I l' s') ->
  forall fuel l s l' s',
    I l s -> while fuel cond body l s = (Ok l', s') ->
    exists s1, I l' s1 /\ cond l' s1 = (Ok false, s').
Proof.
  intros Hcond Hbody.
  induction fuel as [ | fuel IH ]; intros l s l' s' HI Hrun.
  - discriminate Hrun.
  - rewrite while_step in Hrun.
    apply bind_Ok_inv in Hrun as (c & s1 & Hc & Hrun).
    destruct c.
    + apply bind_Ok_inv in Hrun as (l1 & s2 & Hb & Hrun).
      apply (IH l1 s2); [ | exact Hrun ].
      eapply Hbody; [ | exact Hb ]. eapply Hcond; eassumption.
    + unfold ret in Hrun. inversion Hrun; subst.
      exists s. split; assumption.
Qed.

(** ** Reach: the rejection loop *)

Lemma contains_reset_space_length v :
  contains Reach._random_reset_space v -> List.length v = 6%nat.
Proof.
  unfold contains, Reach._random_reset_space; simpl.
  do 6 (destruct v as [ | ? v ]; simpl; [ tauto | ]).
  destruct v; simpl; [ reflexivity | ]. intros H. decompose [and] H. tauto.
Qed.

Lemma slice_last_3_of_6 v :
  List.length v = 6%nat -> Np.slice_last 3 v = Np.slice_from 3 v.
Proof.
  intros Hlen. unfold Np.slice_last, Np.slice_from. rewrite Hlen. reflexivity.
Qed.

Lemma slice_to_2_of_3 v : Np.slice_to 2 (Np.slice_to 3 v) = Np.slice_to 2 v.
Proof.
  unfold Np.slice_to. destruct v as [ | a [ | b [ | c v ] ] ]; reflexivity.
Qed.

Lemma sub_xy_defined v :
  List.length v = 6%nat ->
  exists d,
    Np.sub (Np.slice_to 2 v) (Np.slice_to 2 (Np.slice_from 3 v)) = Ok d.
Proof.
  intros Hlen.
  do 6 (destruct v as [ | ? v ]; [ discriminate Hlen | ]).
  eexists. reflexivity.
Qed.

Lemma too_close_run goal_pos self d :
  Np.sub (Np.slice_to 2 goal_pos) (Np.slice_to 2 (_target_pos self)) = Ok d ->
  Reach.too_close goal_pos self = (Ok (Rltb (Np.norm d) 0.15), self).
Proof.
  intros Hd. unfold Reach.too_close, bind, lift, gets, attr, ret. simpl.
  rewrite Hd. reflexivity.
Qed.

Lemma too_close_read_only goal_pos : read_only (Reach.too_close goal_pos).
Proof. unfold Reach.too_close. pure_steps. Qed.

Lemma resample_run rand_vec l self :
  Reach.resample rand_vec l self
  = (Ok (rand_vec (rand_draws self)),
     set_target_pos (Np.slice_from 3 (rand_vec (rand_draws self)))
       (set_rand_draws (S (rand_draws self)) self)).
Proof. reflexivity. Qed.

(** C3.  Reach: whenever [reset_model] returns, the object position and
    the goal it has stored are the two halves of one draw of the sampler,
    and the distance between their first two coordinates is at least 0.15:
    the rejection loop never lets a closer pair through. *)
Theorem reach_reset_model_separates :
  forall _reset_hand _set_obj_xyz mj_forward _get_obs rand_vec fuel
         self self' obs,
    (forall n, contains Reach._random_reset_space (rand_vec n)) ->
    (forall pos, keeps_episode (_set_obj_xyz pos)) ->
    keeps_episode mj_forward ->
    keeps_episode _get_obs ->
    Reach.reset_model _reset_hand _set_obj_xyz mj_forward _get_obs rand_vec
      fuel self = (Ok obs, self') ->
    exists n d,
      obj_init_pos self' = Np.slice_to 3 (rand_vec n) /\
      _target_pos self' = Np.slice_last 3 (rand_vec n) /\
      Np.sub (Np.slice_to 2 (obj_init_pos self'))
             (Np.slice_to 2 (_target_pos self')) = Ok d /\
      0.15 <= Np.norm d.
Proof.
  intros _reset_hand _set_obj_xyz mj_forward _get_obs rand_vec fuel
         self self' obs Hbox Hset Hfwd Hobs Hrun.
  unfold Reach.reset_model in Hrun.
  (* up to the first draw *)
  do 8 (apply bind_Ok_inv in Hrun as (? & ? & _ & Hrun)).
  apply bind_Ok_inv in Hrun as (v0 & s0 & Hdraw & Hrun).
  apply bind_Ok_inv in Hrun as (u0 & s1 & Hput & Hrun).
  apply bind_Ok_inv in Hrun as (v & s2 & Hloop & Hrun).
  assert (HI : (exists n, v0 = rand_vec n) /\
               _target_pos s1 = Np.slice_from 3 v0).
  { unfold Reach._get_state_rand_vec, bind, gets, modify, ret in Hdraw.
    simpl in Hdraw. inversion Hdraw; subst.
    unfold modify in Hput. inversion Hput; subst.
    split; [ eexists; reflexivity | reflexivity ]. }
  apply (while_inv
           (fun l s => (exists n, l = rand_vec n) /\
                       _target_pos s = Np.slice_from 3 l)) in Hloop;
    [ | | | exact HI ].
  - (* the loop has returned: its condition has just failed *)
    destruct Hloop as (se & [[n Hn] Ht] & Hexit).
    unfold Reach.too_close, bind, lift, gets, attr, ret in Hexit.
    simpl in Hexit. rewrite Ht in Hexit. run Hexit.
    inversion Hexit; subst.
    match goal with
    | Hb : Rltb _ _ = false |- _ =>
        apply Rltb_false in Hb; rename Hb into Hfar
    end.
    (* the assignments after the loop, then the collaborators *)
    apply bind_Ok_inv in Hrun as (u1 & t1 & Hu1 & Hrun).
    apply bind_Ok_inv in Hrun as (u2 & t2 & Hu2 & Hrun).
    apply bind_Ok_inv in Hrun as (pos & t3 & Hu3 & Hrun).
    apply bind_Ok_inv in Hrun as (u4 & t4 & Hu4 & Hrun).
    apply bind_Ok_inv in Hrun as (u5 & t5 & Hu5 & Hrun).
    pose proof (Hset pos t3) as [Ht1 Ho1].
    rewrite Hu4 in Ht1, Ho1. simpl in Ht1, Ho1.
    pose proof (Hfwd t4) as [Ht2 Ho2].
    rewrite Hu5 in Ht2, Ho2. simpl in Ht2, Ho2.
    pose proof (Hobs t5) as [Ht3 Ho3].
    rewrite Hrun in Ht3, Ho3. simpl in Ht3, Ho3.
    unfold attr, gets in Hu3. inversion Hu3; subst t3 pos.
    unfold modify in Hu1, Hu2.
    inversion Hu2; subst t2. inversion Hu1; subst t1.
    exists n. eexists.
    rewrite Ht3, Ht2, Ht1, Ho3, Ho2, Ho1. simpl.
    split; [ reflexivity | ]. split; [ reflexivity | ].
    rewrite slice_to_2_of_3, slice_last_3_of_6
      by (apply contains_reset_space_length, Hbox).
    split; [ eassumption | exact Hfar ].
  - (* the condition only reads *)
    intros l sa b sb [Hl Ht] Hc.
    pose proof (too_close_read_only l sa) as Hro.
    rewrite Hc in Hro. simpl in Hro. subst sb. split; assumption.
  - (* the body stores the goal half of the draw it returns *)
    intros l sa l' sb _ Hb.
    rewrite resample_run in Hb. inversion Hb; subst.
    split; [ eexists; reflexivity | reflexivity ].
Qed.

(** The loop is given enough fuel as soon as an acceptable draw is in
    reach: it then stops at a draw no later than that one. *)
Lemma reach_loop_finishes rand_vec :
  (forall n, contains Reach._random_reset_space (rand_vec n)) ->
  forall k n0 s,
    rand_draws s = S n0 ->
    _target_pos s = Np.slice_from 3 (rand_vec n0) ->
    separated (rand_vec (n0 + k)%nat) ->
    exists j s',
      (j <= k)%nat /\
      while (S k) Reach.too_close (Reach.resample rand_vec) (rand_vec n0) s
      = (Ok (rand_vec (n0 + j)%nat), s').
Proof.
  intros Hbox. induction k as [ | k IH ]; intros n0 s Hdraws Ht Hsep.
  - rewrite Nat.add_0_r in Hsep. destruct Hsep as (d & Hd & Hfar).
    exists 0%nat, s. split; [ lia | ].
    rewrite while_step. unfold bind.
    rewrite (too_close_run _ _ d) by (rewrite Ht; exact Hd).
    rewrite (proj2 (Rltb_false _ _) Hfar), Nat.add_0_r. reflexivity.
  - destruct (sub_xy_defined (rand_vec n0)
                (contains_reset_space_length _ (Hbox n0))) as (d & Hd).
    rewrite while_step. unfold bind at 1.
    rewrite (too_close_run _ _ d) by (rewrite Ht; exact Hd).
    destruct (Rltb (Np.norm d) 0.15) eqn:Hclose.
    + unfold bind at 1. rewrite resample_run, Hdraws.
      destruct (IH (S n0)
                  (set_target_pos (Np.slice_from 3 (rand_vec (S n0)))
                     (set_rand_draws (S (S n0)) s)))
        as (j & s' & Hj & Hrun); try reflexivity.
      { rewrite Nat.add_succ_comm. exact Hsep. }
      exists (S j), s'. split; [ lia | ].
      rewrite <- Nat.add_succ_comm. exact Hrun.
    + exists 0%nat, s. split; [ lia | ].
      rewrite Nat.add_0_r. reflexivity.
Qed.

(** ** The methods return on well-formed instances *)

Lemma sub_positions a b :
  position a -> position b -> Np.sub a b = Ok (Np.zip_with Rminus a b).
Proof.
  unfold position, Np.sub, Np.broadcast. intros -> ->. reflexivity.
Qed.

Lemma item_defined i a :
  (i < List.length a)%nat -> exists x, Np.item i a = Ok x.
Proof.
  intros Hi. unfold Np.item.
  destruct (nth_error a i) eqn:Hn; [ eexists; reflexivity | ].
  apply nth_error_None in Hn. lia.
Qed.

Lemma slice_4_7_position obs :
  (7 <= List.length obs)%nat -> position (Np.slice 4 7 obs).
Proof.
  intros Hlen. unfold position, Np.slice.
  rewrite length_firstn, length_skipn. lia.
Qed.

Lemma guard_accepts {S A : Type} `{Sawyer S} (func : M S A) (self : S) :
  task_is_set (super self) = true -> _assert_task_is_set func self = func self.
Proof. intros Hflag. unfold _assert_task_is_set. rewrite Hflag. reflexivity. Qed.

Lemma plate_slide_compute_reward_returns decay actions obs self :
  (7 <= List.length obs)%nat ->
  position (tcp_center self) -> position (_target_pos self) ->
  position (obj_init_pos self) -> position (init_tcp self) ->
  0.05 < dist (obj_init_pos self) (_target_pos self) ->
  0.05 < dist (init_tcp self) (obj_init_pos self) ->
  exists res,
    PlateSlideBackSide.compute_reward decay actions obs self = (Ok res, self).
Proof.
  intros Hobs Htcp Htarget Hinit Htcp0 Hm1 Hm2.
  pose proof (slice_4_7_position obs Hobs) as Hobj.
  destruct (item_defined 3 obs) as [gripper Hg]; [ lia | ].
  destruct (item_defined 2 (tcp_center self)) as [z Hz];
    [ rewrite Htcp; lia | ].
  unfold PlateSlideBackSide.compute_reward, bind, lift, gets, attr, ret.
  simpl. rewrite Hg.
  rewrite !sub_positions by assumption.
  fold (dist (obj_init_pos self) (_target_pos self)).
  fold (dist (init_tcp self) (obj_init_pos self)).
  destruct (tolerance_returns decay
              (Np.norm (Np.zip_with Rminus (Np.slice 4 7 obs)
                          (_target_pos self)))
              0 0.05 (dist (obj_init_pos self) (_target_pos self) - 0.05)
              "long_tail") as [p ->]; [ lra | lra | ].
  destruct (tolerance_returns decay
              (Np.norm (Np.zip_with Rminus (tcp_center self)
                          (Np.slice 4 7 obs)))
              0 0.05 (dist (init_tcp self) (obj_init_pos self) - 0.05)
              "long_tail") as [g ->]; [ lra | lra | ].
  rewrite Hz. eexists. reflexivity.
Qed.

Lemma plate_slide_evaluate_state_returns decay obs action self res :
  task_is_set self = true ->
  PlateSlideBackSide.compute_reward decay action obs self = (Ok res, self) ->
  exists reward info,
    PlateSlideBackSide.evaluate_state decay obs action self
    = (Ok (reward, info), self).
Proof.
  intros Hflag Hrun. unfold PlateSlideBackSide.evaluate_state.
  rewrite guard_accepts by exact Hflag. unfold bind. rewrite Hrun.
  destruct res as [[[[[r t] o] d] g] p]. eexists _, _. reflexivity.
Qed.

Lemma reach_compute_reward_returns decay actions obs self :
  position (tcp_center self) -> position (_target_pos self) ->
  position (hand_init_pos self) ->
  0 < dist (hand_init_pos self) (_target_pos self) ->
  exists res, Reach.compute_reward decay actions obs self = (Ok res, self).
Proof.
  intros Htcp Htarget Hhand Hm.
  unfold Reach.compute_reward, bind, lift, gets, attr, ret. simpl.
  rewrite !sub_positions by assumption.
  fold (dist (hand_init_pos self) (_target_pos self)).
  destruct (tolerance_returns decay
              (Np.norm (Np.zip_with Rminus (tcp_center self)
                          (_target_pos self)))
              0 0.05 (dist (hand_init_pos self) (_target_pos self))
              "long_tail") as [p ->]; [ lra | lra | ].
  eexists. reflexivity.
Qed.

Lemma reach_evaluate_state_returns decay obs action self res :
  task_is_set self = true ->
  Reach.compute_reward decay action obs self = (Ok res, self) ->
  exists reward info,
    Reach.evaluate_state decay obs action self = (Ok (reward, info), self).
Proof.
  intros Hflag Hrun. unfold Reach.evaluate_state.
  rewrite guard_accepts by exact Hflag. unfold bind. rewrite Hrun.
  destruct res as [[r d] p]. eexists _, _. reflexivity.
Qed.

Lemma button_press_compute_reward_returns decay action obs self :
  (7 <= List.length obs)%nat ->
  position (tcp_center self) -> position (init_tcp (super self)) ->
  position (_target_pos (super self)) ->
  0 < dist (Np.slice 4 7 obs) (init_tcp (super self)) ->
  0 < ButtonPressWall._obj_to_target_init self ->
  exists res,
    ButtonPressWall.compute_reward decay action obs self = (Ok res, self).
Proof.
  intros Hobs Htcp Htcp0 Htarget Hm1 Hm2.
  pose proof (slice_4_7_position obs Hobs) as Hobj.
  destruct (item_defined 3 obs) as [gripper Hg]; [ lia | ].
  destruct (item_defined 1 (_target_pos (super self))) as [ty Hty];
    [ rewrite Htarget; lia | ].
  destruct (item_defined 1 (Np.slice 4 7 obs)) as [oy Hoy];
    [ rewrite Hobj; lia | ].
  unfold ButtonPressWall.compute_reward, bind, lift, gets, attr, ret.
  simpl in *. rewrite !sub_positions by assumption.
  rewrite Hty, Hoy.
  fold (dist (Np.slice 4 7 obs) (init_tcp (ButtonPressWall.base self))).
  destruct (tolerance_returns decay
              (Np.norm (Np.zip_with Rminus (Np.slice 4 7 obs)
                          (tcp_center self)))
              0 0.01
              (dist (Np.slice 4 7 obs) (init_tcp (ButtonPressWall.base self)))
              "long_tail") as [nb ->]; [ lra | lra | ].
  destruct (tolerance_returns decay (Rabs (ty - oy)) 0 0.005
              (ButtonPressWall._obj_to_target_init self) "long_tail")
    as [bp ->]; [ lra | lra | ].
  destruct (Rltb 0.07 _); rewrite Hg; eexists; reflexivity.
Qed.

Lemma button_press_evaluate_state_returns decay obs action self res :
  task_is_set (super self) = true ->
  ButtonPressWall.compute_reward decay action obs self = (Ok res, self) ->
  exists reward info,
    ButtonPressWall.evaluate_state decay obs action self
    = (Ok (reward, info), self).
Proof.
  intros Hflag Hrun. unfold ButtonPressWall.evaluate_state.
  rewrite guard_accepts by exact Hflag. unfold bind. rewrite Hrun.
  destruct res as [[[[[r t] o] d] g] p]. eexists _, _. reflexivity.
Qed.

Lemma window_open_compute_reward_returns decay actions obs self x0 x t :
  position (_get_site_pos "handleOpenStart" self) ->
  position (tcp_center self) ->
  position (WindowOpen.window_handle_pos_init self) ->
  position (init_tcp (super self)) ->
  Np.item 0 (_get_site_pos "handleOpenStart" self) = Ok x ->
  Np.item 0 (_target_pos (super self)) = Ok t ->
  Np.item 0 (obj_init_pos (super self)) = Ok x0 ->
  Np.norm_scalar (x0 - t) <> 0.05 ->
  dist (WindowOpen.window_handle_pos_init self) (init_tcp (super self))
  <> 0.02 ->
  exists res,
    WindowOpen.compute_reward decay actions obs self = (Ok res, self).
Proof.
  intros Hobj Htcp Hhandle Htcp0 Hx Ht Hx0 Hm1 Hm2.
  unfold WindowOpen.compute_reward, WindowOpen._get_pos_objects,
    bind, lift, gets, attr, ret.
  simpl in *. rewrite Hx, Ht, Hx0.
  rewrite !sub_positions by assumption.
  fold (dist (WindowOpen.window_handle_pos_init self)
          (init_tcp (WindowOpen.base self))).
  destruct (tolerance_returns decay (Np.norm_scalar (x - t))
              0 WindowOpen.TARGET_RADIUS
              (Rabs (Np.norm_scalar (x0 - t) - WindowOpen.TARGET_RADIUS))
              "long_tail") as [p ->].
  { unfold WindowOpen.TARGET_RADIUS. apply Rabs_pos_lt. lra. }
  { unfold WindowOpen.TARGET_RADIUS. lra. }
  destruct (tolerance_returns decay
              (Np.norm (Np.zip_with Rminus
                          (_get_site_pos "handleOpenStart" self)
                          (tcp_center self)))
              0 0.02
              (Rabs (dist (WindowOpen.window_handle_pos_init self)
                       (init_tcp (WindowOpen.base self)) - 0.02))
              "long_tail") as [g ->].
  { apply Rabs_pos_lt. lra. }
  { lra. }
  eexists. reflexivity.
Qed.

Lemma window_open_evaluate_state_returns decay obs action self res :
  task_is_set (super self) = true ->
  WindowOpen.compute_reward decay action obs self = (Ok res, self) ->
  exists reward info,
    WindowOpen.evaluate_state decay obs action self
    = (Ok (reward, info), self).
Proof.
  intros Hflag Hrun. unfold WindowOpen.evaluate_state.
  rewrite guard_accepts by exact Hflag. unfold bind. rewrite Hrun.
  destruct res as [[[[[r t] o] d] g] p]. eexists _, _. reflexivity.
Qed.

(** ** Window open *)

(** C6.  Window open, on an instance whose task is set, whose positions
    are three-dimensional and whose two tolerance margins are not zero:
    [compute_reward] and [evaluate_state] return, the distance they report
    is the distance along the slide axis between the handle and the
    target, and the success entry of the info dict is 1 exactly when that
    distance is at most 0.05.  When the distance is 0, the score
    [in_place] that [compute_reward] returns is 1 and the success entry
    is 1. *)
Theorem window_open_at_target :
  forall decay obs action self x t x0,
    task_is_set (super self) = true ->
    position (_get_site_pos "handleOpenStart" self) ->
    position (tcp_center self) ->
    position (WindowOpen.window_handle_pos_init self) ->
    position (init_tcp (super self)) ->
    Np.item 0 (_get_site_pos "handleOpenStart" self) = Ok x ->
    Np.item 0 (_target_pos (super self)) = Ok t ->
    Np.item 0 (obj_init_pos (super self)) = Ok x0 ->
    Np.norm_scalar (x0 - t) <> 0.05 ->
    dist (WindowOpen.window_handle_pos_init self) (init_tcp (super self))
    <> 0.02 ->
    exists reward tcp_to_obj tcp_opened object_grasped in_place info,
      WindowOpen.compute_reward decay action obs self
      = (Ok (reward, tcp_to_obj, tcp_opened, Np.norm_scalar (x - t),
             object_grasped, in_place), self) /\
      WindowOpen.evaluate_state decay obs action self
      = (Ok (reward, info), self) /\
      dict_get "obj_to_target" info = Some (Np.norm_scalar (x - t)) /\
      dict_get "in_place_reward" info = Some in_place /\
      (dict_get "success" info = Some 1 <->
       Np.norm_scalar (x - t) <= 0.05) /\
      (Np.norm_scalar (x - t) = 0 ->
       in_place = 1 /\ dict_get "success" info = Some 1).
Proof.
  intros decay obs action self x t x0
         Hflag Hobj Htcp Hhandle Htcp0 Hx Ht Hx0 Hm1 Hm2.
  destruct (window_open_compute_reward_returns decay action obs self x0 x t
              Hobj Htcp Hhandle Htcp0 Hx Ht Hx0 Hm1 Hm2)
    as ([[[[[r tto] o] d] g] p] & Hrun).
  assert (Hd : d = Np.norm_scalar (x - t) /\
               (Np.norm_scalar (x - t) = 0 -> p = 1)).
  { pose proof Hrun as Hc.
    unfold WindowOpen.compute_reward, WindowOpen._get_pos_objects,
      bind, lift, gets, attr, ret in Hc.
    simpl in Hc. simpl in Ht. rewrite Hx, Ht in Hc.
    run Hc. inversion Hc; subst.
    split; [ reflexivity | ]. intros Hz.
    match goal with
    | Htol : reward_utils.tolerance _ (Np.norm_scalar (x - t)) _ _ _
             = Ok _ |- _ =>
        apply tolerance_in_bounds_inv in Htol; [ exact Htol | ]
    end.
    rewrite Hz. unfold WindowOpen.TARGET_RADIUS. lra. }
  destruct Hd as [-> Hp].
  assert (Hs : dict_get "success"
                 [ ("success",
                    float_of_bool (Rleb (Np.norm_scalar (x - t))
                                     WindowOpen.TARGET_RADIUS));
                   ("near_object", float_of_bool (Rleb tto 0.05));
                   ("grasp_success", 1);
                   ("grasp_reward", g);
                   ("in_place_reward", p);
                   ("obj_to_target", Np.norm_scalar (x - t));
                   ("unscaled_reward", r) ]%string = Some 1 <->
               Np.norm_scalar (x - t) <= 0.05).
  { simpl. unfold WindowOpen.TARGET_RADIUS.
    destruct (Rleb (Np.norm_scalar (x - t)) 0.05) eqn:Hle; simpl.
    - apply Rleb_true in Hle. split; intros; [ exact Hle | reflexivity ].
    - apply Rleb_false in Hle. split; intros Hc.
      + inversion Hc. lra.
      + lra. }
  exists r, tto, o, g, p. eexists.
  split; [ exact Hrun | ].
  split.
  { unfold WindowOpen.evaluate_state.
    rewrite guard_accepts by exact Hflag.
    unfold bind. rewrite Hrun. reflexivity. }
  split; [ reflexivity | ]. split; [ reflexivity | ].
  split; [ exact Hs | ].
  intros Hz. split; [ exact (Hp Hz) | ].
  apply Hs. rewrite Hz. lra.
Qed.

(** ** Concrete runs *)

Lemma norm_eq v c : 0 <= c -> Np.dot v v = c * c -> Np.norm v = c.
Proof. intros Hc Hd. unfold Np.norm. rewrite Hd. apply sqrt_square, Hc. Qed.

Lemma Rabs_eq x c : 0 <= c -> x = c \/ x = - c -> Rabs x = c.
Proof.
  intros Hc Hx. unfold Rabs. destruct (Rcase_abs x); destruct Hx; lra.
Qed.

Lemma tolerance_above decay x lo hi margin sigmoid :
  0 < margin -> lo <= hi -> hi < x ->
  reward_utils.tolerance decay x (lo, hi) margin sigmoid
  = Ok (decay sigmoid ((x - hi) / margin)).
Proof.
  intros Hm Hb Hx. unfold reward_utils.tolerance.
  destruct (Rle_dec margin 0); [ lra | ].
  destruct (Rlt_dec hi lo); [ lra | ].
  rewrite (proj2 (Rleb_false x hi) Hx), andb_false_r.
  destruct (Rlt_dec x lo); [ lra | reflexivity ].
Qed.

(** Runs the array operations and the attribute reads of a computation on
    a concrete instance; norms, scores and comparisons are left for the
    tactics below. *)
Ltac np_run :=
  cbv [Np.sub Np.add Np.broadcast Np.zip_with Np.slice Np.slice_to
       Np.slice_from Np.slice_last Np.item Np.item_last Np.hstack
       Np.norm_scalar app
       List.length Nat.eqb Nat.sub firstn skipn nth_error map last
       bind lift gets attr ret modify while _assert_task_is_set
       tcp_center get_body_com _get_site_pos
       super Sawyer_base ButtonPressWall.Sawyer_env WindowOpen.Sawyer_env
       ButtonPressWall.base ButtonPressWall._obj_to_target_init
       WindowOpen.base WindowOpen.window_handle_pos_init
       task_is_set data init_tcp hand_init_pos obj_init_pos obj_init_angle
       _target_pos goal init_config rand_draws
       cfg_obj_init_angle cfg_obj_init_pos cfg_hand_init_pos
       sim_tcp_center body_com site_pos geom_xpos
       set_target_pos set_obj_init_pos set_obj_init_angle set_rand_draws
       Example.constructed Example.stepped Example.bodies_moved
       Example.reach_sim_at_target
       Example.plate_env Example.plate_sim Example.plate_obs
       Example.reach_env Example.reach_sim Example.reach_obs
       Example.reach_env_after Example.rand_vec
       Example.idle Example.idle_set_obj_xyz Example.hand_and_goal
       Example.button_env Example.button_sim Example.button_obs
       Example.window_env Example.window_sim Example.window_obs].

Ltac norm_is c :=
  match goal with
  | |- context [Np.norm ?v] =>
      rewrite (norm_eq v c) by (cbv [Np.dot Np.zip_with fold_right]; lra)
  end.

Ltac abs_is c :=
  match goal with
  | |- context [Rabs ?x] => rewrite (Rabs_eq x c) by lra
  end.

Ltac in_bounds :=
  match goal with
  | |- context [reward_utils.tolerance ?d ?x (?lo, ?hi) ?m ?s] =>
      rewrite (tolerance_in_bounds d x lo hi m s) by lra
  end.

Ltac above_bounds :=
  match goal with
  | |- context [reward_utils.tolerance ?d ?x (?lo, ?hi) ?m ?s] =>
      rewrite (tolerance_above d x lo hi m s) by lra
  end.

Ltac compare_R :=
  repeat match goal with
    | |- context [Rleb ?a ?b] =>
        first [ rewrite (proj2 (Rleb_true a b)) by lra
              | rewrite (proj2 (Rleb_false a b)) by lra ]
    | |- context [Rltb ?a ?b] =>
        first [ rewrite (proj2 (Rltb_true a b)) by lra
              | rewrite (proj2 (Rltb_false a b)) by lra ]
    end.

Lemma plate_slide_compute_reward_example :
  PlateSlideBackSide.compute_reward Example.long_tail [] Example.plate_obs
    Example.plate_env
  = (Ok (10, 0.04, 1, 0.03, 1, 1), Example.plate_env).
Proof.
  unfold PlateSlideBackSide.compute_reward. np_run.
  norm_is 0.03. norm_is 0.25. norm_is 0.04. norm_is 0.2.
  do 2 in_bounds. compare_R. reflexivity.
Qed.

Lemma plate_slide_evaluate_state_example :
  PlateSlideBackSide.evaluate_state Example.long_tail Example.plate_obs []
    Example.plate_env
  = (Ok (10,
         [ ("success", 1); ("near_object", 0); ("grasp_success", 0);
           ("grasp_reward", 1); ("in_place_reward", 1);
           ("obj_to_target", 0.03); ("unscaled_reward", 10) ]%string),
     Example.plate_env).
Proof.
  unfold PlateSlideBackSide.evaluate_state, _assert_task_is_set.
  change (task_is_set (super Example.plate_env)) with true. cbv iota.
  unfold bind. rewrite plate_slide_compute_reward_example.
  unfold ret, float_of_bool. compare_R. reflexivity.
Qed.

Lemma plate_slide_reward_saturates_witness :
  Np.sub (Np.slice 4 7 Example.plate_obs) (_target_pos Example.plate_env)
  = Ok [0.03 - 0; 0.6 - 0.6; 0.015 - 0.015] /\
  Np.norm [0.03 - 0; 0.6 - 0.6; 0.015 - 0.015] < 0.05 /\
  (10 = 10 /\ 0.03 = Np.norm [0.03 - 0; 0.6 - 0.6; 0.015 - 0.015]).
Proof.
  assert (Hsub : Np.sub (Np.slice 4 7 Example.plate_obs)
                        (_target_pos Example.plate_env)
                 = Ok [0.03 - 0; 0.6 - 0.6; 0.015 - 0.015])
    by reflexivity.
  assert (Hlt : Np.norm [0.03 - 0; 0.6 - 0.6; 0.015 - 0.015] < 0.05)
    by (norm_is 0.03; lra).
  split; [ exact Hsub | ]. split; [ exact Hlt | ].
  exact (plate_slide_reward_saturates Example.long_tail [] Example.plate_obs
           Example.plate_env Example.plate_env _ 10 0.04 1 0.03 1 1
           plate_slide_compute_reward_example Hsub Hlt).
Defined.

Lemma plate_slide_grasp_success_constant_witness :
  dict_get "grasp_success"
    [ ("success", 1); ("near_object", 0); ("grasp_success", 0);
      ("grasp_reward", 1); ("in_place_reward", 1);
      ("obj_to_target", 0.03); ("unscaled_reward", 10) ]%string
  = Some 0.
Proof.
  exact (plate_slide_grasp_success_constant Example.long_tail
           Example.plate_obs [] Example.plate_env Example.plate_env 10 _
           plate_slide_evaluate_state_example).
Defined.

Lemma reach_compute_reward_example :
  Reach.compute_reward Example.long_tail [] Example.reach_obs
    Example.reach_env
  = (Ok (10 * Example.long_tail "long_tail" ((0.25 - 0.05) / 0.2), 0.25,
         Example.long_tail "long_tail" ((0.25 - 0.05) / 0.2)),
     Example.reach_env).
Proof.
  unfold Reach.compute_reward. np_run.
  norm_is 0.25. norm_is 0.2. above_bounds. reflexivity.
Qed.

Lemma reach_reward_is_ten_in_place_witness :
  exists d m,
    Np.sub (tcp_center Example.reach_env) (_target_pos Example.reach_env)
    = Ok d /\
    Np.sub (hand_init_pos Example.reach_env) (_target_pos Example.reach_env)
    = Ok m /\
    0.25 = Np.norm d /\
    reward_utils.tolerance Example.long_tail (Np.norm d) (0, 0.05)
      (Np.norm m) "long_tail"
    = Ok (Example.long_tail "long_tail" ((0.25 - 0.05) / 0.2)) /\
    10 * Example.long_tail "long_tail" ((0.25 - 0.05) / 0.2)
    = 10 * Example.long_tail "long_tail" ((0.25 - 0.05) / 0.2).
Proof.
  exact (reach_reward_is_ten_in_place Example.long_tail [] Example.reach_obs
           Example.reach_env Example.reach_env _ _ _
           reach_compute_reward_example).
Defined.

Lemma example_draws_in_space :
  forall n, contains Reach._random_reset_space (Example.rand_vec n).
Proof.
  intros [ | n ]; unfold contains, Reach._random_reset_space; simpl;
    repeat split; lra.
Qed.

Lemma example_collaborators_keep_episode :
  (forall pos, keeps_episode (Example.idle_set_obj_xyz pos)) /\
  keeps_episode Example.idle /\
  keeps_episode Example.hand_and_goal.
Proof. repeat split. Qed.

Lemma reach_reset_model_example :
  Reach.reset_model Example.idle Example.idle_set_obj_xyz Example.idle
    Example.hand_and_goal Example.rand_vec 2 Example.reach_env
  = (Ok [0; 0.55; 0.2; 0; 0.8; 0.05], Example.reach_env_after).
Proof.
  unfold Reach.reset_model, Reach.fix_extreme_obj_pos, Reach.too_close,
    Reach.resample, Reach._get_state_rand_vec.
  np_run.
  norm_is 0.1. compare_R. cbv iota beta.
  norm_is 0.2. compare_R. reflexivity.
Qed.

Lemma reach_reset_model_separates_witness :
  exists n d,
    obj_init_pos Example.reach_env_after
    = Np.slice_to 3 (Example.rand_vec n) /\
    _target_pos Example.reach_env_after
    = Np.slice_last 3 (Example.rand_vec n) /\
    Np.sub (Np.slice_to 2 (obj_init_pos Example.reach_env_after))
           (Np.slice_to 2 (_target_pos Example.reach_env_after)) = Ok d /\
    0.15 <= Np.norm d.
Proof.
  exact (reach_reset_model_separates Example.idle Example.idle_set_obj_xyz
           Example.idle Example.hand_and_goal Example.rand_vec 2
           Example.reach_env Example.reach_env_after _
           example_draws_in_space
           (proj1 example_collaborators_keep_episode)
           (proj1 (proj2 example_collaborators_keep_episode))
           (proj2 (proj2 example_collaborators_keep_episode))
           reach_reset_model_example).
Defined.

Lemma fix_extreme_obj_pos_keeps_xy_witness :
  Np.sub (Np.slice_to 2 (get_body_com "obj" Example.reach_env))
         (Np.slice_to 2 (get_body_com "obj" Example.reach_env))
  = Ok [0; 0] /\
  Reach.fix_extreme_obj_pos [0.05; 0.65; 0.3] Example.reach_env
  = (Ok [0.05; 0.65; 0.02], Example.reach_env).
Proof.
  exact (fix_extreme_obj_pos_keeps_xy Example.reach_env 0.05 0.65 0.3
           0 0.6 0.02 eq_refl).
Defined.

Lemma evaluate_state_requires_task_witness :
  ButtonPressWall.evaluate_state Example.long_tail Example.button_obs []
    {| ButtonPressWall.base :=
         Example.constructed (ButtonPressWall.base Example.button_env);
       ButtonPressWall._obj_to_target_init := 0 |}
  = (Raise (PreconditionViolation TaskNotSet),
     {| ButtonPressWall.base :=
          Example.constructed (ButtonPressWall.base Example.button_env);
        ButtonPressWall._obj_to_target_init := 0 |}) /\
  PlateSlideBackSide.evaluate_state Example.long_tail Example.plate_obs []
    (Example.constructed Example.plate_env)
  = (Raise (PreconditionViolation TaskNotSet),
     Example.constructed Example.plate_env) /\
  Reach.evaluate_state Example.long_tail Example.reach_obs []
    (Example.constructed Example.reach_env)
  = (Raise (PreconditionViolation TaskNotSet),
     Example.constructed Example.reach_env) /\
  WindowOpen.evaluate_state Example.long_tail Example.window_obs []
    {| WindowOpen.base :=
         Example.constructed (WindowOpen.base Example.window_env);
       WindowOpen.window_handle_pos_init := [] |}
  = (Raise (PreconditionViolation TaskNotSet),
     {| WindowOpen.base :=
          Example.constructed (WindowOpen.base Example.window_env);
        WindowOpen.window_handle_pos_init := [] |}).
Proof.
  repeat apply conj.
  - apply (proj1 (evaluate_state_requires_task Example.long_tail
                    Example.button_obs [])).
    reflexivity.
  - apply (proj1 (proj2 (evaluate_state_requires_task Example.long_tail
                           Example.plate_obs []))).
    reflexivity.
  - apply (proj1 (proj2 (proj2 (evaluate_state_requires_task
                                  Example.long_tail Example.reach_obs [])))).
    reflexivity.
  - apply (proj2 (proj2 (proj2 (evaluate_state_requires_task
                                  Example.long_tail Example.window_obs [])))).
    reflexivity.
Defined.

Lemma button_press_compute_reward_example :
  ButtonPressWall.compute_reward Example.long_tail [] Example.button_obs
    Example.button_env
  = (Ok (2 * reward_utils.hamacher_product ((1 - -1) / 2)
               (Example.long_tail "long_tail" ((0.3 - 0.01) / 0.4)),
         0.3, -1, 0.06,
         Example.long_tail "long_tail" ((0.3 - 0.01) / 0.4),
         Example.long_tail "long_tail" ((0.06 - 0.005) / 0.06)),
     Example.button_env).
Proof.
  unfold ButtonPressWall.compute_reward. np_run.
  norm_is 0.3. norm_is 0.4. abs_is 0.06.
  do 2 above_bounds. compare_R. reflexivity.
Qed.

Lemma button_press_reward_staged_witness :
  Np.item 3 Example.button_obs = Ok (-1) /\
  (exists d d0,
      Np.sub (Np.slice 4 7 Example.button_obs)
             (tcp_center Example.button_env) = Ok d /\
      0.3 = Np.norm d /\
      Np.sub (Np.slice 4 7 Example.button_obs)
             (init_tcp (super Example.button_env)) = Ok d0 /\
      reward_utils.tolerance Example.long_tail 0.3 (0, 0.01) (Np.norm d0)
        "long_tail"
      = Ok (Example.long_tail "long_tail" ((0.3 - 0.01) / 0.4))) /\
  reward_utils.tolerance Example.long_tail 0.06 (0, 0.005)
    (ButtonPressWall._obj_to_target_init Example.button_env) "long_tail"
  = Ok (Example.long_tail "long_tail" ((0.06 - 0.005) / 0.06)) /\
  (0.3 > 0.07 ->
   2 * reward_utils.hamacher_product ((1 - -1) / 2)
         (Example.long_tail "long_tail" ((0.3 - 0.01) / 0.4))
   = 2 * reward_utils.hamacher_product ((1 - -1) / 2)
           (Example.long_tail "long_tail" ((0.3 - 0.01) / 0.4))) /\
  (~ 0.3 > 0.07 ->
   2 * reward_utils.hamacher_product ((1 - -1) / 2)
         (Example.long_tail "long_tail" ((0.3 - 0.01) / 0.4))
   = 2 + 2 * (1 + -1)
     + 4 * Example.long_tail "long_tail" ((0.06 - 0.005) / 0.06) ^ 2).
Proof.
  exact (button_press_reward_staged Example.long_tail [] Example.button_obs
           Example.button_env Example.button_env _ _ _ _ _ _
           button_press_compute_reward_example).
Defined.

Lemma window_open_evaluate_state_example :
  exists reward info,
    WindowOpen.evaluate_state Example.long_tail Example.window_obs []
      Example.window_env
    = (Ok (reward, info), Example.window_env).
Proof.
  eexists _, _.
  unfold WindowOpen.evaluate_state, WindowOpen.compute_reward,
    WindowOpen._get_pos_objects, WindowOpen.TARGET_RADIUS.
  np_run.
  norm_is 0. norm_is 0.2. abs_is 0.15. in_bounds.
  norm_is 0. norm_is 0.3. abs_is 0.28. in_bounds.
  reflexivity.
Qed.

Lemma window_open_at_target_witness :
  exists reward tcp_to_obj tcp_opened object_grasped info,
    WindowOpen.compute_reward Example.long_tail [] Example.window_obs
      Example.window_env
    = (Ok (reward, tcp_to_obj, tcp_opened, 0, object_grasped, 1),
       Example.window_env) /\
    WindowOpen.evaluate_state Example.long_tail Example.window_obs []
      Example.window_env
    = (Ok (reward, info), Example.window_env) /\
    dict_get "obj_to_target" info = Some 0 /\
    dict_get "in_place_reward" info = Some 1 /\
    dict_get "success" info = Some 1.
Proof.
  assert (Hz : Np.norm_scalar (0.1 - 0.1) = 0).
  { rewrite norm_scalar_abs. apply Rabs_eq; lra. }
  assert (Hm1 : Np.norm_scalar (-0.1 - 0.1) <> 0.05).
  { rewrite norm_scalar_abs, (Rabs_eq (-0.1 - 0.1) 0.2) by lra. lra. }
  assert (Hm2 : dist (WindowOpen.window_handle_pos_init Example.window_env)
                     (init_tcp (super Example.window_env)) <> 0.02).
  { unfold dist. np_run. norm_is 0.3. lra. }
  destruct (window_open_at_target Example.long_tail Example.window_obs []
              Example.window_env 0.1 0.1 (-0.1)
              eq_refl eq_refl eq_refl eq_refl eq_refl eq_refl eq_refl
              eq_refl Hm1 Hm2)
    as (reward & tcp_to_obj & tcp_opened & object_grasped & in_place & info
        & Hc & He & Hd & Hi & _ & Hat).
  destruct (Hat Hz) as [-> Hs]. rewrite Hz in Hc, Hd.
  exists reward, tcp_to_obj, tcp_opened, object_grasped, info.
  repeat split; assumption.
Defined.

Lemma hamacher_product_properties_witness :
  (1 <> 0 \/ 1 <> 0 ->
   reward_utils.hamacher_product 1 1 = (1 * 1) / (1 + 1 - 1 * 1)) /\
  (1 = 0 /\ 1 = 0 -> reward_utils.hamacher_product 1 1 = 0) /\
  reward_utils.hamacher_product 1 1 = reward_utils.hamacher_product 1 1 /\
  (1 = 0 \/ 1 = 0 -> reward_utils.hamacher_product 1 1 = 0) /\
  (reward_utils.hamacher_product 1 1 = 1 -> 1 = 1 /\ 1 = 1).
Proof.
  apply (hamacher_product_properties 1 1); lra.
Defined.

Lemma evaluate_state_repeats_witness :
  (snd (ButtonPressWall.evaluate_state Example.long_tail Example.button_obs
          [] Example.button_env) = Example.button_env /\
   fst (ButtonPressWall.evaluate_state Example.long_tail Example.button_obs
          []
          {| ButtonPressWall.base :=
               Example.stepped (Example.bodies_moved Example.button_sim)
                 (ButtonPressWall.base Example.button_env);
             ButtonPressWall._obj_to_target_init := 0.06 |})
   = fst (ButtonPressWall.evaluate_state Example.long_tail
            Example.button_obs [] Example.button_env)) /\
  (snd (PlateSlideBackSide.evaluate_state Example.long_tail
          Example.plate_obs [] Example.plate_env) = Example.plate_env /\
   fst (PlateSlideBackSide.evaluate_state Example.long_tail
          Example.plate_obs []
          (Example.stepped (Example.bodies_moved Example.plate_sim)
             Example.plate_env))
   = fst (PlateSlideBackSide.evaluate_state Example.long_tail
            Example.plate_obs [] Example.plate_env)) /\
  (snd (Reach.evaluate_state Example.long_tail Example.reach_obs []
          Example.reach_env) = Example.reach_env /\
   fst (Reach.evaluate_state Example.long_tail Example.reach_obs []
          (Example.stepped (Example.bodies_moved Example.reach_sim)
             Example.reach_env))
   = fst (Reach.evaluate_state Example.long_tail Example.reach_obs []
            Example.reach_env)) /\
  (snd (WindowOpen.evaluate_state Example.long_tail Example.window_obs []
          Example.window_env) = Example.window_env /\
   fst (WindowOpen.evaluate_state Example.long_tail Example.window_obs []
          {| WindowOpen.base :=
               Example.stepped (Example.bodies_moved Example.window_sim)
                 (WindowOpen.base Example.window_env);
             WindowOpen.window_handle_pos_init := [-0.1; 0.785; 0.16] |})
   = fst (WindowOpen.evaluate_state Example.long_tail Example.window_obs []
            Example.window_env)).
Proof.
  split; [ | split; [ | split ] ].
  - apply (proj1 (evaluate_state_repeats Example.long_tail
                    Example.button_obs [])); reflexivity.
  - apply (proj1 (proj2 (evaluate_state_repeats Example.long_tail
                           Example.plate_obs []))); reflexivity.
  - apply (proj1 (proj2 (proj2 (evaluate_state_repeats Example.long_tail
                                  Example.reach_obs [])))); reflexivity.
  - apply (proj2 (proj2 (proj2 (evaluate_state_repeats Example.long_tail
                                  Example.window_obs [])))); reflexivity.
Defined.

Lemma reach_evaluate_state_at_target :
  Reach.evaluate_state Example.long_tail Example.reach_obs []
    (Example.stepped Example.reach_sim_at_target Example.reach_env)
  = (Ok (10 * 1,
         [ ("success", 1); ("near_object", 0); ("grasp_success", 1);
           ("grasp_reward", 0); ("in_place_reward", 1);
           ("obj_to_target", 0); ("unscaled_reward", 10 * 1) ]%string),
     Example.stepped Example.reach_sim_at_target Example.reach_env).
Proof.
  unfold Reach.evaluate_state, Reach.compute_reward. np_run.
  norm_is 0. norm_is 0.2. in_bounds.
  unfold float_of_bool. compare_R. reflexivity.
Qed.

Lemma reach_evaluate_state_example :
  Reach.evaluate_state Example.long_tail Example.reach_obs []
    Example.reach_env
  = (Ok (10 * Example.long_tail "long_tail" ((0.25 - 0.05) / 0.2),
         [ ("success", 0); ("near_object", 0.25); ("grasp_success", 1);
           ("grasp_reward", 0.25);
           ("in_place_reward",
            Example.long_tail "long_tail" ((0.25 - 0.05) / 0.2));
           ("obj_to_target", 0.25);
           ("unscaled_reward",
            10 * Example.long_tail "long_tail" ((0.25 - 0.05) / 0.2)) ]%string),
     Example.reach_env).
Proof.
  unfold Reach.evaluate_state.
  rewrite guard_accepts by reflexivity.
  unfold bind. rewrite reach_compute_reward_example.
  unfold ret, float_of_bool. compare_R. reflexivity.
Qed.

(** C7 does not hold as the specification states it: with the same cached
    episode state, the same observation and action and no reset, a call
    made after the gripper has moved onto the target returns another
    reward and another info dict than the call made before. *)
Lemma evaluate_state_depends_on_simulator :
  cached_state (Example.stepped Example.reach_sim_at_target Example.reach_env)
  = cached_state Example.reach_env /\
  fst (Reach.evaluate_state Example.long_tail Example.reach_obs []
         (Example.stepped Example.reach_sim_at_target Example.reach_env))
  <> fst (Reach.evaluate_state Example.long_tail Example.reach_obs []
            Example.reach_env).
Proof.
  split; [ reflexivity | ].
  rewrite reach_evaluate_state_at_target, reach_evaluate_state_example.
  simpl. intros H. inversion H. lra.
Qed.

(** * Further properties *)

(** ** What [compute_reward] returns, task by task *)

Lemma plate_slide_compute_reward_inv decay actions obs self self'
      reward tcp_to_obj tcp_opened obj_to_target object_grasped in_place :
  PlateSlideBackSide.compute_reward decay actions obs self
  = (Ok (reward, tcp_to_obj, tcp_opened, obj_to_target, object_grasped,
         in_place), self') ->
  self' = self /\
  exists tcp_z d d',
    Np.item 3 obs = Ok tcp_opened /\
    Np.item 2 (tcp_center self) = Ok tcp_z /\
    Np.sub (Np.slice 4 7 obs) (_target_pos self) = Ok d /\
    obj_to_target = Np.norm d /\
    Np.sub (tcp_center self) (Np.slice 4 7 obs) = Ok d' /\
    tcp_to_obj = Np.norm d' /\
    reward = (if Rltb obj_to_target 0.05 then 10
              else if Rleb tcp_z 0.03 && Rltb tcp_to_obj 0.07
                   then 2 + 7 * in_place
                   else 1.5 * object_grasped).
Proof.
  intros Hrun.
  unfold PlateSlideBackSide.compute_reward, bind, lift, gets, attr, ret in Hrun.
  simpl in Hrun.
  repeat match type of Hrun with
         | context [match ?x with Ok _ => _ | Raise _ => _ | OutOfFuel => _ end]
           => destruct x eqn:?; try discriminate Hrun; simpl in Hrun
         end.
  inversion Hrun; subst. split; [ reflexivity | ].
  eexists _, _, _. repeat split; try eassumption; reflexivity.
Qed.

Lemma button_press_compute_reward_inv decay action obs self self'
      reward tcp_to_obj tcp_open obj_to_target near_button button_pressed :
  ButtonPressWall.compute_reward decay action obs self
  = (Ok (reward, tcp_to_obj, tcp_open, obj_to_target, near_button,
         button_pressed), self') ->
  self' = self /\
  exists d target_y obj_y,
    Np.item 3 obs = Ok tcp_open /\
    Np.sub (Np.slice 4 7 obs) (tcp_center self) = Ok d /\
    tcp_to_obj = Np.norm d /\
    Np.item 1 (_target_pos (super self)) = Ok target_y /\
    Np.item 1 (Np.slice 4 7 obs) = Ok obj_y /\
    obj_to_target = Rabs (target_y - obj_y) /\
    reward = (if Rltb 0.07 tcp_to_obj
              then 2 * reward_utils.hamacher_product ((1 - tcp_open) / 2)
                         near_button
              else 2 + 2 * (1 + tcp_open) + 4 * button_pressed ^ 2).
Proof.
  intros Hrun.
  unfold ButtonPressWall.compute_reward, bind, lift, gets, attr, ret in Hrun.
  simpl in Hrun. run Hrun. inversion Hrun; subst.
  split.
  { match goal with
    | Hreward : (if ?c then _ else _) _ = _ |- _ =>
        destruct c; inversion Hreward; reflexivity
    end. }
  eexists _, _, _. repeat split; try eassumption; try reflexivity.
  match goal with
  | Hreward : (if Rltb ?x ?y then _ else _) _ = _ |- _ =>
      destruct (Rltb x y); inversion Hreward; subst;
        [ reflexivity | ring ]
  end.
Qed.

Lemma reach_compute_reward_inv decay actions obs self self'
      reward tcp_to_target in_place :
  Reach.compute_reward decay actions obs self
  = (Ok (reward, tcp_to_target, in_place), self') ->
  self' = self /\
  exists d,
    Np.sub (tcp_center self) (_target_pos self) = Ok d /\
    tcp_to_target = Np.norm d /\
    reward = 10 * in_place.
Proof.
  intros Hrun.
  unfold Reach.compute_reward, bind, lift, gets, attr, ret in Hrun.
  simpl in Hrun. run Hrun. inversion Hrun; subst.
  split; [ reflexivity | ]. eexists. repeat split; eassumption.
Qed.

Lemma window_open_compute_reward_inv decay actions obs self self'
      reward tcp_to_obj tcp_opened target_to_obj object_grasped in_place :
  WindowOpen.compute_reward decay actions obs self
  = (Ok (reward, tcp_to_obj, tcp_opened, target_to_obj, object_grasped,
         in_place), self') ->
  self' = self /\
  exists d x t,
    Np.sub (_get_site_pos "handleOpenStart" self) (tcp_center self) = Ok d /\
    tcp_to_obj = Np.norm d /\
    Np.item 0 (_get_site_pos "handleOpenStart" self) = Ok x /\
    Np.item 0 (_target_pos (super self)) = Ok t /\
    target_to_obj = Rabs (x - t) /\
    tcp_opened = 0 /\
    reward = 10 * reward_utils.hamacher_product object_grasped in_place.
Proof.
  intros Hrun.
  unfold WindowOpen.compute_reward, WindowOpen._get_pos_objects,
    bind, lift, gets, attr, ret in Hrun.
  simpl in Hrun. run Hrun. inversion Hrun; subst.
  split; [ reflexivity | ].
  eexists _, _, _. rewrite norm_scalar_abs.
  repeat split; try eassumption; reflexivity.
Qed.

Lemma guard_Ok_inv {S A : Type} `{Sawyer S} (func : M S A) self x self' :
  _assert_task_is_set func self = (Ok x, self') ->
  task_is_set (super self) = true /\ func self = (Ok x, self').
Proof.
  unfold _assert_task_is_set.
  destruct (task_is_set (super self)); intros Hrun;
    [ split; [ reflexivity | exact Hrun ] | discriminate Hrun ].
Qed.

Lemma plate_slide_evaluate_state_inv decay obs action self self' reward info :
  PlateSlideBackSide.evaluate_state decay obs action self
  = (Ok (reward, info), self') ->
  exists tcp_to_obj tcp_opened obj_to_target object_grasped in_place,
    PlateSlideBackSide.compute_reward decay action obs self
    = (Ok (reward, tcp_to_obj, tcp_opened, obj_to_target, object_grasped,
           in_place), self') /\
    info = [ ("success", float_of_bool (Rleb obj_to_target 0.07));
             ("near_object", float_of_bool (Rleb tcp_to_obj 0.03));
             ("grasp_success", 0);
             ("grasp_reward", object_grasped);
             ("in_place_reward", in_place);
             ("obj_to_target", obj_to_target);
             ("unscaled_reward", reward) ]%string.
Proof.
  intros Hrun. unfold PlateSlideBackSide.evaluate_state in Hrun.
  apply guard_Ok_inv in Hrun as [_ Hrun].
  apply bind_Ok_inv in Hrun as (res & s1 & Hc & Hk).
  destruct res as [[[[[r t] o] d] g] p].
  unfold ret in Hk. inversion Hk; subst.
  eexists _, _, _, _, _. split; [ exact Hc | reflexivity ].
Qed.

Lemma reach_evaluate_state_inv decay obs action self self' reward info :
  Reach.evaluate_state decay obs action self = (Ok (reward, info), self') ->
  exists reach_dist in_place,
    Reach.compute_reward decay action obs self
    = (Ok (reward, reach_dist, in_place), self') /\
    info = [ ("success", float_of_bool (Rleb reach_dist 0.05));
             ("near_object", reach_dist);
             ("grasp_success", 1);
             ("grasp_reward", reach_dist);
             ("in_place_reward", in_place);
             ("obj_to_target", reach_dist);
             ("unscaled_reward", reward) ]%string.
Proof.
  intros Hrun. unfold Reach.evaluate_state in Hrun.
  apply guard_Ok_inv in Hrun as [_ Hrun].
  apply bind_Ok_inv in Hrun as (res & s1 & Hc & Hk).
  destruct res as [[r d] p].
  unfold ret in Hk. inversion Hk; subst.
  eexists _, _. split; [ exact Hc | reflexivity ].
Qed.

Lemma button_press_evaluate_state_inv decay obs action self self' reward info :
  ButtonPressWall.evaluate_state decay obs action self
  = (Ok (reward, info), self') ->
  exists tcp_to_obj tcp_open obj_to_target near_button button_pressed,
    ButtonPressWall.compute_reward decay action obs self
    = (Ok (reward, tcp_to_obj, tcp_open, obj_to_target, near_button,
           button_pressed), self') /\
    info = [ ("success", float_of_bool (Rleb obj_to_target 0.03));
             ("near_object", float_of_bool (Rleb tcp_to_obj 0.05));
             ("grasp_success", float_of_bool (Rltb 0 tcp_open));
             ("grasp_reward", near_button);
             ("in_place_reward", button_pressed);
             ("obj_to_target", obj_to_target);
             ("unscaled_reward", reward) ]%string.
Proof.
  intros Hrun. unfold ButtonPressWall.evaluate_state in Hrun.
  apply guard_Ok_inv in Hrun as [_ Hrun].
  apply bind_Ok_inv in Hrun as (res & s1 & Hc & Hk).
  destruct res as [[[[[r t] o] d] g] p].
  unfold ret in Hk. inversion Hk; subst.
  eexists _, _, _, _, _. split; [ exact Hc | reflexivity ].
Qed.

Lemma window_open_evaluate_state_inv decay obs action self self' reward info :
  WindowOpen.evaluate_state decay obs action self
  = (Ok (reward, info), self') ->
  exists tcp_to_obj tcp_opened target_to_obj object_grasped in_place,
    WindowOpen.compute_reward decay action obs self
    = (Ok (reward, tcp_to_obj, tcp_opened, target_to_obj, object_grasped,
           in_place), self') /\
    info = [ ("success",
              float_of_bool (Rleb target_to_obj WindowOpen.TARGET_RADIUS));
             ("near_object", float_of_bool (Rleb tcp_to_obj 0.05));
             ("grasp_success", 1);
             ("grasp_reward", object_grasped);
             ("in_place_reward", in_place);
             ("obj_to_target", target_to_obj);
             ("unscaled_reward", reward) ]%string.
Proof.
  intros Hrun. unfold WindowOpen.evaluate_state in Hrun.
  apply guard_Ok_inv in Hrun as [_ Hrun].
  apply bind_Ok_inv in Hrun as (res & s1 & Hc & Hk).
  destruct res as [[[[[r t] o] d] g] p].
  unfold ret in Hk. inversion Hk; subst.
  eexists _, _, _, _, _. split; [ exact Hc | reflexivity ].
Qed.

Lemma float_of_bool_one b : float_of_bool b = 1 <-> b = true.
Proof. destruct b; simpl; split; intros H; try reflexivity; try discriminate; lra. Qed.

Lemma Some_float_one b : Some (float_of_bool b) = Some 1 <-> b = true.
Proof.
  rewrite <- float_of_bool_one. split; intros H; [ inversion H | rewrite H ];
    reflexivity.
Qed.

(** ** Plate slide: the stages of the reward *)

(** X1.  Plate slide: the reward that [compute_reward] returns is decided
    by three tests in this order.  With the object closer than 0.05 to the
    target it is 10; otherwise, with the gripper at height at most 0.03 and
    closer than 0.07 to the object, it is [2 + 7 * in_place]; otherwise it
    is [1.5 * object_grasped]. *)
Theorem plate_slide_reward_stages :
  forall decay actions obs self self'
         reward tcp_to_obj tcp_opened obj_to_target object_grasped in_place,
    PlateSlideBackSide.compute_reward decay actions obs self
    = (Ok (reward, tcp_to_obj, tcp_opened, obj_to_target, object_grasped,
           in_place), self') ->
    exists tcp_z,
      Np.item 2 (tcp_center self) = Ok tcp_z /\
      (obj_to_target < 0.05 -> reward = 10) /\
      (0.05 <= obj_to_target -> tcp_z <= 0.03 -> tcp_to_obj < 0.07 ->
       reward = 2 + 7 * in_place) /\
      (0.05 <= obj_to_target -> 0.03 < tcp_z \/ 0.07 <= tcp_to_obj ->
       reward = 1.5 * object_grasped).
Proof.
  intros decay actions obs self self'
         reward tcp_to_obj tcp_opened obj_to_target object_grasped in_place
         Hrun.
  apply plate_slide_compute_reward_inv in Hrun
    as (_ & tcp_z & d & d' & _ & Hz & _ & _ & _ & _ & Hreward).
  exists tcp_z. split; [ exact Hz | ].
  destruct (Rltb obj_to_target 0.05) eqn:Hclamp;
    [ apply Rltb_true in Hclamp | apply Rltb_false in Hclamp ].
  - repeat split; intros; try assumption; lra.
  - destruct (Rleb tcp_z 0.03) eqn:Hlow;
      [ apply Rleb_true in Hlow | apply Rleb_false in Hlow ];
      (destruct (Rltb tcp_to_obj 0.07) eqn:Hnear;
       [ apply Rltb_true in Hnear | apply Rltb_false in Hnear ]);
      simpl in Hreward;
      repeat split; intros; try assumption; try lra;
      match goal with
      | Hor : _ \/ _ |- _ => destruct Hor; lra
      end.
Qed.

Lemma plate_slide_reward_stages_witness :
  exists tcp_z,
    Np.item 2 (tcp_center Example.plate_env) = Ok tcp_z /\
    (0.03 < 0.05 -> 10 = 10) /\
    (0.05 <= 0.03 -> tcp_z <= 0.03 -> 0.04 < 0.07 -> 10 = 2 + 7 * 1) /\
    (0.05 <= 0.03 -> 0.03 < tcp_z \/ 0.07 <= 0.04 -> 10 = 1.5 * 1).
Proof.
  exact (plate_slide_reward_stages Example.long_tail [] Example.plate_obs
           Example.plate_env Example.plate_env 10 0.04 1 0.03 1 1
           plate_slide_compute_reward_example).
Defined.

(** X2.  Plate slide: with both scores in [0,1], the reward that
    [compute_reward] returns lies in [0,10], and it is 10 exactly when the
    object is closer than 0.05 to the target: no other stage reaches the
    clamp. *)
Theorem plate_slide_reward_bounded :
  forall decay actions obs self self'
         reward tcp_to_obj tcp_opened obj_to_target object_grasped in_place,
    PlateSlideBackSide.compute_reward decay actions obs self
    = (Ok (reward, tcp_to_obj, tcp_opened, obj_to_target, object_grasped,
           in_place), self') ->
    0 <= object_grasped <= 1 ->
    0 <= in_place <= 1 ->
    0 <= reward <= 10 /\ (reward = 10 <-> obj_to_target < 0.05).
Proof.
  intros decay actions obs self self'
         reward tcp_to_obj tcp_opened obj_to_target object_grasped in_place
         Hrun Hg Hp.
  apply plate_slide_compute_reward_inv in Hrun
    as (_ & tcp_z & d & d' & _ & _ & _ & _ & _ & _ & Hreward).
  destruct (Rltb obj_to_target 0.05) eqn:Hclamp;
    [ apply Rltb_true in Hclamp | apply Rltb_false in Hclamp ].
  - subst reward. split; [ lra | ]. split; intros; [ assumption | reflexivity ].
  - destruct (Rleb tcp_z 0.03 && Rltb tcp_to_obj 0.07);
      subst reward; (split; [ lra | ]); split; intros; lra.
Qed.

Lemma plate_slide_reward_bounded_witness :
  0 <= 10 <= 10 /\ (10 = 10 <-> 0.03 < 0.05).
Proof.
  apply (plate_slide_reward_bounded Example.long_tail [] Example.plate_obs
           Example.plate_env Example.plate_env 10 0.04 1 0.03 1 1
           plate_slide_compute_reward_example); lra.
Defined.

(** X3.  Plate slide: in what [evaluate_state] returns, the success entry
    is 1 exactly when the reported distance [obj_to_target] is at most
    0.07, and 0 otherwise; whenever that distance is below 0.05 the reward
    is 10 and success is reported, so the clamp never pays without
    success. *)
Theorem plate_slide_success_rule :
  forall decay obs action self self' reward info,
    PlateSlideBackSide.evaluate_state decay obs action self
    = (Ok (reward, info), self') ->
    exists obj_to_target success,
      dict_get "obj_to_target" info = Some obj_to_target /\
      dict_get "success" info = Some success /\
      (success = 1 <-> obj_to_target <= 0.07) /\
      (success = 0 <-> 0.07 < obj_to_target) /\
      (obj_to_target < 0.05 -> reward = 10 /\ success = 1).
Proof.
  intros decay obs action self self' reward info Hrun.
  apply plate_slide_evaluate_state_inv in Hrun
    as (tto & o & ott & g & p & Hc & ->).
  apply plate_slide_compute_reward_inv in Hc
    as (_ & tcp_z & d & d' & _ & _ & _ & _ & _ & _ & Hreward).
  exists ott, (float_of_bool (Rleb ott 0.07)).
  split; [ reflexivity | ]. split; [ reflexivity | ].
  destruct (Rleb ott 0.07) eqn:Hs;
    [ apply Rleb_true in Hs | apply Rleb_false in Hs ]; simpl.
  - repeat split; intros; try lra.
    rewrite (proj2 (Rltb_true ott 0.05)) in Hreward by assumption.
    exact Hreward.
  - repeat split; intros; lra.
Qed.

Lemma plate_slide_success_rule_witness :
  exists obj_to_target success,
    dict_get "obj_to_target"
      [ ("success", 1); ("near_object", 0); ("grasp_success", 0);
        ("grasp_reward", 1); ("in_place_reward", 1);
        ("obj_to_target", 0.03); ("unscaled_reward", 10) ]%string
    = Some obj_to_target /\
    dict_get "success"
      [ ("success", 1); ("near_object", 0); ("grasp_success", 0);
        ("grasp_reward", 1); ("in_place_reward", 1);
        ("obj_to_target", 0.03); ("unscaled_reward", 10) ]%string
    = Some success /\
    (success = 1 <-> obj_to_target <= 0.07) /\
    (success = 0 <-> 0.07 < obj_to_target) /\
    (obj_to_target < 0.05 -> 10 = 10 /\ success = 1).
Proof.
  exact (plate_slide_success_rule Example.long_tail Example.plate_obs []
           Example.plate_env Example.plate_env 10 _
           plate_slide_evaluate_state_example).
Defined.

(** ** The info dict *)

Lemma button_press_evaluate_state_example :
  ButtonPressWall.evaluate_state Example.long_tail Example.button_obs []
    Example.button_env
  = (Ok (2 * reward_utils.hamacher_product ((1 - -1) / 2)
               (Example.long_tail "long_tail" ((0.3 - 0.01) / 0.4)),
         [ ("success", 0); ("near_object", 0); ("grasp_success", 0);
           ("grasp_reward",
            Example.long_tail "long_tail" ((0.3 - 0.01) / 0.4));
           ("in_place_reward",
            Example.long_tail "long_tail" ((0.06 - 0.005) / 0.06));
           ("obj_to_target", 0.06);
           ("unscaled_reward",
            2 * reward_utils.hamacher_product ((1 - -1) / 2)
                  (Example.long_tail "long_tail" ((0.3 - 0.01) / 0.4)))
         ]%string),
     Example.button_env).
Proof.
  unfold ButtonPressWall.evaluate_state.
  rewrite guard_accepts by reflexivity.
  unfold bind. rewrite button_press_compute_reward_example.
  unfold ret, float_of_bool. compare_R. reflexivity.
Qed.

Lemma window_open_compute_reward_example :
  WindowOpen.compute_reward Example.long_tail [] Example.window_obs
    Example.window_env
  = (Ok (10 * reward_utils.hamacher_product 1 1, 0, 0, 0, 1, 1),
     Example.window_env).
Proof.
  unfold WindowOpen.compute_reward, WindowOpen._get_pos_objects,
    WindowOpen.TARGET_RADIUS.
  np_run.
  norm_is 0. norm_is 0.2. abs_is 0.15. in_bounds.
  norm_is 0. norm_is 0.3. abs_is 0.28. in_bounds.
  reflexivity.
Qed.

Lemma window_open_evaluate_state_run :
  WindowOpen.evaluate_state Example.long_tail Example.window_obs []
    Example.window_env
  = (Ok (10 * reward_utils.hamacher_product 1 1,
         [ ("success", 1); ("near_object", 1); ("grasp_success", 1);
           ("grasp_reward", 1); ("in_place_reward", 1);
           ("obj_to_target", 0);
           ("unscaled_reward", 10 * reward_utils.hamacher_product 1 1)
         ]%string),
     Example.window_env).
Proof.
  unfold WindowOpen.evaluate_state.
  rewrite guard_accepts by reflexivity.
  unfold bind. rewrite window_open_compute_reward_example.
  unfold ret, float_of_bool, WindowOpen.TARGET_RADIUS. compare_R.
  reflexivity.
Qed.

(** X4.  In each of the four tasks, the info dict that [evaluate_state]
    returns has the same seven keys in the same order, and its entry
    [unscaled_reward] is the reward returned beside it. *)
Theorem info_dict_shape :
  forall decay obs action,
    (forall self self' reward info,
        ButtonPressWall.evaluate_state decay obs action self
        = (Ok (reward, info), self') ->
        map fst info = info_keys /\
        dict_get "unscaled_reward" info = Some reward) /\
    (forall self self' reward info,
        PlateSlideBackSide.evaluate_state decay obs action self
        = (Ok (reward, info), self') ->
        map fst info = info_keys /\
        dict_get "unscaled_reward" info = Some reward) /\
    (forall self self' reward info,
        Reach.evaluate_state decay obs action self
        = (Ok (reward, info), self') ->
        map fst info = info_keys /\
        dict_get "unscaled_reward" info = Some reward) /\
    (forall self self' reward info,
        WindowOpen.evaluate_state decay obs action self
        = (Ok (reward, info), self') ->
        map fst info = info_keys /\
        dict_get "unscaled_reward" info = Some reward).
Proof.
  intros decay obs action.
  split; [ | split; [ | split ] ]; intros self self' reward info Hrun.
  - apply button_press_evaluate_state_inv in Hrun
      as (? & ? & ? & ? & ? & _ & ->). split; reflexivity.
  - apply plate_slide_evaluate_state_inv in Hrun
      as (? & ? & ? & ? & ? & _ & ->). split; reflexivity.
  - apply reach_evaluate_state_inv in Hrun as (? & ? & _ & ->).
    split; reflexivity.
  - apply window_open_evaluate_state_inv in Hrun
      as (? & ? & ? & ? & ? & _ & ->). split; reflexivity.
Qed.

Lemma info_dict_shape_witness :
  (map fst [ ("success", 0); ("near_object", 0); ("grasp_success", 0);
             ("grasp_reward",
              Example.long_tail "long_tail" ((0.3 - 0.01) / 0.4));
             ("in_place_reward",
              Example.long_tail "long_tail" ((0.06 - 0.005) / 0.06));
             ("obj_to_target", 0.06);
             ("unscaled_reward",
              2 * reward_utils.hamacher_product ((1 - -1) / 2)
                    (Example.long_tail "long_tail" ((0.3 - 0.01) / 0.4)))
           ]%string
   = info_keys) /\
  (map fst [ ("success", 1); ("near_object", 0); ("grasp_success", 0);
             ("grasp_reward", 1); ("in_place_reward", 1);
             ("obj_to_target", 0.03); ("unscaled_reward", 10) ]%string
   = info_keys) /\
  (map fst [ ("success", 0); ("near_object", 0.25); ("grasp_success", 1);
             ("grasp_reward", 0.25);
             ("in_place_reward",
              Example.long_tail "long_tail" ((0.25 - 0.05) / 0.2));
             ("obj_to_target", 0.25);
             ("unscaled_reward",
              10 * Example.long_tail "long_tail" ((0.25 - 0.05) / 0.2))
           ]%string
   = info_keys) /\
  (map fst [ ("success", 1); ("near_object", 1); ("grasp_success", 1);
             ("grasp_reward", 1); ("in_place_reward", 1);
             ("obj_to_target", 0);
             ("unscaled_reward", 10 * reward_utils.hamacher_product 1 1)
           ]%string
   = info_keys).
Proof.
  pose proof (info_dict_shape Example.long_tail Example.button_obs [])
    as (Hb & _).
  pose proof (info_dict_shape Example.long_tail Example.plate_obs [])
    as (_ & Hp & _).
  pose proof (info_dict_shape Example.long_tail Example.reach_obs [])
    as (_ & _ & Hr & _).
  pose proof (info_dict_shape Example.long_tail Example.window_obs [])
    as (_ & _ & _ & Hw).
  split; [ exact (proj1 (Hb _ _ _ _ button_press_evaluate_state_example)) | ].
  split; [ exact (proj1 (Hp _ _ _ _ plate_slide_evaluate_state_example)) | ].
  split; [ exact (proj1 (Hr _ _ _ _ reach_evaluate_state_example)) | ].
  exact (proj1 (Hw _ _ _ _ window_open_evaluate_state_run)).
Defined.

(** X5.  Reach: in what [evaluate_state] returns, the entries
    [near_object], [grasp_reward] and [obj_to_target] all carry the
    distance from the gripper to the target (none of them is a flag),
    [grasp_success] is 1, success is 1 exactly when that distance is at
    most 0.05, and the reward is ten times the entry [in_place_reward]. *)
Theorem reach_info_entries :
  forall decay obs action self self' reward info,
    Reach.evaluate_state decay obs action self = (Ok (reward, info), self') ->
    exists d in_place,
      Np.sub (tcp_center self) (_target_pos self) = Ok d /\
      dict_get "near_object" info = Some (Np.norm d) /\
      dict_get "grasp_reward" info = Some (Np.norm d) /\
      dict_get "obj_to_target" info = Some (Np.norm d) /\
      dict_get "grasp_success" info = Some 1 /\
      dict_get "in_place_reward" info = Some in_place /\
      reward = 10 * in_place /\
      (dict_get "success" info = Some 1 <-> Np.norm d <= 0.05).
Proof.
  intros decay obs action self self' reward info Hrun.
  apply reach_evaluate_state_inv in Hrun as (dist & p & Hc & ->).
  apply reach_compute_reward_inv in Hc as (_ & d & Hd & -> & ->).
  exists d, p. repeat split; try assumption; try reflexivity; simpl.
  - intros Hs. apply Some_float_one, Rleb_true in Hs. exact Hs.
  - intros Hs. apply Some_float_one, Rleb_true. exact Hs.
Qed.

Lemma reach_info_entries_witness :
  exists d in_place,
    Np.sub (tcp_center Example.reach_env) (_target_pos Example.reach_env)
    = Ok d /\
    Some 0.25 = Some (Np.norm d) /\
    Some 0.25 = Some (Np.norm d) /\
    Some 0.25 = Some (Np.norm d) /\
    Some 1 = Some 1 /\
    Some (Example.long_tail "long_tail" ((0.25 - 0.05) / 0.2))
    = Some in_place /\
    10 * Example.long_tail "long_tail" ((0.25 - 0.05) / 0.2)
    = 10 * in_place /\
    (Some 0 = Some 1 <-> Np.norm d <= 0.05).
Proof.
  exact (reach_info_entries Example.long_tail Example.reach_obs []
           Example.reach_env Example.reach_env _ _
           reach_evaluate_state_example).
Defined.

Lemma item_1_of_slice_4_7 obs y :
  Np.item 1 (Np.slice 4 7 obs) = Ok y -> Np.item 5 obs = Ok y.
Proof.
  unfold Np.item, Np.slice.
  do 6 (destruct obs as [ | ? obs ]; try discriminate).
  simpl. intros H. exact H.
Qed.

(** X6.  Button press: in what [evaluate_state] returns, the entry
    [obj_to_target] is the distance along the second axis only, between
    the target and the entry [obs[5]] of the observation; success is 1
    exactly when that distance is at most 0.03, and [grasp_success] is 1
    exactly when the gripper entry [obs[3]] is positive. *)
Theorem button_press_info_entries :
  forall decay obs action self self' reward info,
    ButtonPressWall.evaluate_state decay obs action self
    = (Ok (reward, info), self') ->
    exists target_y obj_y gripper,
      Np.item 1 (_target_pos (super self)) = Ok target_y /\
      Np.item 5 obs = Ok obj_y /\
      Np.item 3 obs = Ok gripper /\
      dict_get "obj_to_target" info = Some (Rabs (target_y - obj_y)) /\
      (dict_get "success" info = Some 1 <->
       Rabs (target_y - obj_y) <= 0.03) /\
      (dict_get "grasp_success" info = Some 1 <-> 0 < gripper).
Proof.
  intros decay obs action self self' reward info Hrun.
  apply button_press_evaluate_state_inv in Hrun
    as (tto & g & ott & nb & bp & Hc & ->).
  apply button_press_compute_reward_inv in Hc
    as (_ & d & ty & oy & Hg & _ & _ & Hty & Hoy & -> & _).
  exists ty, oy, g.
  split; [ exact Hty | ].
  split; [ apply item_1_of_slice_4_7, Hoy | ].
  split; [ exact Hg | ].
  split; [ reflexivity | ]. simpl. split.
  - rewrite Some_float_one, Rleb_true. reflexivity.
  - rewrite Some_float_one, Rltb_true. reflexivity.
Qed.

Lemma button_press_info_entries_witness :
  exists target_y obj_y gripper,
    Np.item 1 (_target_pos (super Example.button_env)) = Ok target_y /\
    Np.item 5 Example.button_obs = Ok obj_y /\
    Np.item 3 Example.button_obs = Ok gripper /\
    Some 0.06 = Some (Rabs (target_y - obj_y)) /\
    (Some 0 = Some 1 <-> Rabs (target_y - obj_y) <= 0.03) /\
    (Some 0 = Some 1 <-> 0 < gripper).
Proof.
  exact (button_press_info_entries Example.long_tail Example.button_obs []
           Example.button_env Example.button_env _ _
           button_press_evaluate_state_example).
Defined.

(** X7.  Button press: once the gripper is within 0.07 of the button, a
    gripper entry in [-1,1] and a score [button_pressed] in [0,1] give a
    reward between 2 and 10, and the reward is 10 exactly when the gripper
    entry is 1 and the button is fully pressed. *)
Theorem button_press_near_reward_bounded :
  forall decay action obs self self'
         reward tcp_to_obj tcp_open obj_to_target near_button button_pressed,
    ButtonPressWall.compute_reward decay action obs self
    = (Ok (reward, tcp_to_obj, tcp_open, obj_to_target, near_button,
           button_pressed), self') ->
    tcp_to_obj <= 0.07 ->
    -1 <= tcp_open <= 1 ->
    0 <= button_pressed <= 1 ->
    2 <= reward <= 10 /\
    (reward = 10 <-> tcp_open = 1 /\ button_pressed = 1).
Proof.
  intros decay action obs self self'
         reward tcp_to_obj tcp_open obj_to_target near_button button_pressed
         Hrun Hnear Hg Hp.
  apply button_press_compute_reward_inv in Hrun
    as (_ & d & ty & oy & _ & _ & _ & _ & _ & _ & Hreward).
  rewrite (proj2 (Rltb_false 0.07 tcp_to_obj)) in Hreward by exact Hnear.
  subst reward.
  assert (Hsq : 0 <= button_pressed ^ 2 <= 1) by nra.
  split; [ lra | ]. split.
  - intros Hten.
    assert (Hg1 : tcp_open = 1) by lra.
    split; [ exact Hg1 | ]. nra.
  - intros [-> ->]. ring.
Qed.

Lemma button_press_near_example :
  ButtonPressWall.compute_reward Example.long_tail []
    Scenario.button_near_obs Scenario.button_near_env
  = (Ok (2 + 2 * (1 + 1) + 4 * 1 ^ 2, 0, 1, 0, 1, 1),
     Scenario.button_near_env).
Proof.
  unfold ButtonPressWall.compute_reward, Scenario.button_near_obs,
    Scenario.button_near_env.
  np_run.
  norm_is 0. norm_is 0.4. abs_is 0.
  do 2 in_bounds. compare_R. reflexivity.
Qed.

Lemma button_press_near_reward_bounded_witness :
  2 <= 2 + 2 * (1 + 1) + 4 * 1 ^ 2 <= 10 /\
  (2 + 2 * (1 + 1) + 4 * 1 ^ 2 = 10 <-> 1 = 1 /\ 1 = 1).
Proof.
  apply (button_press_near_reward_bounded Example.long_tail []
           Scenario.button_near_obs Scenario.button_near_env
           Scenario.button_near_env _ 0 1 0 1 1
           button_press_near_example); lra.
Defined.

(** X8.  Window open: in what [evaluate_state] returns, the entry
    [obj_to_target] is the distance along the first axis only, between the
    handle site and the target; [grasp_success] is 1; and the reward is ten
    times the Hamacher product of the entries [grasp_reward] and
    [in_place_reward]. *)
Theorem window_open_info_entries :
  forall decay obs action self self' reward info,
    WindowOpen.evaluate_state decay obs action self
    = (Ok (reward, info), self') ->
    exists x t reach in_place,
      Np.item 0 (_get_site_pos "handleOpenStart" self) = Ok x /\
      Np.item 0 (_target_pos (super self)) = Ok t /\
      dict_get "obj_to_target" info = Some (Rabs (x - t)) /\
      dict_get "grasp_success" info = Some 1 /\
      dict_get "grasp_reward" info = Some reach /\
      dict_get "in_place_reward" info = Some in_place /\
      reward = 10 * reward_utils.hamacher_product reach in_place.
Proof.
  intros decay obs action self self' reward info Hrun.
  apply window_open_evaluate_state_inv in Hrun
    as (tto & o & ott & g & p & Hc & ->).
  apply window_open_compute_reward_inv in Hc
    as (_ & d & x & t & _ & _ & Hx & Ht & -> & _ & ->).
  exists x, t, g, p. repeat split; try assumption; reflexivity.
Qed.

Lemma window_open_info_entries_witness :
  exists x t reach in_place,
    Np.item 0 (_get_site_pos "handleOpenStart" Example.window_env) = Ok x /\
    Np.item 0 (_target_pos (super Example.window_env)) = Ok t /\
    Some 0 = Some (Rabs (x - t)) /\
    Some 1 = Some 1 /\
    Some 1 = Some reach /\
    Some 1 = Some in_place /\
    10 * reward_utils.hamacher_product 1 1
    = 10 * reward_utils.hamacher_product reach in_place.
Proof.
  exact (window_open_info_entries Example.long_tail Example.window_obs []
           Example.window_env Example.window_env _ _
           window_open_evaluate_state_run).
Defined.

(** ** Reach: which draw the rejection loop keeps *)

(** As [while_inv], with the body seen only after the condition held. *)
Lemma while_inv_guarded {S L : Type} (I : L -> S -> Prop)
      (cond : L -> M S bool) (body : L -> M S L) :
  (forall l s b s', I l s -> cond l s = (Ok b, s') -> I l s') ->
  (forall l s0 s l' s',
      I l s0 -> cond l s0 = (Ok true, s) -> body l s = (Ok l', s') ->
      I l' s') ->
  forall fuel l s l' s',
    I l s -> while fuel cond body l s = (Ok l', s') ->
    exists s1, I l' s1 /\ cond l' s1 = (Ok false, s').
Proof.
  intros Hcond Hbody.
  induction fuel as [ | fuel IH ]; intros l s l' s' HI Hrun.
  - discriminate Hrun.
  - rewrite while_step in Hrun.
    apply bind_Ok_inv in Hrun as (c & s1 & Hc & Hrun).
    destruct c.
    + apply bind_Ok_inv in Hrun as (l1 & s2 & Hb & Hrun).
      apply (IH l1 s2); [ | exact Hrun ].
      eapply Hbody; eassumption.
    + unfold ret in Hrun. inversion Hrun; subst.
      exists s. split; assumption.
Qed.

Lemma fix_extreme_obj_pos_read_only orig :
  read_only (Reach.fix_extreme_obj_pos orig).
Proof. unfold Reach.fix_extreme_obj_pos. pure_steps. Qed.

Lemma read_only_run {S A : Type} (m : M S A) s r s' :
  read_only m -> m s = (r, s') -> s' = s.
Proof. intros Hro Hrun. specialize (Hro s). rewrite Hrun in Hro. exact Hro. Qed.

Lemma too_close_not_separated v d :
  Np.sub (Np.slice_to 2 v) (Np.slice_to 2 (Np.slice_from 3 v)) = Ok d ->
  Rltb (Np.norm d) 0.15 = true -> ~ separated v.
Proof.
  intros Hd Hclose (d' & Hd' & Hfar). rewrite Hd in Hd'. inversion Hd'; subst.
  apply Rltb_true in Hclose. lra.
Qed.

Lemma reach_reset_model_inv
      _reset_hand _set_obj_xyz mj_forward _get_obs rand_vec fuel
      self s0 self' obs :
  (forall n, contains Reach._random_reset_space (rand_vec n)) ->
  (forall pos, keeps_episode (_set_obj_xyz pos)) ->
  keeps_episode mj_forward ->
  keeps_episode _get_obs ->
  _reset_hand self = (Ok tt, s0) ->
  Reach.reset_model _reset_hand _set_obj_xyz mj_forward _get_obs rand_vec
    fuel self = (Ok obs, self') ->
  exists n,
    (rand_draws s0 <= n)%nat /\
    separated (rand_vec n) /\
    (forall k, (rand_draws s0 <= k < n)%nat -> ~ separated (rand_vec k)) /\
    obj_init_pos self' = Np.slice_to 3 (rand_vec n) /\
    _target_pos self' = Np.slice_from 3 (rand_vec n).
Proof.
  intros Hbox Hset Hfwd Hobs Hhand Hrun.
  unfold Reach.reset_model in Hrun.
  apply bind_Ok_inv in Hrun as ([] & s0' & Hhand' & Hrun).
  rewrite Hhand in Hhand'. inversion Hhand'; subst s0'. clear Hhand'.
  apply bind_Ok_inv in Hrun as (g & t1 & Hg & Hrun).
  unfold attr, gets in Hg. inversion Hg; subst g t1. clear Hg.
  apply bind_Ok_inv in Hrun as ([] & t2 & Hm & Hrun).
  unfold modify in Hm. inversion Hm; subst t2. clear Hm.
  apply bind_Ok_inv in Hrun as (cfg & t3 & Hm & Hrun).
  unfold attr, gets in Hm. inversion Hm; subst cfg t3. clear Hm.
  apply bind_Ok_inv in Hrun as (fixed & t4 & Hfix & Hrun).
  apply (read_only_run _ _ _ _ (fix_extreme_obj_pos_read_only _)) in Hfix.
  subst t4.
  apply bind_Ok_inv in Hrun as ([] & t5 & Hm & Hrun).
  unfold modify in Hm. inversion Hm; subst t5. clear Hm.
  apply bind_Ok_inv in Hrun as (cfg & t6 & Hm & Hrun).
  unfold attr, gets in Hm. inversion Hm; subst cfg t6. clear Hm.
  apply bind_Ok_inv in Hrun as ([] & t7 & Hm & Hrun).
  unfold modify in Hm. inversion Hm; subst t7. clear Hm.
  apply bind_Ok_inv in Hrun as (v0 & t8 & Hdraw & Hrun).
  unfold Reach._get_state_rand_vec, bind, gets, modify, ret in Hdraw.
  simpl in Hdraw. inversion Hdraw; subst v0 t8. clear Hdraw.
  apply bind_Ok_inv in Hrun as ([] & t9 & Hm & Hrun).
  unfold modify in Hm. inversion Hm; subst t9. clear Hm.
  apply bind_Ok_inv in Hrun as (v & t10 & Hloop & Hrun).
  set (n0 := rand_draws s0) in *.
  apply (while_inv_guarded
           (fun l s =>
              exists n,
                l = rand_vec n /\ rand_draws s = S n /\ (n0 <= n)%nat /\
                _target_pos s = Np.slice_from 3 l /\
                forall k, (n0 <= k < n)%nat -> ~ separated (rand_vec k)))
    in Hloop.
  - destruct Hloop as (se & (n & -> & Hdraws & Hn & Ht & Hrej) & Hexit).
    unfold Reach.too_close, bind, lift, gets, attr, ret in Hexit.
    simpl in Hexit. rewrite Ht in Hexit. run Hexit.
    inversion Hexit; subst.
    match goal with
    | Hb : Rltb _ _ = false |- _ =>
        apply Rltb_false in Hb; rename Hb into Hfar
    end.
    apply bind_Ok_inv in Hrun as (u1 & r1 & Hu1 & Hrun).
    apply bind_Ok_inv in Hrun as (u2 & r2 & Hu2 & Hrun).
    apply bind_Ok_inv in Hrun as (pos & r3 & Hu3 & Hrun).
    apply bind_Ok_inv in Hrun as (u4 & r4 & Hu4 & Hrun).
    apply bind_Ok_inv in Hrun as (u5 & r5 & Hu5 & Hrun).
    pose proof (Hset pos r3) as [Ht1 Ho1].
    rewrite Hu4 in Ht1, Ho1. simpl in Ht1, Ho1.
    pose proof (Hfwd r4) as [Ht2 Ho2].
    rewrite Hu5 in Ht2, Ho2. simpl in Ht2, Ho2.
    pose proof (Hobs r5) as [Ht3 Ho3].
    rewrite Hrun in Ht3, Ho3. simpl in Ht3, Ho3.
    unfold attr, gets in Hu3. inversion Hu3; subst r3 pos.
    unfold modify in Hu1, Hu2.
    inversion Hu2; subst r2. inversion Hu1; subst r1.
    exists n. split; [ exact Hn | ].
    split; [ eexists; split; eassumption | ].
    split; [ exact Hrej | ].
    rewrite Ht3, Ht2, Ht1, Ho3, Ho2, Ho1. simpl.
    split; [ reflexivity | ].
    apply slice_last_3_of_6, contains_reset_space_length, Hbox.
  - intros l sa b sb HI Hc.
    apply (read_only_run _ _ _ _ (too_close_read_only l)) in Hc.
    subst sb. exact HI.
  - intros l sa sb l' sc (n & -> & Hdraws & Hn & Ht & Hrej) Hc Hb.
    pose proof (read_only_run _ _ _ _ (too_close_read_only _) Hc) as ->.
    rewrite resample_run in Hb. inversion Hb; subst l' sc. clear Hb.
    rewrite Hdraws. exists (S n).
    split; [ reflexivity | ]. split; [ reflexivity | ].
    split; [ lia | ]. split; [ reflexivity | ].
    intros k Hk. destruct (Nat.eq_dec k n) as [-> | Hne].
    + destruct (sub_xy_defined (rand_vec n)
                  (contains_reset_space_length _ (Hbox n))) as (d & Hd).
      apply (too_close_not_separated _ d Hd).
      rewrite (too_close_run _ _ d) in Hc by (rewrite Ht; exact Hd).
      inversion Hc. reflexivity.
    + apply Hrej. lia.
  - exists n0. simpl.
    split; [ reflexivity | ]. split; [ reflexivity | ].
    split; [ lia | ]. split; [ reflexivity | ].
    intros k Hk. lia.
Qed.

(** X9.  Reach: [reset_model] keeps the first draw, counted from the state
    that [_reset_hand] leaves, whose object and goal are at least 0.15
    apart in their first two coordinates; every earlier draw was closer
    and was rejected, and no acceptable draw is skipped. *)
Theorem reach_reset_model_first_acceptable :
  forall _reset_hand _set_obj_xyz mj_forward _get_obs rand_vec fuel
         self s0 self' obs,
    (forall n, contains Reach._random_reset_space (rand_vec n)) ->
    (forall pos, keeps_episode (_set_obj_xyz pos)) ->
    keeps_episode mj_forward ->
    keeps_episode _get_obs ->
    _reset_hand self = (Ok tt, s0) ->
    Reach.reset_model _reset_hand _set_obj_xyz mj_forward _get_obs rand_vec
      fuel self = (Ok obs, self') ->
    exists n,
      (rand_draws s0 <= n)%nat /\
      separated (rand_vec n) /\
      (forall k, (rand_draws s0 <= k < n)%nat -> ~ separated (rand_vec k)) /\
      obj_init_pos self' = Np.slice_to 3 (rand_vec n) /\
      _target_pos self' = Np.slice_from 3 (rand_vec n).
Proof.
  intros _reset_hand _set_obj_xyz mj_forward _get_obs rand_vec fuel
         self s0 self' obs.
  apply reach_reset_model_inv.
Qed.

(** ** Reach: [reset_model] returns *)

Lemma bind_run {S A B : Type} (m : M S A) (k : A -> M S B) s a s' :
  m s = (Ok a, s') -> bind m k s = k a s'.
Proof. intros Hrun. unfold bind. rewrite Hrun. reflexivity. Qed.

Lemma bind_attr {S A B : Type} `{Sawyer S} (f : SawyerXYZEnv -> A)
      (k : A -> M S B) s :
  bind (attr f) k s = k (f (super s)) s.
Proof. reflexivity. Qed.

Lemma bind_gets {S A B : Type} (f : S -> A) (k : A -> M S B) s :
  bind (gets f) k s = k (f s) s.
Proof. reflexivity. Qed.

Lemma bind_modify {S B : Type} (f : S -> S) (k : unit -> M S B) s :
  bind (modify f) k s = k tt (f s).
Proof. reflexivity. Qed.

Lemma bind_lift_Ok {S A B : Type} (a : A) (k : A -> M S B) s :
  bind (lift (Ok a)) k s = k a s.
Proof. reflexivity. Qed.

Lemma fix_extreme_obj_pos_run (self : SawyerXYZEnv) x y z cx cy cz :
  get_body_com "obj" self = [cx; cy; cz] ->
  Reach.fix_extreme_obj_pos [x; y; z] self = (Ok [x; y; cz], self).
Proof.
  intros Hcom.
  unfold Reach.fix_extreme_obj_pos, bind, lift, gets, ret.
  rewrite Hcom.
  unfold Np.sub, Np.add, Np.broadcast, Np.slice_to, Np.item, Np.item_last.
  simpl.
  replace (cx - cx) with 0 by ring. replace (cy - cy) with 0 by ring.
  rewrite !Rplus_0_r. reflexivity.
Qed.

Lemma get_state_rand_vec_run rand_vec s :
  Reach._get_state_rand_vec rand_vec s
  = (Ok (rand_vec (rand_draws s)), set_rand_draws (S (rand_draws s)) s).
Proof. reflexivity. Qed.

Lemma position_inv v : position v -> exists x y z, v = [x; y; z].
Proof.
  unfold position. destruct v as [ | x [ | y [ | z [ | ? ? ] ] ] ];
    try discriminate. intros _. eexists _, _, _. reflexivity.
Qed.

(** X10.  Reach: [reset_model] returns as soon as its fuel exceeds the
    number of draws up to an acceptable one, provided the collaborators
    return and the centre of mass of the object and the configured object
    position are three-dimensional: the rejection loop is the only step
    that can keep it from finishing. *)
Theorem reach_reset_model_returns :
  forall _reset_hand _set_obj_xyz mj_forward _get_obs rand_vec k self s0,
    (forall n, contains Reach._random_reset_space (rand_vec n)) ->
    _reset_hand self = (Ok tt, s0) ->
    position (get_body_com "obj" s0) ->
    position (cfg_obj_init_pos (init_config s0)) ->
    (forall pos s, exists s', _set_obj_xyz pos s = (Ok tt, s')) ->
    (forall s, exists s', mj_forward s = (Ok tt, s')) ->
    (forall s, exists o s', _get_obs s = (Ok o, s')) ->
    separated (rand_vec (rand_draws s0 + k)%nat) ->
    exists obs self',
      Reach.reset_model _reset_hand _set_obj_xyz mj_forward _get_obs rand_vec
        (S k) self = (Ok obs, self').
Proof.
  intros _reset_hand _set_obj_xyz mj_forward _get_obs rand_vec k self s0
         Hbox Hhand Hcom Hcfg Hset Hfwd Hobs Hsep.
  apply position_inv in Hcom as (cx & cy & cz & Hcom).
  apply position_inv in Hcfg as (x & y & z & Hcfg).
  unfold Reach.reset_model.
  rewrite (bind_run _ _ _ _ _ Hhand).
  rewrite bind_attr, bind_modify, bind_attr.
  change (cfg_obj_init_pos
            (init_config (super (set_target_pos (goal (super s0)) s0))))
    with (cfg_obj_init_pos (init_config s0)).
  rewrite Hcfg.
  rewrite (bind_run _ _ _ _ _
             (fix_extreme_obj_pos_run
                (set_target_pos (goal (super s0)) s0) x y z cx cy cz Hcom)).
  rewrite bind_modify, bind_attr, bind_modify.
  rewrite (bind_run _ _ _ _ _ (get_state_rand_vec_run _ _)).
  rewrite bind_modify.
  cbn [rand_draws set_obj_init_angle set_obj_init_pos set_target_pos
       set_rand_draws].
  match goal with
  | |- context [bind (while _ _ _ _) _ ?s] =>
      destruct (reach_loop_finishes rand_vec Hbox k (rand_draws s0) s
                  eq_refl eq_refl Hsep) as (j & s1 & _ & Hloop)
  end.
  rewrite (bind_run _ _ _ _ _ Hloop).
  rewrite !bind_modify, bind_attr.
  match goal with
  | |- context [bind (_set_obj_xyz ?pos) _ ?s] =>
      destruct (Hset pos s) as (s2 & Hs2)
  end.
  rewrite (bind_run _ _ _ _ _ Hs2).
  destruct (Hfwd s2) as (s3 & Hs3). rewrite (bind_run _ _ _ _ _ Hs3).
  destruct (Hobs s3) as (o & s4 & Hs4).
  exists o, s4. exact Hs4.
Qed.

Lemma example_collaborators_return :
  (forall pos s, exists s', Example.idle_set_obj_xyz pos s = (Ok tt, s')) /\
  (forall s, exists s', Example.idle s = (Ok tt, s')) /\
  (forall s, exists o s', Example.hand_and_goal s = (Ok o, s')).
Proof.
  split; [ | split ]; intros; repeat eexists; reflexivity.
Qed.

Lemma example_second_draw_separated : separated (Example.rand_vec 1).
Proof.
  unfold separated. np_run. eexists. split; [ reflexivity | ].
  norm_is 0.2. lra.
Qed.

Lemma reach_reset_model_returns_witness :
  exists obs self',
    Reach.reset_model Example.idle Example.idle_set_obj_xyz Example.idle
      Example.hand_and_goal Example.rand_vec 2 Example.reach_env
    = (Ok obs, self').
Proof.
  exact (reach_reset_model_returns Example.idle Example.idle_set_obj_xyz
           Example.idle Example.hand_and_goal Example.rand_vec 1
           Example.reach_env Example.reach_env
           example_draws_in_space eq_refl eq_refl eq_refl
           (proj1 example_collaborators_return)
           (proj1 (proj2 example_collaborators_return))
           (proj2 (proj2 example_collaborators_return))
           example_second_draw_separated).
Defined.

Lemma reach_reset_model_first_acceptable_witness :
  exists n,
    (rand_draws Example.reach_env <= n)%nat /\
    separated (Example.rand_vec n) /\
    (forall k, (rand_draws Example.reach_env <= k < n)%nat ->
               ~ separated (Example.rand_vec k)) /\
    obj_init_pos Example.reach_env_after
    = Np.slice_to 3 (Example.rand_vec n) /\
    _target_pos Example.reach_env_after
    = Np.slice_from 3 (Example.rand_vec n).
Proof.
  exact (reach_reset_model_first_acceptable Example.idle
           Example.idle_set_obj_xyz Example.idle Example.hand_and_goal
           Example.rand_vec 2 Example.reach_env Example.reach_env
           Example.reach_env_after _
           example_draws_in_space
           (proj1 example_collaborators_keep_episode)
           (proj1 (proj2 example_collaborators_keep_episode))
           (proj2 (proj2 example_collaborators_keep_episode))
           eq_refl reach_reset_model_example).
Defined.

(** ** Reach: from construction to evaluation *)

Lemma while_keeps {S L B : Type} (f : S -> B)
      (cond : L -> M S bool) (body : L -> M S L) :
  (forall l, keeps f (cond l)) -> (forall l, keeps f (body l)) ->
  forall fuel l, keeps f (while fuel cond body l).
Proof.
  intros Hcond Hbody. induction fuel as [ | fuel IH ]; intros l s.
  - reflexivity.
  - rewrite while_step. unfold bind.
    pose proof (Hcond l s) as Hc.
    destruct (cond l s) as [[[ | ] | e | ] s1]; simpl in *; try exact Hc.
    pose proof (Hbody l s1) as Hb.
    destruct (body l s1) as [[l1 | e | ] s2]; simpl in *;
      try (rewrite Hb; exact Hc).
    rewrite IH, Hb. exact Hc.
Qed.

Lemma keeps_bind {S A B C : Type} (f : S -> C) (m : M S A) (k : A -> M S B) :
  keeps f m -> (forall a, keeps f (k a)) -> keeps f (bind m k).
Proof.
  intros Hm Hk s. unfold bind. specialize (Hm s).
  destruct (m s) as [[a | e | ] s1]; simpl in *; try exact Hm.
  rewrite Hk. exact Hm.
Qed.

Lemma keeps_read_only {S A C : Type} (f : S -> C) (m : M S A) :
  read_only m -> keeps f m.
Proof. intros Hro s. rewrite Hro. reflexivity. Qed.

(** [reset_model] leaves alone every attribute that its assignments do not
    name and that its collaborators leave alone. *)
Lemma reach_reset_model_keeps {C : Type} (f : SawyerXYZEnv -> C)
      _reset_hand _set_obj_xyz mj_forward _get_obs rand_vec fuel :
  (forall v e, f (set_target_pos v e) = f e) ->
  (forall v e, f (set_obj_init_pos v e) = f e) ->
  (forall v e, f (set_obj_init_angle v e) = f e) ->
  (forall v e, f (set_rand_draws v e) = f e) ->
  keeps f _reset_hand ->
  (forall pos, keeps f (_set_obj_xyz pos)) ->
  keeps f mj_forward ->
  keeps f _get_obs ->
  keeps f (Reach.reset_model _reset_hand _set_obj_xyz mj_forward _get_obs
             rand_vec fuel).
Proof.
  intros Ht Ho Ha Hd Hhand Hset Hfwd Hobs.
  assert (Hsample : keeps f (Reach._get_state_rand_vec rand_vec)).
  { intros s. apply Hd. }
  unfold Reach.reset_model, Reach.resample.
  repeat first
    [ apply keeps_bind; [ | intros ? ]
    | assumption
    | apply Hset
    | apply while_keeps; intros ?
    | solve [ apply keeps_read_only; auto with pure ]
    | (intros s; simpl; first [ apply Ht | apply Ho | apply Ha | apply Hd ]) ].
Qed.

Lemma reset_space_halves v :
  contains Reach._random_reset_space v ->
  within Reach.obj_low Reach.obj_high (Np.slice_to 3 v) /\
  contains Reach.goal_space (Np.slice_from 3 v).
Proof.
  intros Hin. pose proof (contains_reset_space_length v Hin) as Hlen.
  do 6 (destruct v as [ | ? v ]; [ discriminate Hlen | ]).
  destruct v; [ | discriminate Hlen ].
  unfold contains, Reach._random_reset_space, Reach.goal_space in *.
  simpl in *. tauto.
Qed.

Lemma le_norm c v : 0 <= c -> c * c <= Np.dot v v -> c <= Np.norm v.
Proof.
  intros Hc Hd. unfold Np.norm.
  rewrite <- (sqrt_square c Hc). apply sqrt_le_1_alt. exact Hd.
Qed.

Lemma dot3_bounds a b c :
  a * a <= Np.dot [a; b; c] [a; b; c] /\ b * b <= Np.dot [a; b; c] [a; b; c].
Proof.
  unfold Np.dot. simpl.
  pose proof (Rle_0_sqr a). pose proof (Rle_0_sqr b).
  pose proof (Rle_0_sqr c). unfold Rsqr in *. lra.
Qed.

Lemma reach_margin_in_goal_space target :
  contains Reach.goal_space target ->
  position target /\
  0.2 <= dist (cfg_hand_init_pos ReachSetup.init_config0) target.
Proof.
  unfold contains, Reach.goal_space. simpl.
  destruct target as [ | tx [ | ty [ | tz [ | ? ? ] ] ] ]; simpl; try tauto.
  intros ((_ & _) & (Hy1 & Hy2) & _ & _).
  split; [ reflexivity | ].
  unfold dist. apply le_norm; [ lra | ]. simpl.
  pose proof (dot3_bounds (0.0 - tx) (0.6 - ty) (0.2 - tz)) as [_ Hb].
  assert (0.2 * 0.2 <= (0.6 - ty) * (0.6 - ty)) by nra. lra.
Qed.

Lemma reach_init_run self0 :
  ReachSetup.__init__ self0
  = (Ok tt,
     set_hand_init_pos (cfg_hand_init_pos ReachSetup.init_config0)
       (set_obj_init_pos (cfg_obj_init_pos ReachSetup.init_config0)
          (set_obj_init_angle (cfg_obj_init_angle ReachSetup.init_config0)
             (set_goal [-0.1; 0.8; 0.2]
                (set_init_config ReachSetup.init_config0 self0))))).
Proof. reflexivity. Qed.

(** X11.  Reach: on an instance that [__init__] has configured and
    [reset_model] has reset, the object start lies in the object box, the
    target lies in the goal box, and the initial hand position is still
    the configured one, at least 0.2 from the target.  The margin of the
    score [in_place] is therefore positive, and [compute_reward] returns
    for every three-dimensional gripper position. *)
Theorem reach_constructed_reset_evaluates :
  forall _reset_hand _set_obj_xyz mj_forward _get_obs rand_vec fuel
         self0 s1 s2 obs,
    (forall n, contains Reach._random_reset_space (rand_vec n)) ->
    keeps hand_init_pos _reset_hand ->
    (forall pos, keeps_episode (_set_obj_xyz pos) /\
                 keeps hand_init_pos (_set_obj_xyz pos)) ->
    keeps_episode mj_forward /\ keeps hand_init_pos mj_forward ->
    keeps_episode _get_obs /\ keeps hand_init_pos _get_obs ->
    ReachSetup.__init__ self0 = (Ok tt, s1) ->
    Reach.reset_model _reset_hand _set_obj_xyz mj_forward _get_obs rand_vec
      fuel s1 = (Ok obs, s2) ->
    within Reach.obj_low Reach.obj_high (obj_init_pos s2) /\
    contains Reach.goal_space (_target_pos s2) /\
    hand_init_pos s2 = cfg_hand_init_pos ReachSetup.init_config0 /\
    0.2 <= dist (hand_init_pos s2) (_target_pos s2) /\
    (forall decay actions obs',
        position (tcp_center s2) ->
        exists res,
          Reach.compute_reward decay actions obs' s2 = (Ok res, s2)).
Proof.
  intros _reset_hand _set_obj_xyz mj_forward _get_obs rand_vec fuel
         self0 s1 s2 obs Hbox Hhand Hset Hfwd Hobs Hinit Hrun.
  rewrite reach_init_run in Hinit. inversion Hinit as [Hs1]. clear Hinit.
  assert (Hh : hand_init_pos s2 = hand_init_pos s1).
  { pose proof (reach_reset_model_keeps hand_init_pos
                  _reset_hand _set_obj_xyz mj_forward _get_obs rand_vec fuel)
      as Hk.
    specialize (Hk (fun _ _ => eq_refl) (fun _ _ => eq_refl)
                  (fun _ _ => eq_refl) (fun _ _ => eq_refl) Hhand
                  (fun pos => proj2 (Hset pos)) (proj2 Hfwd) (proj2 Hobs) s1).
    rewrite Hrun in Hk. exact Hk. }
  assert (Hh1 : hand_init_pos s1 = cfg_hand_init_pos ReachSetup.init_config0)
    by (rewrite <- Hs1; reflexivity).
  pose proof Hrun as Hrun'.
  unfold Reach.reset_model in Hrun'.
  apply bind_Ok_inv in Hrun' as ([] & s0 & Hhand0 & _).
  destruct (reach_reset_model_inv _ _ _ _ _ _ _ _ _ _ Hbox
              (fun pos => proj1 (Hset pos)) (proj1 Hfwd) (proj1 Hobs)
              Hhand0 Hrun)
    as (n & _ & _ & _ & Ho & Ht).
  destruct (reset_space_halves _ (Hbox n)) as [Hobj Hgoal].
  rewrite <- Ho in Hobj. rewrite <- Ht in Hgoal.
  destruct (reach_margin_in_goal_space _ Hgoal) as [Hpos Hmargin].
  rewrite <- Hh1, <- Hh in Hmargin.
  repeat split; try assumption.
  - rewrite Hh. exact Hh1.
  - intros decay actions obs' Htcp.
    apply reach_compute_reward_returns; try assumption.
    + unfold position. rewrite Hh, Hh1. reflexivity.
    + lra.
Qed.

Lemma example_collaborators_keep_hand :
  keeps hand_init_pos Example.idle /\
  (forall pos, keeps hand_init_pos (Example.idle_set_obj_xyz pos)) /\
  keeps hand_init_pos Example.hand_and_goal.
Proof. repeat split. Qed.

Lemma reach_constructed_reset_example :
  exists obs s2,
    Reach.reset_model Example.idle Example.idle_set_obj_xyz Example.idle
      Example.hand_and_goal Example.rand_vec 2
      (snd (ReachSetup.__init__ Example.reach_env))
    = (Ok obs, s2).
Proof.
  eexists _, _.
  unfold Reach.reset_model, Reach.fix_extreme_obj_pos, Reach.too_close,
    Reach.resample, Reach._get_state_rand_vec, ReachSetup.__init__,
    ReachSetup.init_config0.
  cbv [snd set_hand_init_pos set_goal set_init_config].
  np_run.
  norm_is 0.1. compare_R. cbv iota beta.
  norm_is 0.2. compare_R. reflexivity.
Qed.

Lemma reach_constructed_reset_evaluates_witness :
  exists s2,
    within Reach.obj_low Reach.obj_high (obj_init_pos s2) /\
    contains Reach.goal_space (_target_pos s2) /\
    hand_init_pos s2 = cfg_hand_init_pos ReachSetup.init_config0 /\
    0.2 <= dist (hand_init_pos s2) (_target_pos s2) /\
    (forall decay actions obs',
        position (tcp_center s2) ->
        exists res,
          Reach.compute_reward decay actions obs' s2 = (Ok res, s2)).
Proof.
  destruct reach_constructed_reset_example as (obs & s2 & Hrun).
  exists s2.
  refine (reach_constructed_reset_evaluates Example.idle
            Example.idle_set_obj_xyz Example.idle Example.hand_and_goal
            Example.rand_vec 2 Example.reach_env _ s2 obs
            example_draws_in_space
            (proj1 example_collaborators_keep_hand) _ _ _
            (surjective_pairing _) Hrun).
  - intros pos. split;
      [ apply (proj1 example_collaborators_keep_episode)
      | apply (proj1 (proj2 example_collaborators_keep_hand)) ].
  - split;
      [ apply (proj1 (proj2 example_collaborators_keep_episode))
      | apply (proj1 example_collaborators_keep_hand) ].
  - split;
      [ apply (proj2 (proj2 example_collaborators_keep_episode))
      | apply (proj2 (proj2 example_collaborators_keep_hand)) ].
Defined.

(** ** Plate slide: what [reset_model] stores *)

(** Splits a computation into steps that leave an attribute alone. *)
Ltac keeps_steps :=
  repeat first
    [ apply keeps_bind; [ | intros ? ]
    | assumption
    | match goal with
      | H : forall _, keeps _ _ |- _ => apply H
      | H : forall _ _, keeps _ _ |- _ => apply H
      end
    | solve [ apply keeps_read_only; auto with pure ] ].

Lemma keeps_run {S A C : Type} (f : S -> C) (m : M S A) s r s' :
  keeps f m -> m s = (r, s') -> f s' = f s.
Proof. intros Hk Hrun. specialize (Hk s). rewrite Hrun in Hk. exact Hk. Qed.

Lemma plate_reset_space_halves v :
  contains PlateSlideBackSideSetup._random_reset_space v ->
  Np.slice_to 3 v = PlateSlideBackSideSetup.obj_low /\
  contains PlateSlideBackSideSetup.goal_space (Np.slice_from 3 v).
Proof.
  unfold contains, PlateSlideBackSideSetup._random_reset_space,
    PlateSlideBackSideSetup.goal_space, PlateSlideBackSideSetup.obj_low.
  simpl.
  do 6 (destruct v as [ | ? v ]; simpl; [ tauto | ]).
  destruct v; simpl; [ | tauto ].
  intros (Hx & Hy & Hz & Hg). split; [ | tauto ].
  unfold Np.slice_to. simpl.
  repeat f_equal; lra.
Qed.

Lemma plate_margin_in_goal_space target :
  contains PlateSlideBackSideSetup.goal_space target ->
  position target /\
  0.2 <= dist PlateSlideBackSideSetup.obj_low target.
Proof.
  unfold contains, PlateSlideBackSideSetup.goal_space,
    PlateSlideBackSideSetup.obj_low. simpl.
  destruct target as [ | tx [ | ty [ | tz [ | ? ? ] ] ] ]; simpl; try tauto.
  intros ((Hx1 & Hx2) & _ & _ & _).
  split; [ reflexivity | ].
  unfold dist. apply le_norm; [ lra | ]. simpl.
  pose proof (dot3_bounds (-0.25 - tx) (0.6 - ty) (0.0 - tz)) as [Ha _].
  assert (0.2 * 0.2 <= (-0.25 - tx) * (-0.25 - tx)) by nra. lra.
Qed.

(** X12.  Plate slide: whatever the sampler draws from the reset space,
    [reset_model] stores the same object start (-0.25, 0.6, 0.0), because
    the object box has equal bounds, and a target in the goal box; the two
    are at least 0.2 apart, so the margin of the score [in_place], that
    distance less 0.05, is at least 0.15. *)
Theorem plate_slide_reset_model_places :
  forall _reset_hand set_body_pos qpos_copy qvel_copy set_state _get_obs
         rand_vec self self' obs,
    (forall n, contains PlateSlideBackSideSetup._random_reset_space
                 (rand_vec n)) ->
    (forall name pos, keeps episode (set_body_pos name pos)) ->
    keeps episode qpos_copy ->
    keeps episode qvel_copy ->
    (forall qpos qvel, keeps episode (set_state qpos qvel)) ->
    keeps episode _get_obs ->
    PlateSlideBackSideSetup.reset_model _reset_hand set_body_pos qpos_copy
      qvel_copy set_state _get_obs rand_vec self = (Ok obs, self') ->
    obj_init_pos self' = [-0.25; 0.6; 0.0] /\
    contains PlateSlideBackSideSetup.goal_space (_target_pos self') /\
    0.15 <= dist (obj_init_pos self') (_target_pos self') - 0.05.
Proof.
  intros _reset_hand set_body_pos qpos_copy qvel_copy set_state _get_obs
         rand_vec self self' obs Hbox Hbody Hqpos Hqvel Hstate Hobs Hrun.
  unfold PlateSlideBackSideSetup.reset_model in Hrun.
  do 5 (apply bind_Ok_inv in Hrun as (? & ? & _ & Hrun)).
  apply bind_Ok_inv in Hrun as (v & s1 & Hdraw & Hrun).
  unfold _get_state_rand_vec in Hdraw.
  rewrite get_state_rand_vec_run in Hdraw. inversion Hdraw; subst v s1.
  clear Hdraw.
  rewrite !bind_modify in Hrun.
  match type of Hrun with
  | ?m ?s = _ =>
      assert (Hk : keeps episode m);
      [ unfold PlateSlideBackSideSetup._set_obj_xyz; keeps_steps
      | apply (keeps_run _ _ _ _ _ Hk) in Hrun ]
  end.
  unfold episode in Hrun. simpl in Hrun. injection Hrun as Ho Ht.
  rewrite Ho, Ht.
  match goal with
  | |- context [rand_vec ?n] =>
      destruct (plate_reset_space_halves _ (Hbox n)) as [Hobj Hgoal]
  end.
  rewrite Hobj.
  destruct (plate_margin_in_goal_space _ Hgoal) as [_ Hmargin].
  split; [ reflexivity | ]. split; [ exact Hgoal | ]. lra.
Qed.

Lemma plate_slide_reset_model_example :
  exists obs self',
    PlateSlideBackSideSetup.reset_model Example.idle Scenario.idle_body_pos
      Scenario.joints Scenario.joints Scenario.idle_set_state
      Example.hand_and_goal Scenario.plate_draw Example.plate_env
    = (Ok obs, self').
Proof. eexists _, _. reflexivity. Qed.

Lemma plate_slide_reset_model_places_witness :
  exists self',
    obj_init_pos self' = [-0.25; 0.6; 0.0] /\
    contains PlateSlideBackSideSetup.goal_space (_target_pos self') /\
    0.15 <= dist (obj_init_pos self') (_target_pos self') - 0.05.
Proof.
  destruct plate_slide_reset_model_example as (obs & self' & Hrun).
  exists self'.
  refine (plate_slide_reset_model_places Example.idle Scenario.idle_body_pos
            Scenario.joints Scenario.joints Scenario.idle_set_state
            Example.hand_and_goal Scenario.plate_draw Example.plate_env
            self' obs _ _ _ _ _ _ Hrun);
    try (intros; intro; reflexivity).
  intros n. unfold contains, PlateSlideBackSideSetup._random_reset_space.
  simpl. repeat split; lra.
Defined.

(** ** Window open: what [reset_model] stores *)

Lemma window_open_in_place_inv decay actions obs self self'
      reward tcp_to_obj tcp_opened target_to_obj object_grasped in_place :
  WindowOpen.compute_reward decay actions obs self
  = (Ok (reward, tcp_to_obj, tcp_opened, target_to_obj, object_grasped,
         in_place), self') ->
  exists x t x0,
    Np.item 0 (_get_site_pos "handleOpenStart" self) = Ok x /\
    Np.item 0 (_target_pos (super self)) = Ok t /\
    Np.item 0 (obj_init_pos (super self)) = Ok x0 /\
    target_to_obj = Rabs (x - t) /\
    reward_utils.tolerance decay target_to_obj (0, 0.05)
      (Rabs (Rabs (x0 - t) - 0.05)) "long_tail" = Ok in_place.
Proof.
  intros Hrun.
  unfold WindowOpen.compute_reward, WindowOpen._get_pos_objects,
    WindowOpen.TARGET_RADIUS, bind, lift, gets, attr, ret in Hrun.
  simpl in Hrun. run Hrun. inversion Hrun; subst.
  rewrite !norm_scalar_abs in *.
  eexists _, _, _. repeat split; try eassumption; reflexivity.
Qed.

Lemma window_reset_space_position v :
  contains WindowOpenSetup._random_reset_space v -> position v.
Proof.
  unfold contains, WindowOpenSetup._random_reset_space; simpl.
  destruct v as [ | x [ | y [ | z [ | ? ? ] ] ] ]; simpl; try tauto.
  intros _. reflexivity.
Qed.

Lemma window_on_base_modify {B : Type} (f : SawyerXYZEnv -> SawyerXYZEnv)
      (k : unit -> M WindowOpenSetup.env B) s :
  bind (WindowOpenSetup.on_base (modify f)) k s
  = k tt (WindowOpenSetup.set_core
            (WindowOpenSetup.set_base (f (super s)) (WindowOpenSetup.core s))
            s).
Proof. reflexivity. Qed.

Lemma window_on_base_draw {B : Type} rand_vec
      (k : Np.array -> M WindowOpenSetup.env B) s :
  bind (WindowOpenSetup.on_base (_get_state_rand_vec rand_vec)) k s
  = k (rand_vec (rand_draws (super s)))
      (WindowOpenSetup.set_core
         (WindowOpenSetup.set_base
            (set_rand_draws (S (rand_draws (super s))) (super s))
            (WindowOpenSetup.core s))
         s).
Proof. reflexivity. Qed.

Lemma window_get_pos_objects_run {B : Type}
      (k : Np.array -> M WindowOpenSetup.env B) s :
  bind WindowOpenSetup._get_pos_objects k s
  = k (_get_site_pos "handleOpenStart" s)
      (WindowOpenSetup.set_core (WindowOpenSetup.core s) s).
Proof. reflexivity. Qed.

Lemma window_on_core_modify {B : Type} (f : WindowOpen.env -> WindowOpen.env)
      (k : unit -> M WindowOpenSetup.env B) s :
  bind (WindowOpenSetup.on_core (modify f)) k s
  = k tt (WindowOpenSetup.set_core (f (WindowOpenSetup.core s)) s).
Proof. reflexivity. Qed.

(** Runs a collaborator that returns, in a computation that is to be
    shown to return. *)
Ltac run_collaborator H :=
  match goal with
  | |- context [bind ?m _ ?s] =>
      let Hr := fresh "Hr" in
      destruct (H s) as (? & ? & Hr);
      rewrite (bind_run _ _ _ _ _ Hr); clear Hr; cbv beta
  end.

Lemma window_open_reset_model_finishes
      _reset_hand _get_curr_obs_combined_no_goal set_body_pos set_joint_qpos
      mj_forward _get_obs rand_vec :
  (forall n, contains WindowOpenSetup._random_reset_space (rand_vec n)) ->
  returns _reset_hand ->
  returns _get_curr_obs_combined_no_goal ->
  (forall name pos, returns (set_body_pos name pos)) ->
  (forall name q, returns (set_joint_qpos name q)) ->
  returns mj_forward ->
  returns _get_obs ->
  returns (WindowOpenSetup.reset_model _reset_hand
             _get_curr_obs_combined_no_goal set_body_pos set_joint_qpos
             mj_forward _get_obs rand_vec).
Proof.
  intros Hbox Hhand Hcurr Hbody Hjoint Hfwd Hobs self.
  unfold WindowOpenSetup.reset_model.
  run_collaborator Hhand. run_collaborator Hcurr.
  rewrite bind_modify, window_on_base_draw, window_on_base_modify, bind_attr.
  match goal with
  | |- context [rand_vec ?n] =>
      destruct (position_inv _ (window_reset_space_position _ (Hbox n)))
        as (px & py & pz & Hxyz)
  end.
  cbn [super WindowOpenSetup.Sawyer_env WindowOpenSetup.core
       WindowOpenSetup.set_core WindowOpenSetup.set_prev_obs
       WindowOpenSetup.set_base WindowOpen.base set_obj_init_pos
       set_rand_draws obj_init_pos rand_draws] in *.
  rewrite Hxyz.
  change (Np.add [px; py; pz] [0.2; 0.0; 0.0])
    with (Ok [px + 0.2; py + 0.0; pz + 0.0]).
  rewrite bind_lift_Ok, window_on_base_modify, bind_attr.
  run_collaborator (Hbody "window"%string [px; py; pz]).
  rewrite window_get_pos_objects_run, window_on_core_modify.
  run_collaborator (Hjoint "window_slide"%string 0.0).
  run_collaborator Hfwd.
  apply Hobs.
Qed.

Lemma window_open_reset_model_inv
      _reset_hand _get_curr_obs_combined_no_goal set_body_pos set_joint_qpos
      mj_forward _get_obs rand_vec self self' obs :
  (forall n, contains WindowOpenSetup._random_reset_space (rand_vec n)) ->
  keeps (fun s => rand_draws (super s)) _reset_hand ->
  keeps (fun s => rand_draws (super s)) _get_curr_obs_combined_no_goal ->
  (forall name pos, keeps episode (set_body_pos name pos)) ->
  (forall name q, keeps episode (set_joint_qpos name q)) ->
  keeps episode mj_forward ->
  keeps episode _get_obs ->
  WindowOpenSetup.reset_model _reset_hand _get_curr_obs_combined_no_goal
    set_body_pos set_joint_qpos mj_forward _get_obs rand_vec self
  = (Ok obs, self') ->
  exists x y z,
    rand_vec (rand_draws (super self)) = [x; y; z] /\
    obj_init_pos (super self') = [x; y; z] /\
    _target_pos (super self') = [x + 0.2; y + 0.0; z + 0.0].
Proof.
  intros Hbox Hd1 Hd2 Hbody Hjoint Hfwd Hobs Hrun.
  unfold WindowOpenSetup.reset_model in Hrun.
  apply bind_Ok_inv in Hrun as ([] & s0 & Hs0 & Hrun).
  apply (keeps_run _ _ _ _ _ Hd1) in Hs0.
  apply bind_Ok_inv in Hrun as (o & s1 & Hs1 & Hrun).
  apply (keeps_run _ _ _ _ _ Hd2) in Hs1.
  rewrite bind_modify, window_on_base_draw, window_on_base_modify, bind_attr
    in Hrun.
  cbn [super WindowOpenSetup.Sawyer_env WindowOpenSetup.core
       WindowOpenSetup.set_core WindowOpenSetup.set_prev_obs
       WindowOpenSetup.set_base WindowOpen.base set_obj_init_pos
       set_rand_draws obj_init_pos rand_draws] in *.
  rewrite Hs1, Hs0 in Hrun.
  destruct (position_inv _ (window_reset_space_position _
                              (Hbox (rand_draws
                                       (WindowOpen.base
                                          (WindowOpenSetup.core self))))))
    as (px & py & pz & Hxyz).
  rewrite Hxyz in Hrun.
  change (Np.add [px; py; pz] [0.2; 0.0; 0.0])
    with (Ok [px + 0.2; py + 0.0; pz + 0.0]) in Hrun.
  rewrite bind_lift_Ok, window_on_base_modify in Hrun.
  match type of Hrun with
  | ?m ?s = _ =>
      assert (Hk : keeps episode m);
      [ keeps_steps; intros ?; reflexivity
      | apply (keeps_run _ _ _ _ _ Hk) in Hrun ]
  end.
  unfold episode in Hrun. simpl in Hrun. injection Hrun as Ho Ht.
  exists px, py, pz. simpl. repeat split; assumption.
Qed.

(** X13.  Window open: when its collaborators return, [reset_model]
    returns; it stores the next draw of the sampler as object start and
    that draw shifted by 0.2 along the first axis as target.  Whatever the
    draw, the initial distance along the slide axis is therefore 0.2, and
    every later [compute_reward] scores [in_place] with the margin 0.15. *)
Theorem window_open_reset_model_shifts_target :
  forall _reset_hand _get_curr_obs_combined_no_goal set_body_pos
         set_joint_qpos mj_forward _get_obs rand_vec self,
    (forall n, contains WindowOpenSetup._random_reset_space (rand_vec n)) ->
    keeps (fun s => rand_draws (super s)) _reset_hand ->
    keeps (fun s => rand_draws (super s)) _get_curr_obs_combined_no_goal ->
    (forall name pos, keeps episode (set_body_pos name pos)) ->
    (forall name q, keeps episode (set_joint_qpos name q)) ->
    keeps episode mj_forward ->
    keeps episode _get_obs ->
    returns _reset_hand ->
    returns _get_curr_obs_combined_no_goal ->
    (forall name pos, returns (set_body_pos name pos)) ->
    (forall name q, returns (set_joint_qpos name q)) ->
    returns mj_forward ->
    returns _get_obs ->
    exists obs self' x y z,
      WindowOpenSetup.reset_model _reset_hand _get_curr_obs_combined_no_goal
        set_body_pos set_joint_qpos mj_forward _get_obs rand_vec self
      = (Ok obs, self') /\
      rand_vec (rand_draws (super self)) = [x; y; z] /\
      obj_init_pos (super self') = [x; y; z] /\
      _target_pos (super self') = [x + 0.2; y + 0.0; z + 0.0] /\
      forall decay actions obs' s
             reward tcp_to_obj tcp_opened target_to_obj object_grasped
             in_place,
        WindowOpen.compute_reward decay actions obs'
          (WindowOpenSetup.core self')
        = (Ok (reward, tcp_to_obj, tcp_opened, target_to_obj, object_grasped,
               in_place), s) ->
        reward_utils.tolerance decay target_to_obj (0, 0.05) 0.15 "long_tail"
        = Ok in_place.
Proof.
  intros _reset_hand _get_curr_obs_combined_no_goal set_body_pos
         set_joint_qpos mj_forward _get_obs rand_vec self
         Hbox Hd1 Hd2 Hbody Hjoint Hfwd Hobs
         Rhand Rcurr Rbody Rjoint Rfwd Robs.
  destruct (window_open_reset_model_finishes _reset_hand
              _get_curr_obs_combined_no_goal set_body_pos set_joint_qpos
              mj_forward _get_obs rand_vec
              Hbox Rhand Rcurr Rbody Rjoint Rfwd Robs self)
    as (obs & self' & Hrun).
  destruct (window_open_reset_model_inv _ _ _ _ _ _ _ _ _ _
              Hbox Hd1 Hd2 Hbody Hjoint Hfwd Hobs Hrun)
    as (px & py & pz & Hdraw & Ho & Ht).
  exists obs, self', px, py, pz.
  split; [ exact Hrun | ]. split; [ exact Hdraw | ].
  split; [ exact Ho | ]. split; [ exact Ht | ].
  intros decay actions obs' s
         reward tcp_to_obj tcp_opened target_to_obj object_grasped in_place
         Hc.
  apply window_open_in_place_inv in Hc
    as (hx & tx & ox & _ & Htx & Hox & _ & Htol).
  simpl in Ho, Ht, Htx, Hox. rewrite Ht in Htx. rewrite Ho in Hox.
  inversion Htx; subst tx. inversion Hox; subst ox.
  replace (Rabs (Rabs (px - (px + 0.2)) - 0.05)) with 0.15 in Htol;
    [ exact Htol | ].
  rewrite (Rabs_eq (px - (px + 0.2)) 0.2) by lra.
  symmetry. apply Rabs_eq; lra.
Qed.

Lemma window_open_reset_model_shifts_target_witness :
  exists obs self',
    WindowOpenSetup.reset_model Scenario.window_idle Scenario.window_obs_now
      Scenario.window_idle_body_pos Scenario.window_idle_joint
      Scenario.window_idle Scenario.window_obs_now Scenario.window_draw
      Scenario.window_setup_env
    = (Ok obs, self') /\
    obj_init_pos (super self') = [0; 0.8; 0.16] /\
    _target_pos (super self') = [0 + 0.2; 0.8 + 0.0; 0.16 + 0.0] /\
    forall decay actions obs' s
           reward tcp_to_obj tcp_opened target_to_obj object_grasped
           in_place,
      WindowOpen.compute_reward decay actions obs'
        (WindowOpenSetup.core self')
      = (Ok (reward, tcp_to_obj, tcp_opened, target_to_obj, object_grasped,
             in_place), s) ->
      reward_utils.tolerance decay target_to_obj (0, 0.05) 0.15 "long_tail"
      = Ok in_place.
Proof.
  assert (Hbox : forall n, contains WindowOpenSetup._random_reset_space
                             (Scenario.window_draw n)).
  { intros n. unfold contains, WindowOpenSetup._random_reset_space.
    simpl. repeat split; lra. }
  destruct (window_open_reset_model_shifts_target Scenario.window_idle
              Scenario.window_obs_now Scenario.window_idle_body_pos
              Scenario.window_idle_joint Scenario.window_idle
              Scenario.window_obs_now Scenario.window_draw
              Scenario.window_setup_env Hbox)
    as (obs & self' & x & y & z & Hrun & Hdraw & Ho & Ht & Hlater);
    try (intros; intro; reflexivity);
    try (intros; intro; eexists _, _; reflexivity).
  inversion Hdraw; subst x y z.
  exists obs, self'. repeat split; assumption.
Defined.

(** ** Replaying a recorded state *)

Lemma keeps_for_each {S A C : Type} (f : S -> C) (l : list A)
      (body : A -> M S unit) :
  (forall x, keeps f (body x)) -> keeps f (for_each l body).
Proof.
  intros Hbody. induction l as [ | x l IH ]; simpl.
  - intros s. reflexivity.
  - apply keeps_bind; [ apply Hbody | intros _; exact IH ].
Qed.

Lemma subscript_missing d k e : subscript d k = inl e -> e = key_error k.
Proof.
  induction d as [ | [k' v] d IH ]; simpl.
  - intros H. inversion H. reflexivity.
  - destruct (String.eqb k k'); [ discriminate | exact IH ].
Qed.

(** X14.  Replay in the reach and the window-open task: [render_reset]
    subscripts [obs_info] with "hand_state", "goal_pos" and "obj_pos" in
    this order before it assigns anything, so it raises [KeyError] for the
    first of these keys that is missing, and it goes on to reset the
    instance exactly when all three are present. *)
Theorem render_reset_missing_key :
  forall render_reset_hand _set_obj_xyz mj_forward _target_site_config
         _set_pos_site _get_obs
         w_render_reset_hand w_get_curr_obs w_set_body_pos w_set_joint_qpos
         w_mj_forward w_target_site_config w_set_pos_site w_get_obs
         obs_info,
    match first_missing ["hand_state"; "goal_pos"; "obj_pos"]%string obs_info
    with
    | Some k =>
        ReachSetup.render_reset render_reset_hand _set_obj_xyz mj_forward
          _target_site_config _set_pos_site _get_obs obs_info
        = inl (key_error k) /\
        WindowOpenSetup.render_reset w_render_reset_hand w_get_curr_obs
          w_set_body_pos w_set_joint_qpos w_mj_forward w_target_site_config
          w_set_pos_site w_get_obs obs_info
        = inl (key_error k)
    | None =>
        (exists m,
            ReachSetup.render_reset render_reset_hand _set_obj_xyz mj_forward
              _target_site_config _set_pos_site _get_obs obs_info
            = inr m) /\
        (exists m,
            WindowOpenSetup.render_reset w_render_reset_hand w_get_curr_obs
              w_set_body_pos w_set_joint_qpos w_mj_forward
              w_target_site_config w_set_pos_site w_get_obs obs_info
            = inr m)
    end.
Proof.
  intros. unfold first_missing, ReachSetup.render_reset,
    WindowOpenSetup.render_reset.
  destruct (subscript obs_info "hand_state") as [e1 | hand] eqn:H1.
  { apply subscript_missing in H1. subst e1. split; reflexivity. }
  destruct (subscript obs_info "goal_pos") as [e2 | goal_pos] eqn:H2.
  { apply subscript_missing in H2. subst e2. split; reflexivity. }
  destruct (subscript obs_info "obj_pos") as [e3 | obj_pos] eqn:H3.
  { apply subscript_missing in H3. subst e3. split; reflexivity. }
  split; eexists; reflexivity.
Qed.

Lemma returns_for_each {S A : Type} (l : list A) (body : A -> M S unit) :
  (forall x, returns (body x)) -> returns (for_each l body).
Proof.
  intros Hbody. induction l as [ | x l IH ]; simpl; intros s.
  - eexists _, _. reflexivity.
  - destruct (Hbody x s) as ([] & s1 & H1).
    rewrite (bind_run _ _ _ _ _ H1). apply IH.
Qed.

Lemma reach_render_reset_finishes
      render_reset_hand _set_obj_xyz mj_forward _target_site_config
      _set_pos_site _get_obs obs_info hand_state goal_pos obj_pos :
  subscript obs_info "hand_state" = inr hand_state ->
  subscript obs_info "goal_pos" = inr goal_pos ->
  subscript obs_info "obj_pos" = inr obj_pos ->
  (forall hand, returns (render_reset_hand hand)) ->
  (forall pos, returns (_set_obj_xyz pos)) ->
  returns mj_forward ->
  returns _target_site_config ->
  (forall name pos, returns (_set_pos_site name pos)) ->
  returns _get_obs ->
  exists m,
    ReachSetup.render_reset render_reset_hand _set_obj_xyz mj_forward
      _target_site_config _set_pos_site _get_obs obs_info = inr m /\
    returns m.
Proof.
  intros Hh Hg Ho Rhand Rset Rfwd Rsites Rsite Robs.
  unfold ReachSetup.render_reset. rewrite Hh, Hg, Ho.
  eexists. split; [ reflexivity | ]. intros self.
  run_collaborator (Rhand hand_state).
  rewrite bind_attr, !bind_modify, bind_attr.
  match goal with
  | |- context [bind (_set_obj_xyz ?pos) _ _] => run_collaborator (Rset pos)
  end.
  run_collaborator Rfwd. run_collaborator Rsites.
  match goal with
  | |- context [bind (for_each ?l ?body) _ _] =>
      run_collaborator (returns_for_each l body
                          (fun site => Rsite (fst site) (snd site)))
  end.
  apply Robs.
Qed.

Lemma reach_render_reset_inv
      render_reset_hand _set_obj_xyz mj_forward _target_site_config
      _set_pos_site _get_obs obs_info hand_state goal_pos obj_pos
      m self self' obs :
  subscript obs_info "hand_state" = inr hand_state ->
  subscript obs_info "goal_pos" = inr goal_pos ->
  subscript obs_info "obj_pos" = inr obj_pos ->
  (forall pos, keeps episode (_set_obj_xyz pos)) ->
  keeps episode mj_forward ->
  keeps episode _target_site_config ->
  (forall name pos, keeps episode (_set_pos_site name pos)) ->
  keeps episode _get_obs ->
  ReachSetup.render_reset render_reset_hand _set_obj_xyz mj_forward
    _target_site_config _set_pos_site _get_obs obs_info = inr m ->
  m self = (Ok obs, self') ->
  _target_pos self' = goal_pos /\ obj_init_pos self' = obj_pos.
Proof.
  intros Hh Hg Ho Hset Hfwd Hsites Hsite Hobs Hm Hrun.
  unfold ReachSetup.render_reset in Hm. rewrite Hh, Hg, Ho in Hm.
  inversion Hm; subst m; clear Hm.
  do 3 (apply bind_Ok_inv in Hrun as (? & ? & _ & Hrun)).
  rewrite !bind_modify in Hrun.
  match type of Hrun with
  | ?m ?s = _ =>
      assert (Hk : keeps episode m);
      [ keeps_steps; apply keeps_for_each; intros ?; apply Hsite
      | apply (keeps_run _ _ _ _ _ Hk) in Hrun ]
  end.
  unfold episode in Hrun. simpl in Hrun. injection Hrun as Hop Htp.
  split; assumption.
Qed.

(** X15.  Reach: when [obs_info] holds the three keys and the
    collaborators return, [render_reset] returns and has stored the given
    goal and object positions as they are; unlike [reset_model], it checks
    no separation between them. *)
Theorem reach_render_reset_stores :
  forall render_reset_hand _set_obj_xyz mj_forward _target_site_config
         _set_pos_site _get_obs obs_info hand_state goal_pos obj_pos self,
    subscript obs_info "hand_state" = inr hand_state ->
    subscript obs_info "goal_pos" = inr goal_pos ->
    subscript obs_info "obj_pos" = inr obj_pos ->
    (forall pos, keeps episode (_set_obj_xyz pos)) ->
    keeps episode mj_forward ->
    keeps episode _target_site_config ->
    (forall name pos, keeps episode (_set_pos_site name pos)) ->
    keeps episode _get_obs ->
    (forall hand, returns (render_reset_hand hand)) ->
    (forall pos, returns (_set_obj_xyz pos)) ->
    returns mj_forward ->
    returns _target_site_config ->
    (forall name pos, returns (_set_pos_site name pos)) ->
    returns _get_obs ->
    exists m obs self',
      ReachSetup.render_reset render_reset_hand _set_obj_xyz mj_forward
        _target_site_config _set_pos_site _get_obs obs_info = inr m /\
      m self = (Ok obs, self') /\
      _target_pos self' = goal_pos /\ obj_init_pos self' = obj_pos.
Proof.
  intros render_reset_hand _set_obj_xyz mj_forward _target_site_config
         _set_pos_site _get_obs obs_info hand_state goal_pos obj_pos self
         Hh Hg Ho Hset Hfwd Hsites Hsite Hobs
         Rhand Rset Rfwd Rsites Rsite Robs.
  destruct (reach_render_reset_finishes render_reset_hand _set_obj_xyz
              mj_forward _target_site_config _set_pos_site _get_obs
              obs_info hand_state goal_pos obj_pos
              Hh Hg Ho Rhand Rset Rfwd Rsites Rsite Robs)
    as (m & Hm & Hret).
  destruct (Hret self) as (obs & self' & Hrun).
  exists m, obs, self'.
  split; [ exact Hm | ]. split; [ exact Hrun | ].
  exact (reach_render_reset_inv _ _ _ _ _ _ _ _ _ _ _ _ _ _
           Hh Hg Ho Hset Hfwd Hsites Hsite Hobs Hm Hrun).
Qed.

Lemma reach_render_reset_stores_witness :
  exists m obs self',
    ReachSetup.render_reset Scenario.idle_hand Example.idle_set_obj_xyz
      Example.idle Scenario.sites Scenario.idle_site Example.hand_and_goal
      Scenario.replay = inr m /\
    m Example.reach_env = (Ok obs, self') /\
    _target_pos self' = [0; 0.8; 0.1] /\
    obj_init_pos self' = [0.05; 0.8; 0.02].
Proof.
  apply (reach_render_reset_stores Scenario.idle_hand
           Example.idle_set_obj_xyz Example.idle Scenario.sites
           Scenario.idle_site Example.hand_and_goal Scenario.replay
           [0; 0.6; 0.2; 1] [0; 0.8; 0.1] [0.05; 0.8; 0.02]
           Example.reach_env);
    try reflexivity;
    try (intros; intro; reflexivity);
    intros; intro; eexists _, _; reflexivity.
Defined.

Lemma window_open_render_reset_finishes
      render_reset_hand _get_curr_obs_combined_no_goal set_body_pos
      set_joint_qpos mj_forward _target_site_config _set_pos_site _get_obs
      obs_info hand_state goal_pos obj_pos :
  subscript obs_info "hand_state" = inr hand_state ->
  subscript obs_info "goal_pos" = inr goal_pos ->
  subscript obs_info "obj_pos" = inr obj_pos ->
  (forall name pos s s',
      set_body_pos name pos s = (Ok tt, s') ->
      position (_get_site_pos "handleOpenStart" s')) ->
  (forall hand, returns (render_reset_hand hand)) ->
  returns _get_curr_obs_combined_no_goal ->
  (forall name pos, returns (set_body_pos name pos)) ->
  (forall name q, returns (set_joint_qpos name q)) ->
  returns mj_forward ->
  returns _target_site_config ->
  (forall name pos, returns (_set_pos_site name pos)) ->
  returns _get_obs ->
  exists m,
    WindowOpenSetup.render_reset render_reset_hand
      _get_curr_obs_combined_no_goal set_body_pos set_joint_qpos mj_forward
      _target_site_config _set_pos_site _get_obs obs_info = inr m /\
    returns m.
Proof.
  intros Hh Hg Ho Hpos Rhand Rcurr Rbody Rjoint Rfwd Rsites Rsite Robs.
  unfold WindowOpenSetup.render_reset. rewrite Hh, Hg, Ho.
  eexists. split; [ reflexivity | ]. intros self.
  run_collaborator (Rhand hand_state).
  rewrite bind_attr, !window_on_base_modify.
  run_collaborator Rcurr.
  rewrite bind_modify, bind_attr.
  match goal with
  | |- context [bind (set_body_pos ?name ?pos) _ ?s] =>
      destruct (Rbody name pos s) as ([] & placed & Hplace);
      rewrite (bind_run _ _ _ _ _ Hplace); cbv beta
  end.
  rewrite window_get_pos_objects_run.
  destruct (position_inv _ (Hpos _ _ _ _ Hplace)) as (hx & hy & hz & Hsite).
  rewrite Hsite.
  change (Np.add [hx; hy; hz] [0.2; 0.0; 0.0])
    with (Ok [hx + 0.2; hy + 0.0; hz + 0.0]).
  rewrite bind_lift_Ok, window_on_core_modify.
  run_collaborator (Rjoint "window_slide"%string 0.2).
  run_collaborator Rfwd. run_collaborator Rsites.
  match goal with
  | |- context [bind (for_each ?l ?body) _ _] =>
      run_collaborator (returns_for_each l body
                          (fun site => Rsite (fst site) (snd site)))
  end.
  apply Robs.
Qed.

Lemma window_open_render_reset_inv
      render_reset_hand _get_curr_obs_combined_no_goal set_body_pos
      set_joint_qpos mj_forward _target_site_config _set_pos_site _get_obs
      obs_info hand_state goal_pos obj_pos m self self' obs :
  subscript obs_info "hand_state" = inr hand_state ->
  subscript obs_info "goal_pos" = inr goal_pos ->
  subscript obs_info "obj_pos" = inr obj_pos ->
  keeps episode _get_curr_obs_combined_no_goal ->
  (forall name pos, keeps episode (set_body_pos name pos)) ->
  (forall name q, keeps WindowOpenSetup.cached (set_joint_qpos name q)) ->
  keeps WindowOpenSetup.cached mj_forward ->
  keeps WindowOpenSetup.cached _target_site_config ->
  (forall name pos, keeps WindowOpenSetup.cached (_set_pos_site name pos)) ->
  keeps WindowOpenSetup.cached _get_obs ->
  WindowOpenSetup.render_reset render_reset_hand
    _get_curr_obs_combined_no_goal set_body_pos set_joint_qpos mj_forward
    _target_site_config _set_pos_site _get_obs obs_info = inr m ->
  m self = (Ok obs, self') ->
  _target_pos (super self') = goal_pos /\
  obj_init_pos (super self') = obj_pos /\
  exists before placed,
    set_body_pos "window"%string obj_pos before = (Ok tt, placed) /\
    Np.add (_get_site_pos "handleOpenStart" placed) [0.2; 0.0; 0.0]
    = Ok (WindowOpen.window_handle_pos_init (WindowOpenSetup.core self')).
Proof.
  intros Hh Hg Ho Hcurr Hbody Hjoint Hfwd Hsites Hsite Hobs Hm Hrun.
  unfold WindowOpenSetup.render_reset in Hm. rewrite Hh, Hg, Ho in Hm.
  inversion Hm; subst m; clear Hm.
  apply bind_Ok_inv in Hrun as ([] & s0 & _ & Hrun).
  rewrite bind_attr, !window_on_base_modify in Hrun.
  apply bind_Ok_inv in Hrun as (curr & sd & Hd & Hrun).
  apply (keeps_run _ _ _ _ _ Hcurr) in Hd.
  unfold episode in Hd. simpl in Hd. injection Hd as Hdo Hdt.
  rewrite bind_modify, bind_attr in Hrun.
  apply bind_Ok_inv in Hrun as ([] & sf & Hf & Hrun).
  simpl in Hf. rewrite Hdo in Hf.
  pose proof (keeps_run _ _ _ _ _ (Hbody _ _) Hf) as Hfe.
  unfold episode in Hfe. simpl in Hfe. injection Hfe as Hfo Hft.
  rewrite window_get_pos_objects_run in Hrun.
  apply bind_Ok_inv in Hrun as (handle_init & sh & Hadd & Hrun).
  apply lift_Ok_inv in Hadd as [Hadd ->].
  rewrite window_on_core_modify in Hrun.
  match type of Hrun with
  | ?m ?s = _ =>
      assert (Hk : keeps WindowOpenSetup.cached m);
      [ keeps_steps; apply keeps_for_each; intros ?; apply Hsite
      | apply (keeps_run _ _ _ _ _ Hk) in Hrun ]
  end.
  unfold WindowOpenSetup.cached in Hrun. simpl in Hrun.
  injection Hrun as Hop Htp Hhp.
  simpl. split; [ congruence | ]. split; [ congruence | ].
  eexists _, sf. split; [ exact Hf | ].
  rewrite Hhp. exact Hadd.
Qed.

(** X16.  Window open: when [obs_info] holds the three keys, the
    collaborators return and the handle site is three-dimensional once the
    window body is placed, [render_reset] returns and has stored the given
    goal and object positions as they are.  As initial handle position it
    caches the position of the handle site, read once the body "window"
    has been placed at the given object position, shifted by 0.2 along
    the first axis: the replayed window is open by 0.2. *)
Theorem window_open_render_reset_stores :
  forall render_reset_hand _get_curr_obs_combined_no_goal set_body_pos
         set_joint_qpos mj_forward _target_site_config _set_pos_site _get_obs
         obs_info hand_state goal_pos obj_pos self,
    subscript obs_info "hand_state" = inr hand_state ->
    subscript obs_info "goal_pos" = inr goal_pos ->
    subscript obs_info "obj_pos" = inr obj_pos ->
    (forall name pos s s',
        set_body_pos name pos s = (Ok tt, s') ->
        position (_get_site_pos "handleOpenStart" s')) ->
    keeps episode _get_curr_obs_combined_no_goal ->
    (forall name pos, keeps episode (set_body_pos name pos)) ->
    (forall name q, keeps WindowOpenSetup.cached (set_joint_qpos name q)) ->
    keeps WindowOpenSetup.cached mj_forward ->
    keeps WindowOpenSetup.cached _target_site_config ->
    (forall name pos, keeps WindowOpenSetup.cached (_set_pos_site name pos)) ->
    keeps WindowOpenSetup.cached _get_obs ->
    (forall hand, returns (render_reset_hand hand)) ->
    returns _get_curr_obs_combined_no_goal ->
    (forall name pos, returns (set_body_pos name pos)) ->
    (forall name q, returns (set_joint_qpos name q)) ->
    returns mj_forward ->
    returns _target_site_config ->
    (forall name pos, returns (_set_pos_site name pos)) ->
    returns _get_obs ->
    exists m obs self' before placed,
      WindowOpenSetup.render_reset render_reset_hand
        _get_curr_obs_combined_no_goal set_body_pos set_joint_qpos mj_forward
        _target_site_config _set_pos_site _get_obs obs_info = inr m /\
      m self = (Ok obs, self') /\
      _target_pos (super self') = goal_pos /\
      obj_init_pos (super self') = obj_pos /\
      set_body_pos "window"%string obj_pos before = (Ok tt, placed) /\
      Np.add (_get_site_pos "handleOpenStart" placed) [0.2; 0.0; 0.0]
      = Ok (WindowOpen.window_handle_pos_init (WindowOpenSetup.core self')).
Proof.
  intros render_reset_hand _get_curr_obs_combined_no_goal set_body_pos
         set_joint_qpos mj_forward _target_site_config _set_pos_site _get_obs
         obs_info hand_state goal_pos obj_pos self
         Hh Hg Ho Hpos Hcurr Hbody Hjoint Hfwd Hsites Hsite Hobs
         Rhand Rcurr Rbody Rjoint Rfwd Rsites Rsite Robs.
  destruct (window_open_render_reset_finishes render_reset_hand
              _get_curr_obs_combined_no_goal set_body_pos set_joint_qpos
              mj_forward _target_site_config _set_pos_site _get_obs
              obs_info hand_state goal_pos obj_pos
              Hh Hg Ho Hpos Rhand Rcurr Rbody Rjoint Rfwd Rsites Rsite Robs)
    as (m & Hm & Hret).
  destruct (Hret self) as (obs & self' & Hrun).
  destruct (window_open_render_reset_inv _ _ _ _ _ _ _ _ _ _ _ _ _ _ _ _
              Hh Hg Ho Hcurr Hbody Hjoint Hfwd Hsites Hsite Hobs Hm Hrun)
    as (Ht & Hop & before & placed & Hplace & Hhandle).
  exists m, obs, self', before, placed.
  repeat split; assumption.
Qed.

Lemma window_open_render_reset_stores_witness :
  exists m obs self',
    WindowOpenSetup.render_reset Scenario.window_idle_hand
      Scenario.window_obs_now Scenario.window_place
      Scenario.window_idle_joint Scenario.window_idle Scenario.window_sites
      Scenario.window_idle_body_pos Scenario.window_obs_now Scenario.replay
    = inr m /\
    m Scenario.window_setup_env = (Ok obs, self') /\
    _target_pos (super self') = [0; 0.8; 0.1] /\
    obj_init_pos (super self') = [0.05; 0.8; 0.02] /\
    WindowOpen.window_handle_pos_init (WindowOpenSetup.core self')
    = [0.1 + 0.2; 0.785 + 0.0; 0.16 + 0.0].
Proof.
  assert (Hpos : forall name pos s s',
             Scenario.window_place name pos s = (Ok tt, s') ->
             position (_get_site_pos "handleOpenStart" s')).
  { intros name pos s s' Hplace. inversion Hplace. reflexivity. }
  destruct (window_open_render_reset_stores Scenario.window_idle_hand
              Scenario.window_obs_now Scenario.window_place
              Scenario.window_idle_joint Scenario.window_idle
              Scenario.window_sites Scenario.window_idle_body_pos
              Scenario.window_obs_now Scenario.replay
              [0; 0.6; 0.2; 1] [0; 0.8; 0.1] [0.05; 0.8; 0.02]
              Scenario.window_setup_env eq_refl eq_refl eq_refl Hpos)
    as (m & obs & self' & before & placed & Hm & Hrun & Ht & Ho & Hplace
        & Hh);
    try (intros; intro; reflexivity);
    try (intros; intro; eexists _, _; reflexivity).
  exists m, obs, self'.
  split; [ exact Hm | ]. split; [ exact Hrun | ].
  split; [ exact Ht | ]. split; [ exact Ho | ].
  inversion Hplace; subst placed.
  inversion Hh. reflexivity.
Defined.


(** ** Button press: what [reset_model] caches *)

(** X17.  Button press: after [reset_model], the target is the position of
    the site "hole" in the scene as it stands once the button has been
    placed, not the configured goal, and the cached baseline is the
    distance along the second axis between that site and the site
    "buttonStart".  The baseline is never negative, and it is positive
    exactly when the two sites differ along that axis. *)
Theorem button_press_reset_model_caches :
  forall _reset_hand set_body_pos qpos_copy qvel_copy set_state _get_obs
         rand_vec self self' obs,
    read_only _get_obs ->
    ButtonPressWallSetup.reset_model _reset_hand set_body_pos qpos_copy
      qvel_copy set_state _get_obs rand_vec self = (Ok obs, self') ->
    exists hole_y start_y,
      Np.item 1 (_get_site_pos "hole" self') = Ok hole_y /\
      Np.item 1 (_get_site_pos "buttonStart" self') = Ok start_y /\
      _target_pos (super self') = _get_site_pos "hole" self' /\
      ButtonPressWall._obj_to_target_init self' = Rabs (hole_y - start_y) /\
      0 <= ButtonPressWall._obj_to_target_init self' /\
      (0 < ButtonPressWall._obj_to_target_init self' <-> hole_y <> start_y).
Proof.
  intros _reset_hand set_body_pos qpos_copy qvel_copy set_state _get_obs
         rand_vec self self' obs Hobs Hrun.
  unfold ButtonPressWallSetup.reset_model in Hrun.
  do 10 (apply bind_Ok_inv in Hrun as (? & ? & _ & Hrun)).
  rewrite bind_gets in Hrun.
  apply bind_Ok_inv in Hrun as ([] & sa & Ha & Hrun).
  inversion Ha; subst sa; clear Ha.
  rewrite bind_attr in Hrun.
  apply bind_Ok_inv in Hrun as (hole_y & sb & Hhole & Hrun).
  apply lift_Ok_inv in Hhole as [Hhole ->].
  rewrite bind_gets in Hrun.
  apply bind_Ok_inv in Hrun as (start_y & sc & Hstart & Hrun).
  apply lift_Ok_inv in Hstart as [Hstart ->].
  rewrite bind_modify in Hrun.
  apply (read_only_run _ _ _ _ Hobs) in Hrun. subst self'.
  exists hole_y, start_y. simpl in *.
  split; [ exact Hhole | ]. split; [ exact Hstart | ].
  split; [ reflexivity | ]. split; [ reflexivity | ].
  split; [ apply Rabs_pos | ].
  split.
  - intros Hpos Heq. subst start_y.
    rewrite Rminus_diag, Rabs_R0 in Hpos. lra.
  - intros Hne. apply Rabs_pos_lt. lra.
Qed.

Lemma button_press_reset_model_example :
  exists obs self',
    ButtonPressWallSetup.reset_model Scenario.button_idle
      Scenario.button_idle_body_pos Scenario.button_joints
      Scenario.button_joints Scenario.button_idle_set_state
      Scenario.button_obs_now Scenario.button_draw Scenario.button_fresh_env
    = (Ok obs, self').
Proof. eexists _, _. reflexivity. Qed.

Lemma button_press_reset_model_caches_witness :
  exists self' hole_y start_y,
    Np.item 1 (_get_site_pos "hole" self') = Ok hole_y /\
    Np.item 1 (_get_site_pos "buttonStart" self') = Ok start_y /\
    _target_pos (super self') = _get_site_pos "hole" self' /\
    ButtonPressWall._obj_to_target_init self' = Rabs (hole_y - start_y) /\
    0 <= ButtonPressWall._obj_to_target_init self' /\
    (0 < ButtonPressWall._obj_to_target_init self' <-> hole_y <> start_y).
Proof.
  destruct button_press_reset_model_example as (obs & self' & Hrun).
  exists self'.
  refine (button_press_reset_model_caches Scenario.button_idle
            Scenario.button_idle_body_pos Scenario.button_joints
            Scenario.button_joints Scenario.button_idle_set_state
            Scenario.button_obs_now Scenario.button_draw
            Scenario.button_fresh_env self' obs _ Hrun).
  intros s. reflexivity.
Defined.

(** ** Writing the joints of the object *)

Lemma set_slice_fits i j v a :
  (i <= j)%nat -> (j <= List.length a)%nat -> List.length v = (j - i)%nat ->
  NpAssign.set_slice i j v a = Ok (firstn i a ++ v ++ skipn j a).
Proof.
  intros Hij Hj Hv. unfold NpAssign.set_slice, Np.slice.
  rewrite length_firstn, length_skipn.
  replace (Nat.min (j - i) (List.length a - i)) with (j - i)%nat by lia.
  rewrite Hv, Nat.eqb_refl. replace (i + (j - i))%nat with j by lia.
  reflexivity.
Qed.

Lemma splice_spec i j v (a : Np.array) :
  (i <= j)%nat -> (j <= List.length a)%nat -> List.length v = (j - i)%nat ->
  List.length (firstn i a ++ v ++ skipn j a) = List.length a /\
  Np.slice i j (firstn i a ++ v ++ skipn j a) = v /\
  forall k, (k < i \/ j <= k)%nat ->
            nth_error (firstn i a ++ v ++ skipn j a) k = nth_error a k.
Proof.
  intros Hij Hj Hv.
  assert (Hfi : List.length (firstn i a) = i)
    by (rewrite length_firstn; lia).
  split; [ | split ].
  - rewrite !length_app, Hfi, Hv, length_skipn. lia.
  - unfold Np.slice.
    rewrite skipn_app, Hfi, Nat.sub_diag, skipn_all2 by lia. simpl.
    rewrite firstn_app, Hv, Nat.sub_diag, <- Hv, firstn_all. simpl.
    apply app_nil_r.
  - intros k [Hk | Hk].
    + rewrite nth_error_app1 by lia. rewrite nth_error_firstn.
      rewrite (proj2 (Nat.ltb_lt k i) Hk). reflexivity.
    + rewrite nth_error_app2 by lia. rewrite Hfi.
      rewrite nth_error_app2 by lia. rewrite Hv.
      rewrite nth_error_skipn. f_equal. lia.
Qed.

(** X18.  Plate slide: [_set_obj_xyz] with a two-entry position hands
    [set_state] the current velocities unchanged and joint positions of
    the same length that hold the position at entries 9 and 10 and agree
    with the current ones everywhere else; with fewer than eleven joint
    positions it raises [ValueError] and never reaches [set_state]. *)
Theorem plate_slide_set_obj_xyz_joints :
  forall qpos_copy qvel_copy set_state pos self qpos s1 qvel s2,
    qpos_copy self = (Ok qpos, s1) ->
    qvel_copy s1 = (Ok qvel, s2) ->
    List.length pos = 2%nat ->
    ((11 <= List.length qpos)%nat ->
     exists qpos',
       PlateSlideBackSideSetup._set_obj_xyz qpos_copy qvel_copy set_state
         pos self = set_state qpos' qvel s2 /\
       List.length qpos' = List.length qpos /\
       Np.slice 9 11 qpos' = pos /\
       forall k, (k < 9 \/ 11 <= k)%nat ->
                 nth_error qpos' k = nth_error qpos k) /\
    ((List.length qpos < 11)%nat ->
     PlateSlideBackSideSetup._set_obj_xyz qpos_copy qvel_copy set_state
       pos self = (Raise ValueError, s2)).
Proof.
  intros qpos_copy qvel_copy set_state pos self qpos s1 qvel s2
         Hq Hv Hpos.
  unfold PlateSlideBackSideSetup._set_obj_xyz.
  rewrite (bind_run _ _ _ _ _ Hq), (bind_run _ _ _ _ _ Hv).
  split.
  - intros Hlen. exists (firstn 9 qpos ++ pos ++ skipn 11 qpos).
    rewrite set_slice_fits by lia.
    rewrite bind_lift_Ok.
    split; [ reflexivity | ].
    apply splice_spec; lia.
  - intros Hlen. unfold NpAssign.set_slice, Np.slice.
    rewrite length_firstn, length_skipn, Hpos.
    destruct (Nat.eqb 2 (Nat.min (11 - 9) (List.length qpos - 9))) eqn:He.
    + apply Nat.eqb_eq in He. lia.
    + destruct pos as [ | x [ | y [ | ? ? ] ] ]; try discriminate Hpos.
      reflexivity.
Qed.

Lemma plate_slide_set_obj_xyz_joints_witness :
  ((11 <= 11)%nat ->
   exists qpos',
     PlateSlideBackSideSetup._set_obj_xyz Scenario.joints Scenario.joints
       Scenario.idle_set_state [-0.15; 0.0] Example.plate_env
     = Scenario.idle_set_state qpos' [0; 0; 0; 0; 0; 0; 0; 0; 0; 0; 0]
         Example.plate_env /\
     List.length qpos' = 11%nat /\
     Np.slice 9 11 qpos' = [-0.15; 0.0] /\
     forall k, (k < 9 \/ 11 <= k)%nat ->
               nth_error qpos' k
               = nth_error [0; 0; 0; 0; 0; 0; 0; 0; 0; 0; 0] k) /\
  ((11 < 11)%nat ->
   PlateSlideBackSideSetup._set_obj_xyz Scenario.joints Scenario.joints
     Scenario.idle_set_state [-0.15; 0.0] Example.plate_env
   = (Raise ValueError, Example.plate_env)).
Proof.
  exact (plate_slide_set_obj_xyz_joints Scenario.joints Scenario.joints
           Scenario.idle_set_state [-0.15; 0.0] Example.plate_env
           _ _ _ _ eq_refl eq_refl eq_refl).
Defined.

Lemma set_item_spec i x (a : Np.array) :
  (i < List.length a)%nat ->
  NpAssign.set_item i x a = Ok (firstn i a ++ [x] ++ skipn (S i) a).
Proof.
  intros Hi. unfold NpAssign.set_item.
  destruct (Nat.ltb i (List.length a)) eqn:Hlt; [ reflexivity | ].
  apply Nat.ltb_ge in Hlt. lia.
Qed.

Lemma set_item_short i x (a : Np.array) :
  (List.length a <= i)%nat -> NpAssign.set_item i x a = Raise IndexError.
Proof.
  intros Hi. unfold NpAssign.set_item.
  destruct (Nat.ltb i (List.length a)) eqn:Hlt; [ | reflexivity ].
  apply Nat.ltb_lt in Hlt. lia.
Qed.

(** X19.  Button press: [_set_obj_xyz] hands [set_state] joint positions
    and velocities of the same lengths as the current ones, equal to them
    except at entry 9, which holds the given position and the velocity 0;
    with fewer than ten joint positions or velocities it raises
    [IndexError] and never reaches [set_state]. *)
Theorem button_press_set_obj_xyz_joints :
  forall qpos_copy qvel_copy set_state pos self qpos s1 qvel s2,
    qpos_copy self = (Ok qpos, s1) ->
    qvel_copy s1 = (Ok qvel, s2) ->
    ((10 <= List.length qpos)%nat -> (10 <= List.length qvel)%nat ->
     exists qpos' qvel',
       ButtonPressWallSetup._set_obj_xyz qpos_copy qvel_copy set_state
         pos self = set_state qpos' qvel' s2 /\
       List.length qpos' = List.length qpos /\
       List.length qvel' = List.length qvel /\
       nth_error qpos' 9 = Some pos /\
       nth_error qvel' 9 = Some 0 /\
       forall k, k <> 9%nat ->
                 nth_error qpos' k = nth_error qpos k /\
                 nth_error qvel' k = nth_error qvel k) /\
    ((List.length qpos < 10)%nat \/ (List.length qvel < 10)%nat ->
     ButtonPressWallSetup._set_obj_xyz qpos_copy qvel_copy set_state
       pos self = (Raise IndexError, s2)).
Proof.
  intros qpos_copy qvel_copy set_state pos self qpos s1 qvel s2 Hq Hv.
  unfold ButtonPressWallSetup._set_obj_xyz.
  rewrite (bind_run _ _ _ _ _ Hq), (bind_run _ _ _ _ _ Hv).
  split.
  - intros Hlq Hlv.
    exists (firstn 9 qpos ++ [pos] ++ skipn 10 qpos),
           (firstn 9 qvel ++ [0] ++ skipn 10 qvel).
    rewrite !set_item_spec by lia. rewrite !bind_lift_Ok.
    destruct (splice_spec 9 10 [pos] qpos) as (Hl1 & Hs1 & Hk1);
      try lia; try reflexivity.
    destruct (splice_spec 9 10 [0] qvel) as (Hl2 & Hs2 & Hk2);
      try lia; try reflexivity.
    split; [ reflexivity | ].
    split; [ exact Hl1 | ]. split; [ exact Hl2 | ].
    split.
    { rewrite nth_error_app2 by (rewrite length_firstn; lia).
      rewrite length_firstn.
      replace (9 - Nat.min 9 (List.length qpos))%nat with 0%nat by lia.
      reflexivity. }
    split.
    { rewrite nth_error_app2 by (rewrite length_firstn; lia).
      rewrite length_firstn.
      replace (9 - Nat.min 9 (List.length qvel))%nat with 0%nat by lia.
      reflexivity. }
    intros k Hk. split; [ apply Hk1 | apply Hk2 ]; lia.
  - intros [Hlq | Hlv].
    + rewrite set_item_short by lia. reflexivity.
    + destruct (Nat.ltb 9 (List.length qpos)) eqn:Hlt.
      * apply Nat.ltb_lt in Hlt. rewrite set_item_spec by lia.
        rewrite bind_lift_Ok, set_item_short by lia. reflexivity.
      * apply Nat.ltb_ge in Hlt. rewrite set_item_short by lia. reflexivity.
Qed.

Lemma button_press_set_obj_xyz_joints_witness :
  ((10 <= 10)%nat -> (10 <= 10)%nat ->
   exists qpos' qvel',
     ButtonPressWallSetup._set_obj_xyz Scenario.button_joints
       Scenario.button_joints Scenario.button_idle_set_state 0
       Scenario.button_fresh_env
     = Scenario.button_idle_set_state qpos' qvel' Scenario.button_fresh_env /\
     List.length qpos' = 10%nat /\
     List.length qvel' = 10%nat /\
     nth_error qpos' 9 = Some 0 /\
     nth_error qvel' 9 = Some 0 /\
     forall k, k <> 9%nat ->
               nth_error qpos' k
               = nth_error [0; 0; 0; 0; 0; 0; 0; 0; 0; 0.02] k /\
               nth_error qvel' k
               = nth_error [0; 0; 0; 0; 0; 0; 0; 0; 0; 0.02] k) /\
  ((10 < 10)%nat \/ (10 < 10)%nat ->
   ButtonPressWallSetup._set_obj_xyz Scenario.button_joints
     Scenario.button_joints Scenario.button_idle_set_state 0
     Scenario.button_fresh_env
   = (Raise IndexError, Scenario.button_fresh_env)).
Proof.
  exact (button_press_set_obj_xyz_joints Scenario.button_joints
           Scenario.button_joints Scenario.button_idle_set_state 0
           Scenario.button_fresh_env _ _ _ _ eq_refl eq_refl).
Defined.
